(** * emutools.tex: a shallow embedding of the TeX document assembler

    The Python module [emutools/tex.py] collects TeX lines in a two-level
    ordered mapping (section -> subsection -> list of lines), flattens that
    mapping into one string, and offers helpers for dates, figures and
    tables.  This file embeds those functions and proves properties of
    them.

    Conventions.
    - A Python [str] is a [string] (a list of 8-bit characters; text is
      taken in its UTF-8 encoding, on which byte-wise comparison agrees
      with Python's code-point comparison).
    - A Python [dict] keeps insertion order and has unique keys; it is an
      association list, read with [lookup] (first match) and written with
      [set_key] (in place when the key exists, appended otherwise).
    - A method that mutates [self] and may raise is a function from the
      object to the object afterwards and an outcome. *)

From Stdlib Require Import String Ascii List Arith NArith Bool Lia Permutation.
From Stdlib Require Import DecimalString.
Import ListNotations.
Local Open Scope list_scope.
Local Open Scope string_scope.

(* ------------------------------------------------------------------ *)
(** ** Strings *)

Module Str.

(** The one-character string holding a line feed, Python's ['\n']. *)
Definition nl : string := String (ascii_of_nat 10) EmptyString.

(** [s.lstrip(chars)] for a single character. *)
Fixpoint lstrip (c : ascii) (s : string) : string :=
  match s with
  | EmptyString => EmptyString
  | String a s' => if Ascii.eqb a c then lstrip c s' else s
  end.

(** [n] characters dropped from the front of [s]. *)
Fixpoint skip (n : nat) (s : string) : string :=
  match n, s with
  | O, _ => s
  | S n', String _ s' => skip n' s'
  | S _, EmptyString => EmptyString
  end.

(** [s.replace(old, new)] for a non-empty [old]: scan from the left; where
    [old] starts, write [new] and jump over the occurrence; otherwise keep
    the character.  [fuel] bounds the scan and [length s] suffices. *)
Fixpoint replace_fuel (fuel : nat) (old new s : string) : string :=
  match fuel with
  | O => s
  | S fuel' =>
      match s with
      | EmptyString => EmptyString
      | String a s' =>
          if prefix old s
          then new ++ replace_fuel fuel' old new (skip (String.length old) s)
          else String a (replace_fuel fuel' old new s')
      end
  end.

Definition replace (old new s : string) : string :=
  replace_fuel (String.length s) old new s.

(** [old in s]: [old] occurs somewhere in [s]. *)
Fixpoint occurs (old s : string) : bool :=
  prefix old s ||
  match s with
  | EmptyString => false
  | String _ s' => occurs old s'
  end.

(** An occurrence of [old] begins inside [a], in the text [a ++ rest]. *)
Fixpoint starts_within (old a rest : string) : bool :=
  match a with
  | EmptyString => false
  | String _ a' => prefix old (a ++ rest) || starts_within old a' rest
  end.

(** [s.lower()] for a text of ASCII characters: the letters A to Z are
    lowered and every other character is kept.  Python also lowers the
    letters outside ASCII, which this does not cover. *)
Definition lower_ascii (a : ascii) : ascii :=
  let n := nat_of_ascii a in
  if ((65 <=? n) && (n <=? 90))%nat then ascii_of_nat (n + 32) else a.

Fixpoint lower (s : string) : string :=
  match s with
  | EmptyString => EmptyString
  | String a s' => String (lower_ascii a) (lower s')
  end.

(** [str(n)] for a natural number. *)
Definition of_nat (n : nat) : string :=
  NilEmpty.string_of_uint (Nat.to_uint n).

(** The concatenation of a list of strings, [''.join(l)]. *)
Fixpoint join (l : list string) : string :=
  match l with
  | [] => EmptyString
  | s :: l' => s ++ join l'
  end.

(** [sep.join(l)]. *)
Fixpoint join_with (sep : string) (l : list string) : string :=
  match l with
  | [] => EmptyString
  | [s] => s
  | s :: l' => s ++ sep ++ join_with sep l'
  end.

End Str.

(* ------------------------------------------------------------------ *)
(** ** get_tex_formatted_date *)

Module Date.

(** The fields of a [datetime] that [strftime] reads here. *)
Record datetime := mk_datetime { year : nat; month : nat; day : nat }.

Definition is_leap (y : nat) : bool :=
  (((y mod 4 =? 0) && negb (y mod 100 =? 0)) || (y mod 400 =? 0))%nat.

Definition days_in_month (y m : nat) : nat :=
  match m with
  | 2 => if is_leap y then 29 else 28
  | 4 | 6 | 9 | 11 => 30
  | _ => 31
  end.

(** The dates a [datetime] can hold: years 1 to 9999 of the proleptic
    Gregorian calendar. *)
Definition valid_date (d : datetime) : bool :=
  ((1 <=? year d) && (year d <=? 9999) &&
  (1 <=? month d) && (month d <=? 12) &&
  (1 <=? day d) && (day d <=? days_in_month (year d) (month d)))%nat.

(** [n] in decimal, padded with zeros on the left to [width] characters. *)
Fixpoint zeros (n : nat) : string :=
  match n with
  | O => EmptyString
  | S n' => String "0" (zeros n')
  end.

Definition zero_padded (width n : nat) : string :=
  let s := Str.of_nat n in zeros (width - String.length s) ++ s.

(** [date.strftime('%d')]: the day of the month on two digits. *)
Definition strftime_d (d : datetime) : string := zero_padded 2 (day d).

(** [%B], the full month name (C locale). *)
Definition month_name (m : nat) : string :=
  match m with
  | 1 => "January" | 2 => "February" | 3 => "March" | 4 => "April"
  | 5 => "May" | 6 => "June" | 7 => "July" | 8 => "August"
  | 9 => "September" | 10 => "October" | 11 => "November"
  | 12 => "December"
  | _ => EmptyString
  end.

(** [%Y], the year with century as the C library of the platform prints
    it; glibc writes the decimal numeral without padding, so year 999 is
    "999". *)
Definition strftime_Y (d : datetime) : string := Str.of_nat (year d).

(** [date.strftime(' of %B %Y')]. *)
Definition strftime_of_B_Y (d : datetime) : string :=
  " of " ++ month_name (month d) ++ " " ++ strftime_Y d.

(** The dictionary [special_cases]. *)
Definition special_cases : list (string * string) :=
  [ ("1", "st"); ("2", "nd"); ("3", "rd");
    ("21", "st"); ("22", "nd"); ("23", "rd");
    ("31", "st") ].

Fixpoint dict_get (k : string) (d : list (string * string)) : option string :=
  match d with
  | [] => None
  | (k', v) :: d' => if String.eqb k' k then Some v else dict_get k d'
  end.

Definition get_tex_formatted_date (date : datetime) : string :=
  let date_of_month := Str.lstrip "0" (strftime_d date) in
  let text_super :=
    match dict_get date_of_month special_cases with
    | Some v => v
    | None => "th"
    end in
  date_of_month ++ "\textsuperscript{" ++ text_super ++ "}"
    ++ strftime_of_B_Y date.

(** The ordinal suffix as the specification words it. *)
Definition ordinal_suffix (day : nat) : string :=
  if ((day =? 1) || (day =? 21) || (day =? 31))%nat then "st"
  else if ((day =? 2) || (day =? 22))%nat then "nd"
  else if ((day =? 3) || (day =? 23))%nat then "rd"
  else "th".

(** The specification's month names, January first. *)
Definition english_month_names : list string :=
  [ "January"; "February"; "March"; "April"; "May"; "June"; "July";
    "August"; "September"; "October"; "November"; "December" ].

(** The first character of a string is not the digit zero. *)
Definition no_leading_zero (s : string) : bool :=
  match s with
  | String a _ => negb (Ascii.eqb a "0")
  | EmptyString => true
  end.

(** What [get_tex_formatted_date] computes from the day alone. *)
Definition day_checks (n : nat) : bool :=
  let date_of_month := Str.lstrip "0" (zero_padded 2 n) in
  String.eqb date_of_month (Str.of_nat n)
  && String.eqb (match dict_get date_of_month special_cases with
                 | Some v => v
                 | None => "th"
                 end) (ordinal_suffix n)
  && no_leading_zero (Str.of_nat n).

End Date.

(* ------------------------------------------------------------------ *)
(** ** Ordered dictionaries *)

Module Dict.

Section Ops.
Context {V : Type}.

Definition dict := list (string * V).

(** [d.keys()], in insertion order. *)
Definition keys (d : dict) : list string := map fst d.

(** [d[k]] when it exists. *)
Fixpoint lookup (k : string) (d : dict) : option V :=
  match d with
  | [] => None
  | (k', v) :: d' => if String.eqb k' k then Some v else lookup k d'
  end.

(** [k in d]. *)
Fixpoint has_key (k : string) (d : dict) : bool :=
  match d with
  | [] => false
  | (k', _) :: d' => String.eqb k' k || has_key k d'
  end.

(** [d[k] = v]: the value is replaced where the key stands, a new key goes
    to the end. *)
Fixpoint set_key (k : string) (v : V) (d : dict) : dict :=
  match d with
  | [] => [(k, v)]
  | (k', v') :: d' =>
      if String.eqb k' k then (k', v) :: d' else (k', v') :: set_key k v d'
  end.

(** The object stored at [k] is mutated in place by [f]; nothing happens
    when [k] is absent. *)
Fixpoint modify (k : string) (f : V -> V) (d : dict) : dict :=
  match d with
  | [] => []
  | (k', v') :: d' =>
      if String.eqb k' k then (k', f v') :: d' else (k', v') :: modify k f d'
  end.

(** The dictionary that gives [f k] to each key of a list, in order. *)
Definition tabulate (f : string -> V) (ks : list string) : dict :=
  map (fun k => (k, f k)) ks.

End Ops.
Arguments dict V : clear implicits.

End Dict.

(* ------------------------------------------------------------------ *)
(** ** Sorting lists of strings *)

Module Sorted.

(** [sorted(l)] on strings.  Python compares strings lexicographically;
    the order is total and antisymmetric, so the sorted list does not
    depend on the algorithm.  Insertion sort, stable as Python's is. *)
Fixpoint insert (x : string) (l : list string) : list string :=
  match l with
  | [] => [x]
  | y :: l' => if String.leb x y then x :: l else y :: insert x l'
  end.

Fixpoint sorted (l : list string) : list string :=
  match l with
  | [] => []
  | x :: l' => insert x (sorted l')
  end.

(** Every element of the list is at least [x]. *)
Definition lower_bound (x : string) (l : list string) : Prop :=
  Forall (fun y => String.leb x y = true) l.

Inductive ascending : list string -> Prop :=
| asc_nil : ascending []
| asc_cons x l : lower_bound x l -> ascending l -> ascending (x :: l).

End Sorted.

(* ------------------------------------------------------------------ *)
(** ** The document object *)

Module Tex.
Import Dict.

(** [content]: section -> subsection -> lines. *)
Definition subsections := dict (list string).
Definition content_t := dict subsections.

(** [StandardTexDoc] inherits from [ConcreteTexDoc] and overrides
    [prepare_doc] only. *)
Inductive doc_class := ConcreteTexDoc | StandardTexDoc.

Record TexDoc := mk_TexDoc {
  cls : doc_class;
  content : content_t;
  path : string;
  doc_name : string;
  bib_filename : string;
  title : string;
  prepared : bool;
  table_of_contents : bool
}.

(** [self.standard_sections], set by [__init__] and never written again. *)
Definition standard_sections : list string := ["preamble"; "endings"].

(** [__init__]. *)
Definition init (c : doc_class) (path doc_name title bib_filename : string)
    (table_of_contents : bool) : TexDoc :=
  {| cls := c; content := []; path := path; doc_name := doc_name;
     bib_filename := bib_filename; title := title; prepared := false;
     table_of_contents := table_of_contents |}.

Definition set_content (c : content_t) (d : TexDoc) : TexDoc :=
  {| cls := cls d; content := c; path := path d; doc_name := doc_name d;
     bib_filename := bib_filename d; title := title d;
     prepared := prepared d; table_of_contents := table_of_contents d |}.

Definition set_prepared (b : bool) (d : TexDoc) : TexDoc :=
  {| cls := cls d; content := content d; path := path d;
     doc_name := doc_name d; bib_filename := bib_filename d;
     title := title d; prepared := b;
     table_of_contents := table_of_contents d |}.

(** *** Methods: state of the object and exceptions *)

Inductive exn :=
| ValueError (msg : string)
| KeyError (key : string)
| FileNotFoundError (file : string).

(** A method body: the object afterwards, and the value returned or the
    exception raised.  An exception keeps the mutations made before it. *)
Definition M (A : Type) : Type := TexDoc -> TexDoc * (exn + A).

Definition ret {A} (a : A) : M A := fun d => (d, inr a).
Definition raise {A} (e : exn) : M A := fun d => (d, inl e).
Definition bind {A B} (m : M A) (k : A -> M B) : M B :=
  fun d =>
    match m d with
    | (d', inr a) => k a d'
    | (d', inl e) => (d', inl e)
    end.
Definition get : M TexDoc := fun d => (d, inr d).
Definition update (f : TexDoc -> TexDoc) : M unit := fun d => (f d, inr tt).

Declare Scope method_scope.
Delimit Scope method_scope with method.
Notation "x <- m ;; k" := (bind m (fun x => k))
  (at level 61, m at next level, right associativity) : method_scope.
Notation "m ;; k" := (bind m (fun _ => k))
  (at level 61, right associativity) : method_scope.

(** [for x in l: body(x)]. *)
Fixpoint for_each {A} (l : list A) (body : A -> M unit) : M unit :=
  match l with
  | [] => ret tt
  | x :: l' => bind (body x) (fun _ => for_each l' body)
  end.

(** A pure computation that may raise. *)
Definition res (A : Type) : Type := (exn + A)%type.
Definition rbind {A B} (r : res A) (k : A -> res B) : res B :=
  match r with
  | inr a => k a
  | inl e => inl e
  end.

(** [d[k]], raising [KeyError] when the key is absent. *)
Definition getitem {V} (k : string) (d : dict V) : res V :=
  match lookup k d with
  | Some v => inr v
  | None => inl (KeyError k)
  end.

(** *** add_line *)

Definition setdefault_empty {V} (k : string) (empty : V) (d : dict V)
    : dict V :=
  if negb (has_key k d) then set_key k empty d else d.

(** The effect of [add_line] on [self.content]. *)
Definition add_line_content (line section subsection : string)
    (c : content_t) : content_t :=
  (* if section not in self.content: self.content[section] = {} *)
  let c1 := setdefault_empty section [] c in
  modify section
    (fun subs =>
       if String.eqb subsection "" (* not subsection *) then
         let subs1 := setdefault_empty "" [] subs in
         modify "" (fun ls => ls ++ [line])%list subs1
       else
         let subs1 := setdefault_empty subsection [] subs in
         modify subsection (fun ls => ls ++ [line])%list subs1)
    c1.

Definition add_line (line section : string) (subsection : string) : M unit :=
  update (fun d => set_content
                     (add_line_content line section subsection (content d)) d).

(** The subsections of a section after a line went into subsection [u]. *)
Definition subs_after (line u : string) (subs : subsections) : subsections :=
  modify u (fun ls => ls ++ [line])%list (setdefault_empty u [] subs).

Definition or_empty {V} (o : option (list V)) : list V :=
  match o with Some v => v | None => [] end.

(** [content[s][u]] read as a list, empty where a key is missing. *)
Definition lines_at (c : content_t) (s u : string) : list string :=
  or_empty (lookup u (or_empty (lookup s c))).

(** *** prepare_doc *)

(** [ConcreteTexDoc.prepare_doc]. *)
Definition prepare_doc_concrete : M unit :=
  update (set_prepared true).

Definition standard_packages : list string :=
  [ "hyperref"; "graphicx"; "longtable"; "booktabs"; "array"; "svg";
    "adjustbox"; "float" ].

(** [StandardTexDoc.prepare_doc]. *)
Definition prepare_doc_standard : M unit :=
  (update (set_prepared true) ;;
   add_line "\documentclass{article}" "preamble" "" ;;
   for_each standard_packages
     (fun package =>
        add_line ("\usepackage{" ++ package ++ "}") "preamble" "") ;;
   add_line "\DeclareUnicodeCharacter{2212}{-}" "preamble" "" ;;
   add_line "\usepackage[sorting=none, style=science]{biblatex}"
     "preamble" "" ;;
   add_line "\usepackage[a4paper, total={15cm, 20cm}]{geometry}"
     "preamble" "" ;;
   add_line "\usepackage[labelfont=bf,it]{caption}" "preamble" "" ;;
   d <- get ;;
   add_line ("\addbibresource{" ++ bib_filename d ++ ".bib}") "preamble" "" ;;
   add_line ("\title{" ++ title d ++ "}") "preamble" "" ;;
   add_line "\begin{document}" "preamble" "" ;;
   add_line "\date{}" "preamble" "" ;;
   add_line "\maketitle" "preamble" "" ;;
   (if table_of_contents d
    then add_line "\tableofcontents" "preamble" ""
    else ret tt) ;;
   add_line "\printbibliography" "endings" "" ;;
   add_line "\end{document}" "endings" "")%method.

(** [self.prepare_doc()], resolved on the class of the object. *)
Definition prepare_doc : M unit :=
  fun d =>
    match cls d with
    | ConcreteTexDoc => prepare_doc_concrete d
    | StandardTexDoc => prepare_doc_standard d
    end.

(** *** emit_doc *)

(** [s in self.standard_sections]. *)
Definition is_standard (s : string) : bool :=
  existsb (String.eqb s) standard_sections.

Definition not_standard (s : string) : bool := negb (is_standard s).

(** [name.lower().replace(" ", "_")]. *)
Definition label_of (name : string) : string :=
  Str.replace " " "_" (Str.lower name).

Definition section_header (section : string) : string :=
  Str.nl ++ "\section{" ++ section ++ "} \label{" ++ label_of section ++ "}"
    ++ Str.nl.

Definition subsection_header (subsection : string) : string :=
  Str.nl ++ "\subsection{" ++ subsection ++ "} \label{"
    ++ label_of subsection ++ "}" ++ Str.nl.

(** [for line in ls: final_text += f'{line}\n']. *)
Fixpoint write_lines (ls : list string) (final_text : string) : string :=
  match ls with
  | [] => final_text
  | line :: ls' => write_lines ls' (final_text ++ line ++ Str.nl)
  end.

(** The loop over the named subsections of one section. *)
Fixpoint write_subsections (subs : subsections) (ks : list string)
    (final_text : string) : res string :=
  match ks with
  | [] => inr final_text
  | subsection :: ks' =>
      let final_text := final_text ++ subsection_header subsection in
      rbind (getitem subsection subs) (fun ls =>
        write_subsections subs ks' (write_lines ls final_text))
  end.

Definition named (k : string) : bool := negb (String.eqb k "").

(** The loop over the sections of [order]. *)
Fixpoint write_sections (c : content_t) (order : list string)
    (final_text : string) : res string :=
  match order with
  | [] => inr final_text
  | section :: order' =>
      let final_text := final_text ++ section_header section in
      rbind (getitem section c) (fun subs =>
        rbind (if has_key "" subs
               then rbind (getitem "" subs) (fun ls =>
                      inr (write_lines ls final_text))
               else inr final_text) (fun final_text =>
          rbind (write_subsections subs (filter named (keys subs)) final_text)
            (fun final_text => write_sections c order' final_text)))
  end.

(** The text built by [emit_doc] once the order is known and the document
    is prepared. *)
Definition emit_text (c : content_t) (order : list string) : res string :=
  rbind (getitem "preamble" c) (fun pre =>
  rbind (getitem "" pre) (fun ls =>
    let final_text := write_lines ls "" in
    rbind (write_sections c (filter not_standard order) final_text)
      (fun final_text =>
         rbind (getitem "endings" c) (fun en =>
         rbind (getitem "" en) (fun ls =>
           inr (write_lines ls final_text)))))).

Definition lift {A} (r : res A) : M A := fun d => (d, r).

Definition bad_order_msg : string :=
  "Sections requested are not those in the current contents".

(** The test [section_order and sorted(section_order) != content_sections]. *)
Definition order_rejected (c : content_t) (section_order : list string)
    : bool :=
  let content_sections := Sorted.sorted (filter not_standard (keys c)) in
  match section_order with
  | [] => false
  | _ :: _ =>
      if list_eq_dec string_dec (Sorted.sorted section_order) content_sections
      then false else true
  end.

(** [emit_doc].  [order] is [section_order] or the live view
    [self.content.keys()], which is read when the loop starts, after
    [prepare_doc]. *)
Definition emit_doc (section_order : list string) : M string :=
  (d <- get ;;
   if order_rejected (content d) section_order
   then raise (ValueError bad_order_msg)
   else
     (if negb (prepared d) then prepare_doc else ret tt) ;;
     d' <- get ;;
     let order := match section_order with
                  | [] => keys (content d')
                  | _ :: _ => section_order
                  end in
     lift (emit_text (content d') order))%method.

(** *** The emitted text as a sequence of pieces *)

Inductive piece :=
| Line (line : string)
| SectionHeader (section : string)
| SubsectionHeader (subsection : string).

Definition render (p : piece) : string :=
  match p with
  | Line line => line ++ Str.nl
  | SectionHeader s => section_header s
  | SubsectionHeader s => subsection_header s
  end.

Definition render_all (ps : list piece) : string :=
  Str.join (map render ps).

(** The lines among the pieces, in order. *)
Fixpoint lines_of (ps : list piece) : list string :=
  match ps with
  | [] => []
  | Line l :: ps' => l :: lines_of ps'
  | _ :: ps' => lines_of ps'
  end.

Fixpoint subsection_pieces (subs : subsections) (ks : list string)
    : res (list piece) :=
  match ks with
  | [] => inr []
  | subsection :: ks' =>
      rbind (getitem subsection subs) (fun ls =>
      rbind (subsection_pieces subs ks') (fun ps =>
        inr (SubsectionHeader subsection :: map Line ls ++ ps)%list))
  end.

Fixpoint section_pieces (c : content_t) (order : list string)
    : res (list piece) :=
  match order with
  | [] => inr []
  | section :: order' =>
      rbind (getitem section c) (fun subs =>
      rbind (if has_key "" subs then getitem "" subs else inr []) (fun ls =>
      rbind (subsection_pieces subs (filter named (keys subs))) (fun ps1 =>
      rbind (section_pieces c order') (fun ps2 =>
        inr (SectionHeader section :: map Line ls ++ ps1 ++ ps2)%list))))
  end.

Definition emit_pieces (c : content_t) (order : list string)
    : res (list piece) :=
  rbind (getitem "preamble" c) (fun pre =>
  rbind (getitem "" pre) (fun ls1 =>
  rbind (section_pieces c (filter not_standard order)) (fun ps =>
  rbind (getitem "endings" c) (fun en =>
  rbind (getitem "" en) (fun ls2 =>
    inr (map Line ls1 ++ ps ++ map Line ls2)%list))))).

(** The section names among the pieces, in order. *)
Fixpoint sections_of (ps : list piece) : list string :=
  match ps with
  | [] => []
  | SectionHeader s :: ps' => s :: sections_of ps'
  | _ :: ps' => sections_of ps'
  end.

(** The object as [prepare_doc] leaves it. *)
Definition prepared_state (d : TexDoc) : TexDoc := fst (prepare_doc d).

(** The object as [emit_doc] finds it once preparation is settled. *)
Definition ready (d : TexDoc) : TexDoc :=
  if prepared d then d else prepared_state d.

(** [order] in [emit_doc]. *)
Definition order_of (section_order : list string) (d : TexDoc)
    : list string :=
  match section_order with
  | [] => keys (content d)
  | _ :: _ => section_order
  end.

(** [self.content[s]['']] exists. *)
Definition has_plain_lines (s : string) (c : content_t) : bool :=
  match lookup s c with
  | Some subs => has_key "" subs
  | None => false
  end.

End Tex.

(* ------------------------------------------------------------------ *)
(** ** Figures and tables *)

Module Blocks.
Import Dict Tex.

Section Blocks.

(** Python floats and the three operations on them that the module uses
    are taken as given. *)
Variable float : Type.
(** [str(round(x, 2))]. *)
Variable str_round2 : float -> string.
(** [round(1.0 / n, 4)]. *)
Variable round4_inv : nat -> float.
(** [x * y]. *)
Variable fmul : float -> float -> float.
(** [f'{x}']. *)
Variable fstr : float -> string.

(** A pandas [DataFrame], its number of columns [table.shape[1]] and the
    converter [table.style.to_latex(column_format=c, hrules=True)]. *)
Variable DataFrame : Type.
Variable shape1 : DataFrame -> nat.
Variable to_latex : DataFrame -> string -> string.

Definition begin_tabular : string := "\begin{tabular}".
Definition end_tabular : string := "\end{tabular}".

Definition get_tex_longtable (table : DataFrame)
    (col_format_str caption_str label_str : string) : string :=
  let start_str := "\begin{longtable}" ++ Str.nl in
  let table_text := to_latex table col_format_str in
  let table_text := Str.replace begin_tabular "" table_text in
  let table_text := Str.replace end_tabular "" table_text in
  let end_str := "\end{longtable}" in
  start_str ++ table_text ++ caption_str ++ label_str ++ end_str.

Definition get_tex_table (table : DataFrame)
    (col_format_str caption_str label_str : string) : string :=
  let start_str := "\begin{table}" ++ Str.nl in
  let table_text := to_latex table col_format_str in
  let end_str := "\end{table}" in
  start_str ++ table_text ++ caption_str ++ label_str ++ end_str.

(** The seven lines that [include_figure] adds, in order. *)
Definition figure_lines (command title filename filetype fig_path caption
    : string) (fig_width : float) : list string :=
  [ "\begin{figure}[H]";
    "\caption{\textbf{" ++ title ++ "} " ++ caption ++ "}";
    "\begin{adjustbox}{center, max width=\paperwidth}";
    "\" ++ command ++ "[width=" ++ str_round2 fig_width ++ "\paperwidth]{./"
      ++ fig_path ++ "/" ++ filename ++ "." ++ filetype ++ "}";
    "\end{adjustbox}";
    "\label{" ++ filename ++ "}";
    "\end{figure}" ++ Str.nl ].

Definition include_figure (title filename filetype fig_path section
    subsection caption : string) (fig_width : float) : M unit :=
  (command <-
     (if String.eqb filetype "jpg" then ret "includegraphics"
      else if String.eqb filetype "svg" then ret "includesvg"
      else raise (ValueError "File type for figure not supported yet")) ;;
   add_line "\begin{figure}[H]" section subsection ;;
   add_line ("\caption{\textbf{" ++ title ++ "} " ++ caption ++ "}")
     section subsection ;;
   add_line "\begin{adjustbox}{center, max width=\paperwidth}"
     section subsection ;;
   let command_str :=
     "\" ++ command ++ "[width=" ++ str_round2 fig_width ++ "\paperwidth]{./"
       ++ fig_path ++ "/" ++ filename ++ "." ++ filetype ++ "}" in
   add_line command_str section subsection ;;
   add_line "\end{adjustbox}" section subsection ;;
   add_line ("\label{" ++ filename ++ "}") section subsection ;;
   add_line ("\end{figure}" ++ Str.nl) section subsection)%method.

(** [splits]: [not col_splits] holds for [None] and for the empty list,
    and then the width is shared evenly. *)
Definition splits_of (n_cols : nat) (col_splits : option (list float))
    : res (list float) :=
  match col_splits with
  | None | Some [] => inr (repeat (round4_inv n_cols) n_cols)
  | Some l =>
      if negb (List.length l =? n_cols)%nat
      then inl (ValueError
                  "Wrong number of proportion column splits requested")
      else inr l
  end.

Definition col_format (width : float) : string :=
  ">{\raggedright\arraybackslash}p{" ++ fstr width ++ "cm}".

Definition include_table (table : DataFrame) (name title section subsection
    : string) (col_splits : option (list float)) (table_width : float)
    (longtable : bool) (caption : string) : M unit :=
  (let n_cols := shape1 table + 1 in
   splits <- lift (splits_of n_cols col_splits) ;;
   let col_widths := map (fun w => fmul w table_width) splits in
   let col_str := Str.join_with " " (map col_format col_widths) in
   let label_str := "\label{" ++ name ++ "}" ++ Str.nl in
   let caption_str :=
     "\caption{\textbf{" ++ title ++ "} " ++ caption ++ "}" ++ Str.nl in
   let table_str :=
     if longtable
     then get_tex_longtable table col_str caption_str label_str
     else get_tex_table table col_str caption_str label_str in
   add_line table_str section subsection)%method.

(** The embed command of a supported file type. *)
Definition command_of (filetype : string) : string :=
  if String.eqb filetype "jpg" then "includegraphics" else "includesvg".

(** The table block that [include_table] builds from given splits. *)
Definition table_block (table : DataFrame) (name title : string)
    (splits : list float) (table_width : float) (longtable : bool)
    (caption : string) : string :=
  let col_widths := map (fun w => fmul w table_width) splits in
  let col_str := Str.join_with " " (map col_format col_widths) in
  let label_str := "\label{" ++ name ++ "}" ++ Str.nl in
  let caption_str :=
    "\caption{\textbf{" ++ title ++ "} " ++ caption ++ "}" ++ Str.nl in
  if longtable
  then get_tex_longtable table col_str caption_str label_str
  else get_tex_table table col_str caption_str label_str.

End Blocks.

End Blocks.

(* ------------------------------------------------------------------ *)
(** ** Saving and loading the content *)

Module Persist.
Import Dict Tex.

Section Persist.

(** What a file holds, and the two functions of the YAML library:
    [yml.dump(data, file)] and [yml.load(file, Loader=yml.FullLoader)]. *)
Variable file : Type.
Variable yml_dump : content_t -> file.
Variable yml_load : file -> content_t.

(** The files on disc, by path. *)
Definition filesystem := dict file.

(** [self.path / f'{self.doc_name}.yml'], written as the text of the
    joined path.  The text names the file that pathlib makes when the name
    is plain ([Paths.plain_name]).  For a name with "/" it is only a key
    that saving and loading one document share: pathlib can then make
    another path (an absolute name replaces the directory), and two texts
    can stand for one file. *)
Definition yml_path (d : TexDoc) : string :=
  path d ++ "/" ++ doc_name d ++ ".yml".

Definition save_content (d : TexDoc) (fs : filesystem) : filesystem :=
  set_key (yml_path d) (yml_dump (content d)) fs.

Definition load_content (fs : filesystem) : M unit :=
  fun d =>
    match lookup (yml_path d) fs with
    | Some f => (set_content (yml_load f) d, inr tt)
    | None => (d, inl (FileNotFoundError (yml_path d)))
    end.

End Persist.

End Persist.

(** The YAML library as far as the content mapping meets it.  A document
    is the tree of mapping and sequence nodes in the order in which they
    stand in the file.  [dump] represents a mapping with its keys sorted
    (the library's default, [sort_keys=True], applies at every level since
    [save_content] passes no option) and a list in its own order; [load]
    builds dictionaries and lists in document order.  Scalars are strings
    and come back as written. *)
Module PyYAML.
Import Dict Tex.

Section SortItems.
Context {V : Type}.

Fixpoint insert_item (x : string * V) (l : dict V) : dict V :=
  match l with
  | [] => [x]
  | y :: l' => if String.leb (fst x) (fst y) then x :: l
               else y :: insert_item x l'
  end.

(** [sorted(mapping.items())] for unique keys. *)
Fixpoint sort_items (l : dict V) : dict V :=
  match l with
  | [] => []
  | x :: l' => insert_item x (sort_items l')
  end.

End SortItems.

Definition document := content_t.

Definition dump (c : content_t) : document :=
  sort_items (map (fun '(s, subs) => (s, sort_items subs)) c).

Definition load (doc : document) : content_t := doc.

End PyYAML.

(* ------------------------------------------------------------------ *)
(** ** Sequences of add_line calls *)

Module Calls.
Import Dict Tex.

(** One call [add_line(line, section, subsection)]. *)
Record call := mk_call { line : string; section : string; subsection : string }.

(** The calls made one after the other on the same object. *)
Definition add_lines (calls : list call) : M unit :=
  for_each calls (fun c => add_line (line c) (section c) (subsection c)).

(** The elements of a list in the order of their first occurrence. *)
Definition first_seen (l : list string) : list string :=
  fold_left
    (fun acc x => if existsb (String.eqb x) acc then acc else (acc ++ [x])%list)
    l [].

Definition in_section (s : string) (c : call) : bool :=
  String.eqb (section c) s.

Definition at_place (s u : string) (c : call) : bool :=
  String.eqb (section c) s && String.eqb (subsection c) u.

(** The sections in the order in which the calls first name them. *)
Definition sections_added (calls : list call) : list string :=
  first_seen (map section calls).

(** The subsections of section [s], in the order in which the calls first
    name them. *)
Definition subsections_added (calls : list call) (s : string) : list string :=
  first_seen (map subsection (filter (in_section s) calls)).

(** The lines added to subsection [u] of section [s], in call order. *)
Definition lines_added (calls : list call) (s u : string) : list string :=
  map line (filter (at_place s u) calls).

(** The lines of one section: those without subsection first, then the
    named subsections in order of first use. *)
Definition section_lines (calls : list call) (s : string) : list string :=
  (lines_added calls s "" ++
   flat_map (lines_added calls s) (filter named (subsections_added calls s)))%list.

(** The lines of the whole document: the preamble's lines without
    subsection, the other sections in order of first use, the endings'
    lines without subsection. *)
Definition expected_lines (calls : list call) : list string :=
  (lines_added calls "preamble" "" ++
   flat_map (section_lines calls) (filter not_standard (sections_added calls)) ++
   lines_added calls "endings" "")%list.

(** The calls behind [expected_lines], in the same order. *)
Definition section_calls (calls : list call) (s : string) : list call :=
  (filter (at_place s "") calls ++
   flat_map (fun u => filter (at_place s u) calls)
     (filter named (subsections_added calls s)))%list.

Definition expected_calls (calls : list call) : list call :=
  (filter (at_place "preamble" "") calls ++
   flat_map (section_calls calls) (filter not_standard (sections_added calls)) ++
   filter (at_place "endings" "") calls)%list.

(** A call whose line [emit_doc] writes: any line of an ordinary section,
    and the lines without subsection of the two standard sections. *)
Definition emitted (c : call) : bool :=
  not_standard (section c) || String.eqb (subsection c) "".

(** A call for a section other than the two standard ones. *)
Definition ordinary (k : call) : bool := not_standard (section k).

(** The content that the calls build from the empty dictionary. *)
Definition content_of (calls : list call) : content_t :=
  tabulate
    (fun s => tabulate (lines_added calls s) (subsections_added calls s))
    (sections_added calls).

(** The effect of the calls on the content. *)
Definition add_lines_content (calls : list call) (c : content_t) : content_t :=
  fold_left
    (fun c k => add_line_content (line k) (section k) (subsection k) c)
    calls c.

(** The calls that [StandardTexDoc.prepare_doc] makes, in order. *)
Definition boilerplate (d : TexDoc) : list call :=
  (mk_call "\documentclass{article}" "preamble" ""
   :: map (fun package =>
             mk_call ("\usepackage{" ++ package ++ "}") "preamble" "")
        standard_packages
   ++ [ mk_call "\DeclareUnicodeCharacter{2212}{-}" "preamble" "";
        mk_call "\usepackage[sorting=none, style=science]{biblatex}"
          "preamble" "";
        mk_call "\usepackage[a4paper, total={15cm, 20cm}]{geometry}"
          "preamble" "";
        mk_call "\usepackage[labelfont=bf,it]{caption}" "preamble" "";
        mk_call ("\addbibresource{" ++ bib_filename d ++ ".bib}")
          "preamble" "";
        mk_call ("\title{" ++ title d ++ "}") "preamble" "";
        mk_call "\begin{document}" "preamble" "";
        mk_call "\date{}" "preamble" "";
        mk_call "\maketitle" "preamble" "" ]
   ++ (if table_of_contents d
       then [ mk_call "\tableofcontents" "preamble" "" ] else [])
   ++ [ mk_call "\printbibliography" "endings" "";
        mk_call "\end{document}" "endings" "" ])%list.

End Calls.

(* ------------------------------------------------------------------ *)
(** ** Sample documents *)

Module Examples.
Import Dict Tex Calls.

(** A new document of either class. *)
Definition fresh (c : doc_class) : TexDoc :=
  init c "out" "report" "T" "refs" false.

(** The object after a sequence of [add_line] calls. *)
Definition after (calls : list call) (d : TexDoc) : TexDoc :=
  fst (add_lines calls d).

(** One line in section "Intro", one in its subsection "Background". *)
Definition hello_calls : list call :=
  [ mk_call "Hello" "Intro" ""; mk_call "World" "Intro" "Background" ].

(** Two sections, added in the order "Methods", "Results". *)
Definition two_sections : list call :=
  [ mk_call "We measured." "Methods" ""; mk_call "It worked." "Results" "" ].

(** Standard sections filled by hand, with one line in a named subsection
    of the preamble. *)
Definition preamble_notes : list call :=
  [ mk_call "p" "preamble" ""; mk_call "e" "endings" "";
    mk_call "x" "preamble" "notes" ].

(** An ordinary section used before the standard ones. *)
Definition late_preamble : list call :=
  [ mk_call "Hello" "Intro" ""; mk_call "World" "Intro" "Background";
    mk_call "Again" "Intro" ""; mk_call "Hello" "Intro" "";
    mk_call "p" "preamble" ""; mk_call "e" "endings" "";
    mk_call "Bye" "Outro" "Last" ].

(** Stand-ins for what the module takes from Python and pandas, to run
    the figure and table functions on an input.  A float is held as its
    decimal text; a table is its number of columns and its converted
    text. *)
Definition sample_float := string.
Definition sample_str_round2 (x : sample_float) : string := x.
Definition sample_round4_inv (n : nat) : sample_float :=
  "round(1.0/" ++ Str.of_nat n ++ ", 4)".
Definition sample_fmul (x y : sample_float) : sample_float := x ++ "*" ++ y.
Definition sample_fstr (x : sample_float) : string := x.
Definition sample_table := (nat * string)%type.
Definition sample_shape1 (t : sample_table) : nat := fst t.
Definition sample_to_latex (t : sample_table) (column_format : string)
    : string :=
  "\begin{tabular}{" ++ column_format ++ "}" ++ Str.nl ++ snd t
    ++ "\end{tabular}" ++ Str.nl.

(** A table of three columns. *)
Definition three_columns : sample_table :=
  (3, "\toprule" ++ Str.nl ++ " & a & b & c \\" ++ Str.nl ++ "\midrule"
        ++ Str.nl ++ "0 & 1 & 2 & 3 \\" ++ Str.nl ++ "\bottomrule" ++ Str.nl).

(** Two sections, added in the order "Results", "Methods", the second
    with subsections "Sampling" then "Analysis". *)
Definition results_first : list call :=
  [ mk_call "It worked." "Results" "";
    mk_call "We sampled." "Methods" "Sampling";
    mk_call "We fitted." "Methods" "Analysis";
    mk_call "Twice." "Methods" "Sampling" ].

End Examples.

(* ------------------------------------------------------------------ *)
(** ** File names *)

Module Paths.

(** A name without "/".  Joined to a directory by pathlib's [/], such a
    name is kept as it is: it cannot be absolute and holds no "." or ".."
    component for the join to act on, so two such names that differ give
    two files of the directory. *)
Definition plain_name (s : string) : bool := negb (Str.occurs "/" s).

End Paths.

(* ------------------------------------------------------------------ *)
(** ** Dictionaries have unique keys *)

Module Shape.
Import Dict Tex.

(** No string occurs twice in the list. *)
Fixpoint distinct (l : list string) : bool :=
  match l with
  | [] => true
  | x :: l' => negb (existsb (String.eqb x) l') && distinct l'
  end.

(** The content is a dictionary of dictionaries: no section name occurs
    twice, and in no section a subsection name occurs twice. *)
Definition unique_keys (c : content_t) : bool :=
  distinct (keys c) && forallb (fun e => distinct (keys (snd e))) c.

End Shape.

(* ------------------------------------------------------------------ *)
(** ** write_doc *)

Module Output.
Import Dict Tex.

(** The text files on disc, by path.  The directory [self.path] is taken
    to exist. *)
Definition text_files := dict string.

(** [self.path / f'{self.doc_name}.tex'], written as the text of the
    joined path, as for [Persist.yml_path]. *)
Definition tex_path (d : TexDoc) : string :=
  path d ++ "/" ++ doc_name d ++ ".tex".

(** [write_doc].  [open(..., 'w')] creates the file or empties it before
    [emit_doc] runs; when [emit_doc] raises, nothing is written and the
    [with] block closes the file as it is. *)
Definition write_doc (order : list string) (d : TexDoc) (fs : text_files)
    : TexDoc * text_files * (exn + unit) :=
  let fs1 := set_key (tex_path d) "" fs in
  match emit_doc order d with
  | (d', inr text) => (d', set_key (tex_path d) text fs1, inr tt)
  | (d', inl e) => (d', fs1, inl e)
  end.

End Output.

(* ------------------------------------------------------------------ *)
(** ** add_image_to_doc *)

Module Images.
Import Dict Tex Blocks.

(** The figure object, by the [isinstance] test it passes first: a numpy
    array, a matplotlib figure, a plotly figure, or none of them. *)
Inductive figure := NdArray | MplFig | PlotlyFig | OtherObject.

(** What the function does on disc, in order.  For an array the figure
    saved is pyplot's current one.  The directory [tex_doc.path] is taken
    to exist. *)
Inductive disk_event :=
| Mkdir (dir : string)
| SaveFigure (fig : figure) (file : string).

(** The document passed in: a [DummyTexDoc], which has no attribute
    [path], or an object of the classes with a content. *)
Inductive tex_target := Dummy | Store (d : TexDoc).

(** [SaveError] stands for the exception that the plotting library
    raises when asked for a file type it does not write. *)
Inductive image_exn :=
| TypeError (msg : string)
| SaveError (filetype : string)
| Raised (e : exn).

Section Images.
Variable float : Type.
Variable str_round2 : float -> string.
(** Whether [savefig] / [write_image] writes a file of this type for this
    figure; when it does not, it raises and writes nothing. *)
Variable library_saves : figure -> string -> bool.

Definition fig_folder : string := "figures".

(** [tex_doc.path / fig_folder], as the text of the joined path. *)
Definition fig_dir (d : TexDoc) : string := path d ++ "/" ++ fig_folder.

(** [fig_path / full_filename], as the text of the joined path; it is
    what pathlib makes when [filename] is plain ([Paths.plain_name]). *)
Definition fig_file (d : TexDoc) (filename filetype : string) : string :=
  fig_dir d ++ "/" ++ (filename ++ "." ++ filetype).

Definition add_image_to_doc (fig : figure) (filename filetype title : string)
    (tex_doc : tex_target) (section subsection caption : string)
    (fig_width : float)
    : tex_target * list disk_event * (image_exn + unit) :=
  match tex_doc with
  | Dummy => (Dummy, [], inr tt)
  | Store d =>
      let made := [Mkdir (fig_dir d)] in
      match fig with
      | OtherObject =>
          (Store d, made, inl (TypeError "Figure type not supported"))
      | _ =>
          if library_saves fig filetype then
            let saved :=
              (made ++ [SaveFigure fig (fig_file d filename filetype)])%list in
            match include_figure float str_round2 title filename filetype
                    fig_folder section subsection caption fig_width d with
            | (d', inr _) => (Store d', saved, inr tt)
            | (d', inl e) => (Store d', saved, inl (Raised e))
            end
          else (Store d, made, inl (SaveError filetype))
      end
  end.

(** The content of the document passed in, none for a [DummyTexDoc]. *)
Definition content_of_target (t : tex_target) : option content_t :=
  match t with
  | Dummy => None
  | Store d => Some (content d)
  end.

(** The line of a figure block that embeds the image file. *)
Definition embed_line (filename filetype : string) (fig_width : float)
    : string :=
  "\" ++ command_of filetype ++ "[width=" ++ str_round2 fig_width
    ++ "\paperwidth]{./" ++ fig_folder ++ "/" ++ filename ++ "." ++ filetype
    ++ "}".

End Images.

(** A stand-in for the plotting libraries: the file types written. *)
Definition sample_library_saves (fig : figure) (filetype : string) : bool :=
  existsb (String.eqb filetype) ["png"; "jpg"; "svg"; "pdf"].

End Images.

(* ------------------------------------------------------------------ *)
(** ** The lines of the standard preparation *)

Module Boilerplate.
Import Tex.

(** The lines that [StandardTexDoc.prepare_doc] adds to "preamble". *)
Definition preamble_boilerplate (d : TexDoc) : list string :=
  ([ "\documentclass{article}";
     "\usepackage{hyperref}";
     "\usepackage{graphicx}";
     "\usepackage{longtable}";
     "\usepackage{booktabs}";
     "\usepackage{array}";
     "\usepackage{svg}";
     "\usepackage{adjustbox}";
     "\usepackage{float}";
     "\DeclareUnicodeCharacter{2212}{-}";
     "\usepackage[sorting=none, style=science]{biblatex}";
     "\usepackage[a4paper, total={15cm, 20cm}]{geometry}";
     "\usepackage[labelfont=bf,it]{caption}";
     ("\addbibresource{" ++ bib_filename d ++ ".bib}")%string;
     ("\title{" ++ title d ++ "}")%string;
     "\begin{document}";
     "\date{}";
     "\maketitle" ]
   ++ if table_of_contents d then ["\tableofcontents"] else [])%list.

(** The lines that it adds to "endings". *)
Definition endings_boilerplate : list string :=
  [ "\printbibliography"; "\end{document}" ].

End Boilerplate.

(* ================================================================== *)
(** * Properties *)

(* ------------------------------------------------------------------ *)
(** ** The date formatter *)

Module DateFacts.
Import Date.

Lemma day_checks_all : forallb day_checks (seq 1 31) = true.
Proof. vm_compute. reflexivity. Qed.

Lemma day_checks_ok (n : nat) : 1 <= n <= 31 -> day_checks n = true.
Proof.
  intros Hn.
  pose proof day_checks_all as Hall.
  rewrite forallb_forall in Hall.
  apply Hall, in_seq. lia.
Qed.

Lemma days_in_month_le (y m : nat) : days_in_month y m <= 31.
Proof.
  unfold days_in_month.
  do 12 (destruct m as [|m]; [try lia; destruct (is_leap y); lia|]).
  lia.
Qed.

Lemma valid_date_day (d : datetime) :
  valid_date d = true -> 1 <= day d <= 31.
Proof.
  unfold valid_date. intros H.
  repeat (apply andb_prop in H; destruct H as [H ?]).
  pose proof (days_in_month_le (year d) (month d)).
  repeat match goal with
         | E : (_ <=? _)%nat = true |- _ => apply Nat.leb_le in E
         end.
  lia.
Qed.

Lemma valid_date_month (d : datetime) :
  valid_date d = true -> 1 <= month d <= 12.
Proof.
  unfold valid_date. intros H.
  repeat (apply andb_prop in H; destruct H as [H ?]).
  repeat match goal with
         | E : (_ <=? _)%nat = true |- _ => apply Nat.leb_le in E
         end.
  lia.
Qed.

Lemma month_name_english (m : nat) :
  1 <= m <= 12 -> month_name m = nth (m - 1) english_month_names "".
Proof.
  intros Hm.
  do 13 (destruct m as [|m]; [try lia; reflexivity|]).
  lia.
Qed.

(** C8.  For every valid calendar date, [get_tex_formatted_date] returns
    the day of the month in decimal without leading zero, then the
    superscript command around the ordinal suffix ("st" for days 1, 21 and
    31, "nd" for 2 and 22, "rd" for 3 and 23, "th" for every other day),
    then " of ", the English name of the month, a space and the year in
    decimal.  The function is a total function of the date. *)
Theorem get_tex_formatted_date_ordinal (date : datetime) :
  valid_date date = true ->
  get_tex_formatted_date date
  = Str.of_nat (day date) ++ "\textsuperscript{"
      ++ ordinal_suffix (day date) ++ "}"
      ++ " of " ++ nth (month date - 1) english_month_names ""
      ++ " " ++ Str.of_nat (year date)
  /\ no_leading_zero (Str.of_nat (day date)) = true.
Proof.
  intros Hv.
  pose proof (day_checks_ok (day date) (valid_date_day date Hv)) as Hc.
  unfold day_checks in Hc.
  apply andb_prop in Hc. destruct Hc as [Hc Hz].
  apply andb_prop in Hc. destruct Hc as [Hd Hs].
  apply String.eqb_eq in Hd. apply String.eqb_eq in Hs.
  split; [|exact Hz].
  unfold get_tex_formatted_date, strftime_d, strftime_of_B_Y, strftime_Y.
  rewrite Hd in *. rewrite Hs.
  rewrite (month_name_english _ (valid_date_month date Hv)).
  reflexivity.
Qed.

Lemma get_tex_formatted_date_ordinal_witness :
  valid_date (mk_datetime 2024 2 29) = true
  /\ get_tex_formatted_date (mk_datetime 2024 2 29)
     = "29\textsuperscript{th} of February 2024"
  /\ get_tex_formatted_date (mk_datetime 999 3 1)
     = "1\textsuperscript{st} of March 999".
Proof.
  split; [vm_compute; reflexivity|]. split.
  - destruct (get_tex_formatted_date_ordinal (mk_datetime 2024 2 29))
      as [H _]; [vm_compute; reflexivity|].
    rewrite H. vm_compute. reflexivity.
  - destruct (get_tex_formatted_date_ordinal (mk_datetime 999 3 1))
      as [H _]; [vm_compute; reflexivity|].
    rewrite H. vm_compute. reflexivity.
Defined.

End DateFacts.

(* ------------------------------------------------------------------ *)
(** ** Sorting *)

Module SortedFacts.
Import Sorted.

Lemma ascii_compare_refl (a : ascii) : Ascii.compare a a = Eq.
Proof. unfold Ascii.compare. apply N.compare_refl. Qed.

Lemma ascii_compare_lt_trans (a b c : ascii) :
  Ascii.compare a b = Lt -> Ascii.compare b c = Lt -> Ascii.compare a c = Lt.
Proof.
  unfold Ascii.compare. rewrite !N.compare_lt_iff. apply N.lt_trans.
Qed.

Lemma compare_lt_trans (s1 : string) : forall s2 s3,
  String.compare s1 s2 = Lt -> String.compare s2 s3 = Lt ->
  String.compare s1 s3 = Lt.
Proof.
  induction s1 as [|a s1 IH]; intros [|b s2] [|c s3]; simpl;
    try discriminate; try reflexivity.
  destruct (Ascii.compare a b) eqn:Hab; try discriminate;
    destruct (Ascii.compare b c) eqn:Hbc; try discriminate; intros H1 H2.
  - apply Ascii.compare_eq_iff in Hab, Hbc. subst.
    rewrite ascii_compare_refl. eapply IH; eauto.
  - apply Ascii.compare_eq_iff in Hab. subst. rewrite Hbc. reflexivity.
  - apply Ascii.compare_eq_iff in Hbc. subst. rewrite Hab. reflexivity.
  - rewrite (ascii_compare_lt_trans _ _ _ Hab Hbc). reflexivity.
Qed.

Lemma leb_trans (s1 s2 s3 : string) :
  String.leb s1 s2 = true -> String.leb s2 s3 = true ->
  String.leb s1 s3 = true.
Proof.
  unfold String.leb.
  destruct (String.compare s1 s2) eqn:H12; try discriminate;
    destruct (String.compare s2 s3) eqn:H23; try discriminate; intros _ _.
  - apply String.compare_eq_iff in H12, H23. subst.
    destruct (String.compare s3 s3) eqn:E; try reflexivity.
    pose proof (String.compare_antisym s3 s3) as A. rewrite E in A.
    discriminate.
  - apply String.compare_eq_iff in H12. subst. rewrite H23. reflexivity.
  - apply String.compare_eq_iff in H23. subst. rewrite H12. reflexivity.
  - rewrite (compare_lt_trans _ _ _ H12 H23). reflexivity.
Qed.

Lemma leb_false_flip (x y : string) :
  String.leb x y = false -> String.leb y x = true.
Proof.
  intros H. destruct (String.leb_total x y) as [E|E]; congruence.
Qed.

Lemma insert_perm (x : string) (l : list string) :
  Permutation (insert x l) (x :: l).
Proof.
  induction l as [|y l IH]; simpl; [reflexivity|].
  destruct (String.leb x y); [reflexivity|].
  rewrite IH. apply perm_swap.
Qed.

Lemma sorted_perm (l : list string) : Permutation (sorted l) l.
Proof.
  induction l as [|x l IH]; simpl; [constructor|].
  rewrite insert_perm. constructor. exact IH.
Qed.

Lemma lower_bound_perm (x : string) (l l' : list string) :
  Permutation l l' -> lower_bound x l -> lower_bound x l'.
Proof. intros Hp H. unfold lower_bound in *. rewrite <- Hp. exact H. Qed.

Lemma insert_ascending (x : string) (l : list string) :
  ascending l -> ascending (insert x l).
Proof.
  induction 1 as [|y l Hy Hl IH]; simpl.
  - constructor; constructor.
  - destruct (String.leb x y) eqn:E.
    + constructor; [|constructor; assumption].
      constructor; [exact E|].
      unfold lower_bound in *. rewrite Forall_forall in *.
      intros z Hz. eapply leb_trans; eauto.
    + constructor; [|exact IH].
      apply (lower_bound_perm y (x :: l)).
      * symmetry. apply insert_perm.
      * constructor; [apply leb_false_flip; exact E | exact Hy].
Qed.

Lemma sorted_ascending (l : list string) : ascending (sorted l).
Proof.
  induction l; simpl; [constructor | apply insert_ascending; assumption].
Qed.

Lemma ascending_perm_eq (l : list string) : forall l',
  ascending l -> ascending l' -> Permutation l l' -> l = l'.
Proof.
  induction l as [|x l IH]; intros l' Hl Hl' Hp.
  - apply Permutation_nil in Hp. congruence.
  - destruct l' as [|y l'];
      [apply Permutation_sym, Permutation_nil in Hp; discriminate|].
    inversion Hl as [|? ? Hx Hl1]; subst.
    inversion Hl' as [|? ? Hy Hl1']; subst.
    assert (Hxy : x = y).
    { assert (Hin1 : In x (y :: l')) by (rewrite <- Hp; left; reflexivity).
      assert (Hin2 : In y (x :: l)) by (rewrite Hp; left; reflexivity).
      unfold lower_bound in *. rewrite Forall_forall in Hx, Hy.
      destruct Hin1 as [E|Hin1]; [symmetry; exact E|].
      destruct Hin2 as [E|Hin2]; [exact E|].
      apply String.leb_antisym; auto. }
    subst y. f_equal. apply IH; auto.
    eapply Permutation_cons_inv; eauto.
Qed.

(** Two lists have the same sorted form exactly when one is a
    rearrangement of the other. *)
Lemma sorted_eq_iff_perm (l l' : list string) :
  sorted l = sorted l' <-> Permutation l l'.
Proof.
  split.
  - intros E. rewrite <- (sorted_perm l), E. apply sorted_perm.
  - intros Hp. apply ascending_perm_eq; try apply sorted_ascending.
    rewrite !sorted_perm. exact Hp.
Qed.

End SortedFacts.

(* ------------------------------------------------------------------ *)
(** ** Ordered dictionaries: reading after writing *)

Module DictFacts.
Import Dict.

Section Facts.
Context {V : Type}.
Implicit Types (d : dict V) (k : string).

Lemma has_key_In k d : has_key k d = true <-> In k (keys d).
Proof.
  induction d as [|[k' v] d IH]; simpl.
  - split; [discriminate | tauto].
  - rewrite orb_true_iff, IH, String.eqb_eq. tauto.
Qed.

Lemma has_key_false_In k d : has_key k d = false <-> ~ In k (keys d).
Proof.
  rewrite <- has_key_In. destruct (has_key k d); intuition congruence.
Qed.

Lemma has_key_lookup k d :
  has_key k d = match lookup k d with Some _ => true | None => false end.
Proof.
  induction d as [|[k' v] d IH]; simpl; [reflexivity|].
  destruct (String.eqb k' k); simpl; auto.
Qed.

Lemma lookup_has_key k d v : lookup k d = Some v -> has_key k d = true.
Proof. intros H. rewrite has_key_lookup, H. reflexivity. Qed.

Lemma lookup_absent k d : has_key k d = false -> lookup k d = None.
Proof. rewrite has_key_lookup. destruct (lookup k d); congruence. Qed.

Lemma lookup_present k d :
  has_key k d = true -> exists v, lookup k d = Some v.
Proof.
  rewrite has_key_lookup. destruct (lookup k d) as [v|]; [eauto|discriminate].
Qed.

Lemma keys_modify k f d : keys (modify k f d) = keys d.
Proof.
  induction d as [|[k' v] d IH]; simpl; [reflexivity|].
  destruct (String.eqb k' k); simpl; congruence.
Qed.

Lemma has_key_modify k' k f d : has_key k' (modify k f d) = has_key k' d.
Proof.
  induction d as [|[k0 v] d IH]; simpl; [reflexivity|].
  destruct (String.eqb k0 k); simpl; congruence.
Qed.

Lemma lookup_modify_same k f d :
  lookup k (modify k f d) = option_map f (lookup k d).
Proof.
  induction d as [|[k' v] d IH]; simpl; [reflexivity|].
  destruct (String.eqb k' k) eqn:E; simpl; rewrite E; auto.
Qed.

Lemma lookup_modify_other k' k f d :
  k' <> k -> lookup k' (modify k f d) = lookup k' d.
Proof.
  intros Hne. induction d as [|[k0 v] d IH]; simpl; [reflexivity|].
  destruct (String.eqb k0 k) eqn:E; simpl.
  - apply String.eqb_eq in E. subst k0.
    destruct (String.eqb k k') eqn:E'; [|reflexivity].
    apply String.eqb_eq in E'. congruence.
  - destruct (String.eqb k0 k'); auto.
Qed.

Lemma keys_set_key_absent k v d :
  has_key k d = false -> keys (set_key k v d) = (keys d ++ [k])%list.
Proof.
  induction d as [|[k' v'] d IH]; simpl; [reflexivity|].
  destruct (String.eqb k' k); simpl; [discriminate|].
  intros H. rewrite IH; auto.
Qed.

Lemma lookup_set_key_same k v d : lookup k (set_key k v d) = Some v.
Proof.
  induction d as [|[k' v'] d IH]; simpl.
  - rewrite String.eqb_refl. reflexivity.
  - destruct (String.eqb k' k) eqn:E; simpl; rewrite E; auto.
Qed.

Lemma lookup_set_key_other k' k v d :
  k' <> k -> lookup k' (set_key k v d) = lookup k' d.
Proof.
  intros Hne. induction d as [|[k0 v0] d IH]; simpl.
  - destruct (String.eqb k k') eqn:E; [|reflexivity].
    apply String.eqb_eq in E. congruence.
  - destruct (String.eqb k0 k) eqn:E; simpl.
    + apply String.eqb_eq in E. subst k0.
      destruct (String.eqb k k') eqn:E'; [|reflexivity].
      apply String.eqb_eq in E'. congruence.
    + destruct (String.eqb k0 k'); auto.
Qed.

(** A key read from [keys] is always found. *)
Lemma lookup_of_key k d : In k (keys d) -> exists v, lookup k d = Some v.
Proof. intros H. apply lookup_present, has_key_In, H. Qed.

End Facts.

End DictFacts.

(* ------------------------------------------------------------------ *)
(** ** add_line *)

Module AddLineFacts.
Import Dict Tex DictFacts.

Lemma add_line_content_eq (line s u : string) (c : content_t) :
  add_line_content line s u c
  = modify s (subs_after line u) (setdefault_empty s [] c).
Proof.
  unfold add_line_content, subs_after.
  destruct (String.eqb u "") eqn:E; [|reflexivity].
  apply String.eqb_eq in E. subst u. reflexivity.
Qed.

Lemma keys_setdefault_empty {V} (k : string) (e : V) (d : dict V) :
  keys (setdefault_empty k e d)
  = if has_key k d then keys d else (keys d ++ [k])%list.
Proof.
  unfold setdefault_empty. destruct (has_key k d) eqn:E; simpl; auto.
  apply keys_set_key_absent, E.
Qed.

Lemma lookup_setdefault_empty_same {V} (k : string) (e : V) (d : dict V) :
  lookup k (setdefault_empty k e d)
  = Some (match lookup k d with Some v => v | None => e end).
Proof.
  unfold setdefault_empty. destruct (has_key k d) eqn:E; simpl.
  - destruct (lookup_present _ _ E) as [v Hv]. rewrite Hv. reflexivity.
  - rewrite lookup_set_key_same, (lookup_absent _ _ E). reflexivity.
Qed.

Lemma lookup_setdefault_empty_other {V} (k' k : string) (e : V) (d : dict V) :
  k' <> k -> lookup k' (setdefault_empty k e d) = lookup k' d.
Proof.
  intros Hne. unfold setdefault_empty. destruct (has_key k d); simpl; auto.
  apply lookup_set_key_other, Hne.
Qed.

Lemma keys_add_line_content (line s u : string) (c : content_t) :
  keys (add_line_content line s u c)
  = if has_key s c then keys c else (keys c ++ [s])%list.
Proof.
  rewrite add_line_content_eq, keys_modify. apply keys_setdefault_empty.
Qed.

Lemma keys_subs_after (line u : string) (subs : subsections) :
  keys (subs_after line u subs)
  = if has_key u subs then keys subs else (keys subs ++ [u])%list.
Proof. unfold subs_after. rewrite keys_modify. apply keys_setdefault_empty. Qed.

Lemma lookup_add_line_content_same (line s u : string) (c : content_t) :
  lookup s (add_line_content line s u c)
  = Some (subs_after line u (or_empty (lookup s c))).
Proof.
  rewrite add_line_content_eq, lookup_modify_same,
    lookup_setdefault_empty_same.
  reflexivity.
Qed.

Lemma lookup_add_line_content_other (line s' s u : string) (c : content_t) :
  s' <> s -> lookup s' (add_line_content line s u c) = lookup s' c.
Proof.
  intros Hne.
  rewrite add_line_content_eq, lookup_modify_other by exact Hne.
  apply lookup_setdefault_empty_other, Hne.
Qed.

Lemma lookup_subs_after_same (line u : string) (subs : subsections) :
  lookup u (subs_after line u subs)
  = Some (or_empty (lookup u subs) ++ [line])%list.
Proof.
  unfold subs_after.
  rewrite lookup_modify_same, lookup_setdefault_empty_same. reflexivity.
Qed.

Lemma lookup_subs_after_other (line u' u : string) (subs : subsections) :
  u' <> u -> lookup u' (subs_after line u subs) = lookup u' subs.
Proof.
  intros Hne. unfold subs_after.
  rewrite lookup_modify_other by exact Hne.
  apply lookup_setdefault_empty_other, Hne.
Qed.

Lemma lines_at_add_line_same (line s u : string) (c : content_t) :
  lines_at (add_line_content line s u c) s u
  = (lines_at c s u ++ [line])%list.
Proof.
  unfold lines_at.
  rewrite lookup_add_line_content_same. simpl.
  rewrite lookup_subs_after_same. reflexivity.
Qed.

Lemma lines_at_add_line_other (line s u s' u' : string) (c : content_t) :
  (s', u') <> (s, u) ->
  lines_at (add_line_content line s u c) s' u' = lines_at c s' u'.
Proof.
  intros Hne. unfold lines_at.
  destruct (string_dec s' s) as [->|Hs].
  - rewrite lookup_add_line_content_same. simpl.
    rewrite lookup_subs_after_other; [reflexivity|].
    intros ->. apply Hne. reflexivity.
  - rewrite lookup_add_line_content_other by exact Hs. reflexivity.
Qed.

(** A line added to a standard section leaves the other section names as
    they were. *)
Lemma ordinary_keys_add_line (line s u : string) (c : content_t) :
  is_standard s = true ->
  filter not_standard (keys (add_line_content line s u c))
  = filter not_standard (keys c).
Proof.
  intros Hs. rewrite keys_add_line_content.
  destruct (has_key s c); [reflexivity|].
  rewrite filter_app. simpl. unfold not_standard at 2. rewrite Hs. simpl.
  apply app_nil_r.
Qed.

End AddLineFacts.

(* ------------------------------------------------------------------ *)
(** ** prepare_doc *)

Module PrepareFacts.
Import Dict Tex DictFacts AddLineFacts Calls.

Lemma set_content_same (d : TexDoc) : set_content (content d) d = d.
Proof. destruct d; reflexivity. Qed.

Lemma add_lines_eq (calls : list call) : forall d,
  add_lines calls d
  = (set_content (add_lines_content calls (content d)) d, inr tt).
Proof.
  induction calls as [|k calls IH]; intros d.
  - simpl. rewrite set_content_same. reflexivity.
  - unfold add_lines in *. simpl. unfold bind at 1.
    unfold add_line at 1, update. rewrite IH. destruct d; reflexivity.
Qed.

Lemma prepare_doc_standard_eq (d : TexDoc) :
  prepare_doc_standard d
  = (set_content (add_lines_content (boilerplate d) (content d))
       (set_prepared true d), inr tt).
Proof.
  destruct d as [k c p n b t pr toc].
  destruct toc;
    cbv -[add_line_content String.append]; reflexivity.
Qed.

Lemma boilerplate_standard (d : TexDoc) :
  Forall (fun k => is_standard (section k) = true) (boilerplate d).
Proof.
  unfold boilerplate. destruct (table_of_contents d);
    repeat (constructor; [reflexivity|]); constructor.
Qed.

Lemma ordinary_keys_add_lines (calls : list call) : forall c,
  Forall (fun k => is_standard (section k) = true) calls ->
  filter not_standard (keys (add_lines_content calls c))
  = filter not_standard (keys c).
Proof.
  induction calls as [|k calls IH]; intros c Hall; [reflexivity|].
  inversion Hall; subst. simpl.
  unfold add_lines_content in IH. rewrite IH by assumption.
  apply ordinary_keys_add_line. assumption.
Qed.

Lemma prepare_doc_runs (d : TexDoc) :
  prepare_doc d = (prepared_state d, inr tt).
Proof.
  unfold prepared_state, prepare_doc.
  destruct (cls d); [reflexivity|].
  rewrite prepare_doc_standard_eq. reflexivity.
Qed.

Lemma prepared_state_prepared (d : TexDoc) :
  prepared (prepared_state d) = true.
Proof.
  unfold prepared_state, prepare_doc.
  destruct (cls d); [reflexivity|].
  rewrite prepare_doc_standard_eq. reflexivity.
Qed.

(** Preparation adds lines to the two standard sections only. *)
Lemma prepared_state_ordinary_keys (d : TexDoc) :
  filter not_standard (keys (content (prepared_state d)))
  = filter not_standard (keys (content d)).
Proof.
  unfold prepared_state, prepare_doc.
  destruct (cls d); [reflexivity|].
  rewrite prepare_doc_standard_eq. cbn [fst set_content content].
  apply ordinary_keys_add_lines, boilerplate_standard.
Qed.

Lemma ready_prepared (d : TexDoc) : prepared (ready d) = true.
Proof.
  unfold ready. destruct (prepared d) eqn:E; [exact E|].
  apply prepared_state_prepared.
Qed.

Lemma ready_ordinary_keys (d : TexDoc) :
  filter not_standard (keys (content (ready d)))
  = filter not_standard (keys (content d)).
Proof.
  unfold ready. destruct (prepared d); [reflexivity|].
  apply prepared_state_ordinary_keys.
Qed.

Lemma ready_ready (d : TexDoc) : ready (ready d) = ready d.
Proof.
  unfold ready at 1. rewrite ready_prepared. reflexivity.
Qed.

End PrepareFacts.

(* ------------------------------------------------------------------ *)
(** ** Strings *)

Module StrFacts.

Lemma append_assoc (a b c : string) : (a ++ b) ++ c = a ++ (b ++ c).
Proof. induction a as [|x a IH]; simpl; [reflexivity | rewrite IH; reflexivity]. Qed.

Lemma append_empty_r (a : string) : a ++ "" = a.
Proof. induction a as [|x a IH]; simpl; [reflexivity | rewrite IH; reflexivity]. Qed.

Lemma length_append (a b : string) :
  String.length (a ++ b) = String.length a + String.length b.
Proof. induction a as [|x a IH]; simpl; [reflexivity | rewrite IH; reflexivity]. Qed.

Lemma append_cancel_l (a b c : string) : a ++ b = a ++ c -> b = c.
Proof.
  induction a as [|x a IH]; cbn [append]; [auto|].
  intros H. injection H as H. auto.
Qed.

Lemma append_cancel_r (s : string) : forall b c, b ++ s = c ++ s -> b = c.
Proof.
  induction b as [|x b IH]; intros c H.
  - destruct c as [|y c]; [reflexivity|].
    apply (f_equal String.length) in H.
    cbn [append String.length] in H. rewrite length_append in H. lia.
  - destruct c as [|y c].
    + apply (f_equal String.length) in H.
      cbn [append String.length] in H. rewrite length_append in H. lia.
    + cbn [append] in H. injection H as -> H. f_equal. apply IH, H.
Qed.

Lemma join_app (l l' : list string) :
  Str.join (l ++ l')%list = Str.join l ++ Str.join l'.
Proof.
  induction l as [|s l IH]; simpl; [reflexivity|].
  rewrite IH, append_assoc. reflexivity.
Qed.

End StrFacts.

(* ------------------------------------------------------------------ *)
(** ** emit_doc: the text and its pieces *)

Module EmitFacts.
Import Dict Tex DictFacts AddLineFacts PrepareFacts StrFacts.

Lemma render_all_app (ps ps' : list piece) :
  render_all (ps ++ ps')%list = render_all ps ++ render_all ps'.
Proof. unfold render_all. rewrite map_app. apply join_app. Qed.

Lemma render_all_nil : render_all [] = "".
Proof. reflexivity. Qed.

Lemma render_all_cons (p : piece) (ps : list piece) :
  render_all (p :: ps) = render p ++ render_all ps.
Proof. reflexivity. Qed.

Lemma write_lines_pieces (ls : list string) : forall t,
  write_lines ls t = t ++ render_all (map Line ls).
Proof.
  induction ls as [|l ls IH]; intros t; cbn [write_lines map].
  - rewrite render_all_nil. symmetry. apply append_empty_r.
  - rewrite IH, render_all_cons. cbn [render].
    rewrite !append_assoc. reflexivity.
Qed.

Lemma write_subsections_pieces (subs : subsections) (ks : list string) :
  forall t,
    write_subsections subs ks t
    = rbind (subsection_pieces subs ks) (fun ps => inr (t ++ render_all ps)).
Proof.
  induction ks as [|u ks IH]; intros t;
    cbn [write_subsections subsection_pieces rbind].
  - rewrite render_all_nil, append_empty_r. reflexivity.
  - destruct (getitem u subs) as [e|ls]; cbn [rbind]; [reflexivity|].
    rewrite IH.
    destruct (subsection_pieces subs ks) as [e|ps]; cbn [rbind];
      [reflexivity|].
    rewrite write_lines_pieces, render_all_cons, render_all_app.
    cbn [render]. rewrite !append_assoc. reflexivity.
Qed.

Lemma write_sections_pieces (c : content_t) (order : list string) :
  forall t,
    write_sections c order t
    = rbind (section_pieces c order) (fun ps => inr (t ++ render_all ps)).
Proof.
  induction order as [|s order IH]; intros t;
    cbn [write_sections section_pieces rbind].
  - rewrite render_all_nil, append_empty_r. reflexivity.
  - destruct (getitem s c) as [e|subs]; cbn [rbind]; [reflexivity|].
    assert (Hplain :
      (if has_key "" subs
       then rbind (getitem "" subs)
              (fun ls => inr (write_lines ls (t ++ section_header s)))
       else inr (t ++ section_header s))
      = rbind (if has_key "" subs then getitem "" subs else inr [])
          (fun ls => inr (t ++ section_header s ++ render_all (map Line ls)))).
    { destruct (has_key "" subs).
      - destruct (getitem "" subs) as [e|ls]; cbn [rbind]; [reflexivity|].
        rewrite write_lines_pieces, append_assoc. reflexivity.
      - cbn [rbind map]. rewrite render_all_nil, append_empty_r.
        reflexivity. }
    rewrite Hplain. clear Hplain.
    destruct (if has_key "" subs then getitem "" subs else inr [])
      as [e|ls]; cbn [rbind]; [reflexivity|].
    rewrite write_subsections_pieces.
    destruct (subsection_pieces subs (filter named (keys subs)))
      as [e|ps1]; cbn [rbind]; [reflexivity|].
    rewrite IH.
    destruct (section_pieces c order) as [e|ps2]; cbn [rbind]; [reflexivity|].
    rewrite render_all_cons, !render_all_app. cbn [render].
    rewrite !append_assoc. reflexivity.
Qed.

(** The text of [emit_doc] is the rendering of its pieces, and both fail
    with the same exception. *)
Lemma emit_text_pieces (c : content_t) (order : list string) :
  emit_text c order
  = rbind (emit_pieces c order) (fun ps => inr (render_all ps)).
Proof.
  unfold emit_text, emit_pieces.
  destruct (getitem "preamble" c) as [e|pre]; cbn [rbind]; [reflexivity|].
  destruct (getitem "" pre) as [e|ls1]; cbn [rbind]; [reflexivity|].
  rewrite write_sections_pieces.
  destruct (section_pieces c (filter not_standard order)) as [e|ps];
    cbn [rbind]; [reflexivity|].
  destruct (getitem "endings" c) as [e|en]; cbn [rbind]; [reflexivity|].
  destruct (getitem "" en) as [e|ls2]; cbn [rbind]; [reflexivity|].
  rewrite !write_lines_pieces, !render_all_app, append_assoc. reflexivity.
Qed.

(** *** The two ways through emit_doc *)

Lemma emit_doc_rejected (section_order : list string) (d : TexDoc) :
  order_rejected (content d) section_order = true ->
  emit_doc section_order d = (d, inl (ValueError bad_order_msg)).
Proof.
  intros H. unfold emit_doc, bind, get. rewrite H. reflexivity.
Qed.

Lemma emit_doc_accepted (section_order : list string) (d : TexDoc) :
  order_rejected (content d) section_order = false ->
  emit_doc section_order d
  = (ready d, emit_text (content (ready d)) (order_of section_order (ready d))).
Proof.
  intros H. unfold emit_doc, bind, get. rewrite H.
  unfold ready, order_of.
  destruct (prepared d); simpl.
  - unfold lift. reflexivity.
  - rewrite prepare_doc_runs. unfold lift. reflexivity.
Qed.

Lemma order_rejected_iff (c : content_t) (section_order : list string) :
  order_rejected c section_order = false
  <-> section_order = []
      \/ Permutation section_order (filter not_standard (keys c)).
Proof.
  unfold order_rejected. destruct section_order as [|s l].
  - split; auto.
  - destruct (list_eq_dec string_dec (Sorted.sorted (s :: l))
                (Sorted.sorted (filter not_standard (keys c)))) as [E|E].
    + split; [|reflexivity]. intros _. right.
      apply SortedFacts.sorted_eq_iff_perm, E.
    + split; [discriminate|]. intros [H|H]; [discriminate|].
      apply SortedFacts.sorted_eq_iff_perm in H. contradiction.
Qed.

(** The check depends on the names of the ordinary sections only. *)
Lemma order_rejected_ready (section_order : list string) (d : TexDoc) :
  order_rejected (content (ready d)) section_order
  = order_rejected (content d) section_order.
Proof. unfold order_rejected. rewrite ready_ordinary_keys. reflexivity. Qed.

End EmitFacts.

(* ------------------------------------------------------------------ *)
(** ** emit_doc: when it succeeds and how it fails *)

Module EmitOutcome.
Import Dict Tex DictFacts AddLineFacts PrepareFacts StrFacts EmitFacts.

Lemma getitem_error {V} (k : string) (d : dict V) (e : exn) :
  getitem k d = inl e -> e = KeyError k.
Proof. unfold getitem. destruct (lookup k d); congruence. Qed.

Lemma getitem_of_key {V} (k : string) (d : dict V) :
  In k (keys d) -> exists v, getitem k d = inr v.
Proof.
  intros H. destruct (lookup_of_key _ _ H) as [v Hv].
  exists v. unfold getitem. rewrite Hv. reflexivity.
Qed.

Lemma getitem_absent {V} (k : string) (d : dict V) :
  has_key k d = false -> getitem k d = inl (KeyError k).
Proof. intros H. unfold getitem. rewrite (lookup_absent _ _ H). reflexivity. Qed.

Lemma subsection_pieces_error (subs : subsections) (ks : list string) (e : exn) :
  subsection_pieces subs ks = inl e -> exists k, e = KeyError k.
Proof.
  induction ks as [|u ks IH]; cbn [subsection_pieces]; [discriminate|].
  destruct (getitem u subs) as [e'|ls] eqn:E; cbn [rbind].
  - intros H. injection H as <-. eauto using getitem_error.
  - destruct (subsection_pieces subs ks) as [e'|ps]; cbn [rbind];
      [|discriminate].
    intros H. injection H as <-. auto.
Qed.

Lemma section_pieces_error (c : content_t) (order : list string) (e : exn) :
  section_pieces c order = inl e -> exists k, e = KeyError k.
Proof.
  induction order as [|s order IH]; cbn [section_pieces]; [discriminate|].
  destruct (getitem s c) as [e'|subs] eqn:E; cbn [rbind].
  { intros H. injection H as <-. eauto using getitem_error. }
  destruct (if has_key "" subs then getitem "" subs else inr [])
    as [e'|ls] eqn:E1; cbn [rbind].
  { intros H. injection H as <-.
    destruct (has_key "" subs); [eauto using getitem_error | discriminate]. }
  destruct (subsection_pieces subs (filter named (keys subs)))
    as [e'|ps1] eqn:E2; cbn [rbind].
  { intros H. injection H as <-. eauto using subsection_pieces_error. }
  destruct (section_pieces c order) as [e'|ps2]; cbn [rbind]; [|discriminate].
  intros H. injection H as <-. auto.
Qed.

Lemma emit_pieces_error (c : content_t) (order : list string) (e : exn) :
  emit_pieces c order = inl e -> exists k, e = KeyError k.
Proof.
  unfold emit_pieces.
  destruct (getitem "preamble" c) as [e'|pre] eqn:E1; cbn [rbind].
  { intros H. injection H as <-. eauto using getitem_error. }
  destruct (getitem "" pre) as [e'|ls1] eqn:E2; cbn [rbind].
  { intros H. injection H as <-. eauto using getitem_error. }
  destruct (section_pieces c (filter not_standard order))
    as [e'|ps] eqn:E3; cbn [rbind].
  { intros H. injection H as <-. eauto using section_pieces_error. }
  destruct (getitem "endings" c) as [e'|en] eqn:E4; cbn [rbind].
  { intros H. injection H as <-. eauto using getitem_error. }
  destruct (getitem "" en) as [e'|ls2] eqn:E5; cbn [rbind]; [|discriminate].
  intros H. injection H as <-. eauto using getitem_error.
Qed.

(** Without the preamble or the endings the text cannot be built. *)
Lemma emit_text_needs_standard (c : content_t) (order : list string) :
  has_key "preamble" c = false \/ has_key "endings" c = false ->
  exists k, emit_text c order = inl (KeyError k).
Proof.
  intros H. rewrite emit_text_pieces.
  destruct (emit_pieces c order) as [e|ps] eqn:E; cbn [rbind].
  - destruct (emit_pieces_error _ _ _ E) as [k ->]. eauto.
  - exfalso. unfold emit_pieces in E.
    destruct H as [H|H].
    + rewrite (getitem_absent _ _ H) in E. discriminate.
    + destruct (getitem "preamble" c); cbn [rbind] in E; [discriminate|].
      destruct (getitem "" s); cbn [rbind] in E; [discriminate|].
      destruct (section_pieces c (filter not_standard order));
        cbn [rbind] in E; [discriminate|].
      rewrite (getitem_absent _ _ H) in E. discriminate.
Qed.

Lemma sections_of_app (ps ps' : list piece) :
  sections_of (ps ++ ps')%list = (sections_of ps ++ sections_of ps')%list.
Proof.
  induction ps as [|[l|s|u] ps IH]; cbn [sections_of app]; try assumption.
  - reflexivity.
  - rewrite IH. reflexivity.
Qed.

Lemma sections_of_lines (ls : list string) : sections_of (map Line ls) = [].
Proof. induction ls; cbn [map sections_of]; auto. Qed.

Lemma subsection_pieces_ok (subs : subsections) (ks : list string) :
  Forall (fun k => In k (keys subs)) ks ->
  exists ps, subsection_pieces subs ks = inr ps /\ sections_of ps = [].
Proof.
  induction 1 as [|u ks Hu _ IH]; cbn [subsection_pieces].
  - exists []. auto.
  - destruct (getitem_of_key _ _ Hu) as [ls ->].
    destruct IH as [ps [-> Hps]]. cbn [rbind].
    eexists. split; [reflexivity|].
    cbn [sections_of]. rewrite sections_of_app, sections_of_lines. exact Hps.
Qed.

Lemma named_keys_found (subs : subsections) :
  Forall (fun k => In k (keys subs)) (filter named (keys subs)).
Proof. apply Forall_forall. intros k Hk. apply filter_In in Hk. tauto. Qed.

(** Sections that are all present are written one after the other, in the
    order of the list. *)
Lemma section_pieces_ok (c : content_t) (order : list string) :
  Forall (fun s => In s (keys c)) order ->
  exists ps, section_pieces c order = inr ps /\ sections_of ps = order.
Proof.
  induction 1 as [|s order Hs _ IH]; cbn [section_pieces].
  - exists []. auto.
  - destruct (getitem_of_key _ _ Hs) as [subs ->]. cbn [rbind].
    assert (Hplain : exists ls,
      (if has_key "" subs then getitem "" subs else inr []) = inr ls).
    { destruct (has_key "" subs) eqn:E; [|eauto].
      apply getitem_of_key, has_key_In, E. }
    destruct Hplain as [ls ->]. cbn [rbind].
    destruct (subsection_pieces_ok subs _ (named_keys_found subs))
      as [ps1 [-> Hps1]].
    destruct IH as [ps2 [-> Hps2]]. cbn [rbind].
    eexists. split; [reflexivity|].
    cbn [sections_of].
    rewrite !sections_of_app, sections_of_lines, Hps1, Hps2. reflexivity.
Qed.

Lemma has_plain_lines_getitem (s : string) (c : content_t) :
  has_plain_lines s c = true ->
  exists subs ls, getitem s c = inr subs /\ getitem "" subs = inr ls.
Proof.
  unfold has_plain_lines, getitem.
  destruct (lookup s c) as [subs|]; [|discriminate].
  intros H. destruct (lookup_present _ _ H) as [ls Hls].
  exists subs, ls. rewrite Hls. auto.
Qed.

(** With the plain lines of both standard sections in place, and every
    section of the order present, the pieces are the preamble, the
    sections in the order of the list, and the endings. *)
Lemma emit_pieces_ok (c : content_t) (order : list string) :
  has_plain_lines "preamble" c = true ->
  has_plain_lines "endings" c = true ->
  Forall (fun s => In s (keys c)) (filter not_standard order) ->
  exists ps, emit_pieces c order = inr ps
             /\ sections_of ps = filter not_standard order.
Proof.
  intros Hp He Hall. unfold emit_pieces.
  destruct (has_plain_lines_getitem _ _ Hp) as [pre [ls1 [Hp1 Hp2]]].
  destruct (has_plain_lines_getitem _ _ He) as [en [ls2 [He1 He2]]].
  destruct (section_pieces_ok c _ Hall) as [ps [Hs Hps]].
  rewrite Hp1. cbn [rbind]. rewrite Hp2. cbn [rbind].
  rewrite Hs. cbn [rbind]. rewrite He1. cbn [rbind].
  rewrite He2. cbn [rbind].
  eexists. split; [reflexivity|].
  rewrite !sections_of_app, !sections_of_lines, Hps. apply app_nil_r.
Qed.

End EmitOutcome.

(* ------------------------------------------------------------------ *)
(** ** emit_doc: preparation, section order, repeated calls *)

Module EmitClaims.
Import Dict Tex DictFacts AddLineFacts PrepareFacts StrFacts EmitFacts.
Import EmitOutcome Calls Examples.

(** C10.  For every document of either class and every section order, a
    second call of [emit_doc] with the same order returns what the first
    call returned (the same text, or the same exception) and leaves the
    object, and so its content, as the first call left it: the flag
    [prepared] is set by the first call, so the boilerplate is not added a
    second time. *)
Theorem emit_doc_idempotent (section_order : list string) (d : TexDoc) :
  emit_doc section_order (fst (emit_doc section_order d))
  = emit_doc section_order d.
Proof.
  destruct (order_rejected (content d) section_order) eqn:E.
  - rewrite (emit_doc_rejected _ _ E). cbn [fst].
    apply emit_doc_rejected, E.
  - rewrite (emit_doc_accepted _ _ E). cbn [fst].
    rewrite emit_doc_accepted by (rewrite order_rejected_ready; exact E).
    rewrite ready_ready. reflexivity.
Qed.

(** C7, as the code has it.  When the section order passes the check,
    [emit_doc] runs [prepare_doc] whenever the object is not yet prepared
    and builds the text from the object so prepared, and it fails with a
    key error whenever the "preamble" section or the "endings" section is
    absent after preparation. *)
Theorem emit_doc_prepares_first (section_order : list string) (d : TexDoc) :
  order_rejected (content d) section_order = false ->
  let d' := if prepared d then d else fst (prepare_doc d) in
  emit_doc section_order d
  = (d', emit_text (content d') (order_of section_order d'))
  /\ prepared d' = true
  /\ (has_key "preamble" (content d') = false
      \/ has_key "endings" (content d') = false ->
      exists k, emit_doc section_order d = (d', inl (KeyError k))).
Proof.
  intros Hok. change (if prepared d then d else fst (prepare_doc d))
    with (ready d). cbv zeta.
  rewrite (emit_doc_accepted _ _ Hok).
  split; [reflexivity|]. split; [apply ready_prepared|].
  intros Habsent.
  destruct (emit_text_needs_standard _ (order_of section_order (ready d))
              Habsent) as [k Hk].
  exists k. rewrite Hk. reflexivity.
Qed.

Lemma emit_doc_prepares_first_witness :
  order_rejected (content (after hello_calls (fresh ConcreteTexDoc))) []
  = false
  /\ exists k,
       emit_doc [] (after hello_calls (fresh ConcreteTexDoc))
       = (if prepared (after hello_calls (fresh ConcreteTexDoc))
          then after hello_calls (fresh ConcreteTexDoc)
          else fst (prepare_doc (after hello_calls (fresh ConcreteTexDoc))),
          inl (KeyError k)).
Proof.
  split; [vm_compute; reflexivity|].
  pose proof (emit_doc_prepares_first []
                (after hello_calls (fresh ConcreteTexDoc))) as H.
  cbv zeta in H.
  destruct H as [_ [_ H]]; [vm_compute; reflexivity|].
  apply H. left. vm_compute. reflexivity.
Defined.

(** C7 as stated fails: an unprepared document given a section order that
    does not pass the check is left unprepared; [prepare_doc] has not
    run. *)
Lemma emit_doc_rejected_unprepared :
  prepared (fresh StandardTexDoc) = false
  /\ emit_doc ["Missing"] (fresh StandardTexDoc)
     = (fresh StandardTexDoc, inl (ValueError bad_order_msg))
  /\ prepared (fst (emit_doc ["Missing"] (fresh StandardTexDoc))) = false
  /\ fst (emit_doc ["Missing"] (fresh StandardTexDoc))
     <> fst (prepare_doc (fresh StandardTexDoc)).
Proof.
  split; [vm_compute; reflexivity|].
  split; [vm_compute; reflexivity|].
  split; [vm_compute; reflexivity|].
  intros H. apply (f_equal prepared) in H. vm_compute in H. discriminate H.
Qed.

(** C2, as the code has it.  For a non-empty section order: when the order
    is not a rearrangement of the names of the ordinary sections,
    [emit_doc] raises the value error and the object is untouched; when it
    is one, and the plain lines of "preamble" and "endings" exist once the
    object is prepared, [emit_doc] returns the text whose section headers
    are those of the order, in that order. *)
Theorem emit_doc_section_order (section_order : list string) (d : TexDoc) :
  section_order <> [] ->
  (~ Permutation section_order (filter not_standard (keys (content d))) ->
   emit_doc section_order d = (d, inl (ValueError bad_order_msg)))
  /\ (Permutation section_order (filter not_standard (keys (content d))) ->
      has_plain_lines "preamble" (content (ready d)) = true ->
      has_plain_lines "endings" (content (ready d)) = true ->
      exists ps,
        emit_doc section_order d = (ready d, inr (render_all ps))
        /\ emit_pieces (content (ready d)) section_order = inr ps
        /\ sections_of ps = section_order).
Proof.
  intros Hne. split.
  - intros Hnp. apply emit_doc_rejected.
    destruct (order_rejected (content d) section_order) eqn:E; [reflexivity|].
    apply order_rejected_iff in E. tauto.
  - intros Hp Hpre Hend.
    assert (Hok : order_rejected (content d) section_order = false)
      by (apply order_rejected_iff; auto).
    assert (Hord : order_of section_order (ready d) = section_order)
      by (destruct section_order; [congruence | reflexivity]).
    assert (Hfilter : filter not_standard section_order = section_order).
    { apply forallb_filter_id, forallb_forall. intros s Hs.
      rewrite Hp in Hs. apply filter_In in Hs. tauto. }
    assert (Hall : Forall (fun s => In s (keys (content (ready d))))
                     (filter not_standard section_order)).
    { rewrite Hfilter. apply Forall_forall. intros s Hs.
      rewrite Hp, <- ready_ordinary_keys in Hs.
      apply filter_In in Hs. tauto. }
    destruct (emit_pieces_ok _ _ Hpre Hend Hall) as [ps [Hps Hsec]].
    exists ps. rewrite (emit_doc_accepted _ _ Hok), Hord.
    rewrite emit_text_pieces, Hps. cbn [rbind].
    rewrite Hsec, Hfilter. auto.
Qed.

Lemma emit_doc_section_order_witness :
  (emit_doc ["Results"; "Missing"] (after two_sections (fresh StandardTexDoc))
   = (after two_sections (fresh StandardTexDoc),
      inl (ValueError bad_order_msg)))
  /\ exists ps,
       snd (emit_doc ["Results"; "Methods"]
              (after two_sections (fresh StandardTexDoc)))
       = inr (render_all ps)
       /\ sections_of ps = ["Results"; "Methods"].
Proof.
  split.
  - apply (emit_doc_section_order ["Results"; "Missing"]
             (after two_sections (fresh StandardTexDoc)));
      [discriminate|].
    intros H. apply SortedFacts.sorted_eq_iff_perm in H.
    vm_compute in H. discriminate H.
  - destruct (emit_doc_section_order ["Results"; "Methods"]
                (after two_sections (fresh StandardTexDoc)))
      as [_ H]; [discriminate|].
    destruct H as [ps [H1 [_ H3]]].
    + apply perm_swap.
    + vm_compute. reflexivity.
    + vm_compute. reflexivity.
    + exists ps. rewrite H1. cbn [snd]. split; [reflexivity | exact H3].
Defined.

(** C2 as stated fails: the order names exactly the ordinary sections, yet
    nothing is emitted, because the document has no preamble. *)
Lemma emit_doc_valid_order_no_preamble :
  Permutation ["Intro"]
    (filter not_standard
       (keys (content (after hello_calls (fresh ConcreteTexDoc)))))
  /\ emit_doc ["Intro"] (after hello_calls (fresh ConcreteTexDoc))
     = (set_prepared true (after hello_calls (fresh ConcreteTexDoc)),
        inl (KeyError "preamble")).
Proof.
  split; vm_compute; [apply Permutation_refl | reflexivity].
Qed.

End EmitClaims.

(* ------------------------------------------------------------------ *)
(** ** include_figure and include_table *)

Module BlockFacts.
Import Dict Tex DictFacts AddLineFacts PrepareFacts Calls Blocks.

(** Lines added one after the other to the same place arrive there in
    order, after the lines already present. *)
Lemma lines_at_add_lines_same (s u : string) (ls : list string) :
  forall c,
    lines_at (add_lines_content (map (fun l => mk_call l s u) ls) c) s u
    = (lines_at c s u ++ ls)%list.
Proof.
  induction ls as [|l ls IH]; intros c; cbn [map].
  - unfold add_lines_content. cbn [fold_left]. symmetry. apply app_nil_r.
  - unfold add_lines_content in *. cbn [fold_left line section subsection].
    rewrite IH, lines_at_add_line_same, <- app_assoc. reflexivity.
Qed.

Section Figures.
Variable float : Type.
Variable str_round2 : float -> string.

Lemma include_figure_supported
    (title filename filetype fig_path section subsection caption : string)
    (fig_width : float) (d : TexDoc) :
  filetype = "jpg" \/ filetype = "svg" ->
  include_figure float str_round2 title filename filetype fig_path section
    subsection caption fig_width d
  = add_lines
      (map (fun l => mk_call l section subsection)
         (figure_lines float str_round2 (command_of filetype) title filename
            filetype fig_path caption fig_width)) d.
Proof.
  intros [->| ->];
    cbv -[add_line_content String.append]; reflexivity.
Qed.

Lemma include_figure_unsupported
    (title filename filetype fig_path section subsection caption : string)
    (fig_width : float) (d : TexDoc) :
  filetype <> "jpg" -> filetype <> "svg" ->
  include_figure float str_round2 title filename filetype fig_path section
    subsection caption fig_width d
  = (d, inl (ValueError "File type for figure not supported yet")).
Proof.
  intros Hj Hs. unfold include_figure.
  apply String.eqb_neq in Hj, Hs. unfold bind at 1. rewrite Hj, Hs.
  reflexivity.
Qed.

Lemma include_figure_lines
    (title filename filetype fig_path section subsection caption : string)
    (fig_width : float) (d : TexDoc) :
  filetype = "jpg" \/ filetype = "svg" ->
  snd (include_figure float str_round2 title filename filetype fig_path
         section subsection caption fig_width d) = inr tt
  /\ lines_at
       (content
          (fst (include_figure float str_round2 title filename filetype
                  fig_path section subsection caption fig_width d)))
       section subsection
     = (lines_at (content d) section subsection
        ++ figure_lines float str_round2 (command_of filetype) title filename
             filetype fig_path caption fig_width)%list.
Proof.
  intros Hft. rewrite (include_figure_supported _ _ _ _ _ _ _ _ _ Hft).
  rewrite add_lines_eq. cbn [fst snd]. split; [reflexivity|].
  replace (content (set_content
             (add_lines_content
                (map (fun l => mk_call l section subsection)
                   (figure_lines float str_round2 (command_of filetype)
                      title filename filetype fig_path caption fig_width))
                (content d)) d))
    with (add_lines_content
            (map (fun l => mk_call l section subsection)
               (figure_lines float str_round2 (command_of filetype)
                  title filename filetype fig_path caption fig_width))
            (content d)) by reflexivity.
  apply lines_at_add_lines_same.
Qed.

End Figures.

Section Tables.
Variable float : Type.
Variable round4_inv : nat -> float.
Variable fmul : float -> float -> float.
Variable fstr : float -> string.
Variable DataFrame : Type.
Variable shape1 : DataFrame -> nat.
Variable to_latex : DataFrame -> string -> string.

Lemma include_table_eq (table : DataFrame)
    (name title section subsection : string)
    (col_splits : option (list float)) (table_width : float)
    (longtable : bool) (caption : string) (d : TexDoc) :
  include_table float round4_inv fmul fstr DataFrame shape1 to_latex table
    name title section subsection col_splits table_width longtable caption d
  = match splits_of float round4_inv (shape1 table + 1) col_splits with
    | inl e => (d, inl e)
    | inr splits =>
        add_line
          (table_block float fmul fstr DataFrame to_latex table name title
             splits table_width longtable caption)
          section subsection d
    end.
Proof.
  unfold include_table, bind, lift.
  destruct (splits_of float round4_inv (shape1 table + 1) col_splits);
    reflexivity.
Qed.

End Tables.

End BlockFacts.

Module BlockClaims.
Import Dict Tex DictFacts AddLineFacts PrepareFacts Calls Blocks BlockFacts.
Import Examples.

Section Figures.
Variable float : Type.
Variable str_round2 : float -> string.

(** C6.  [include_figure] with file type "jpg" or "svg" returns normally
    and the lines it stores at [content[section][subsection]], after those
    already there, contain the label command whose argument is exactly the
    file name; with any other file type it raises the value error and the
    object, hence the content, is as before. *)
Theorem include_figure_filetype
    (title filename filetype fig_path section subsection caption : string)
    (fig_width : float) (d : TexDoc) :
  (filetype = "jpg" \/ filetype = "svg" ->
   exists block,
     snd (include_figure float str_round2 title filename filetype fig_path
            section subsection caption fig_width d) = inr tt
     /\ lines_at
          (content
             (fst (include_figure float str_round2 title filename filetype
                     fig_path section subsection caption fig_width d)))
          section subsection
        = (lines_at (content d) section subsection ++ block)%list
     /\ In ("\label{" ++ filename ++ "}") block)
  /\ (filetype <> "jpg" -> filetype <> "svg" ->
      include_figure float str_round2 title filename filetype fig_path
        section subsection caption fig_width d
      = (d, inl (ValueError "File type for figure not supported yet"))).
Proof.
  split.
  - intros Hft.
    exists (figure_lines float str_round2 (command_of filetype) title
              filename filetype fig_path caption fig_width).
    destruct (include_figure_lines float str_round2 title filename filetype
                fig_path section subsection caption fig_width d Hft)
      as [Hr Hl].
    split; [exact Hr|]. split; [exact Hl|].
    unfold figure_lines. cbn [In]. tauto.
  - apply include_figure_unsupported.
Qed.

(** C3, as the code has it.  [include_figure] with a supported file type
    calls [add_line] seven times: the lines stored at
    [content[section][subsection]] grow by seven elements, in this order:
    figure opener, caption, adjustbox opener, embed command, adjustbox
    closer, label, figure closer. *)
Theorem include_figure_seven_lines
    (title filename filetype fig_path section subsection caption : string)
    (fig_width : float) (d : TexDoc) :
  filetype = "jpg" \/ filetype = "svg" ->
  let d' := fst (include_figure float str_round2 title filename filetype
                   fig_path section subsection caption fig_width d) in
  lines_at (content d') section subsection
  = (lines_at (content d) section subsection ++
     [ "\begin{figure}[H]";
       ("\caption{\textbf{" ++ title ++ "} " ++ caption ++ "}")%string;
       "\begin{adjustbox}{center, max width=\paperwidth}";
       ("\" ++ command_of filetype ++ "[width=" ++ str_round2 fig_width
          ++ "\paperwidth]{./" ++ fig_path ++ "/" ++ filename ++ "."
          ++ filetype ++ "}")%string;
       "\end{adjustbox}";
       ("\label{" ++ filename ++ "}")%string;
       ("\end{figure}" ++ Str.nl)%string ])%list
  /\ List.length (lines_at (content d') section subsection)
     = List.length (lines_at (content d) section subsection) + 7.
Proof.
  intros Hft d'.
  destruct (include_figure_lines float str_round2 title filename filetype
              fig_path section subsection caption fig_width d Hft)
    as [_ Hl].
  fold d' in Hl. split.
  - rewrite Hl. reflexivity.
  - rewrite Hl, length_app. reflexivity.
Qed.

End Figures.

Lemma include_figure_filetype_witness :
  (exists block,
     snd (include_figure sample_float sample_str_round2 "Epidemic curve"
            "epi_curve" "svg" "figures" "Results" "" "Daily cases." "0.85"
            (fresh ConcreteTexDoc)) = inr tt
     /\ lines_at
          (content
             (fst (include_figure sample_float sample_str_round2
                     "Epidemic curve" "epi_curve" "svg" "figures" "Results"
                     "" "Daily cases." "0.85" (fresh ConcreteTexDoc))))
          "Results" ""
        = (lines_at (content (fresh ConcreteTexDoc)) "Results" "" ++ block)%list
     /\ In "\label{epi_curve}" block)
  /\ include_figure sample_float sample_str_round2 "Epidemic curve"
       "epi_curve" "png" "figures" "Results" "" "Daily cases." "0.85"
       (fresh ConcreteTexDoc)
     = (fresh ConcreteTexDoc,
        inl (ValueError "File type for figure not supported yet")).
Proof.
  split.
  - apply (include_figure_filetype sample_float sample_str_round2
             "Epidemic curve" "epi_curve" "svg" "figures" "Results" ""
             "Daily cases." "0.85" (fresh ConcreteTexDoc)).
    right. reflexivity.
  - apply (include_figure_filetype sample_float sample_str_round2
             "Epidemic curve" "epi_curve" "png" "figures" "Results" ""
             "Daily cases." "0.85" (fresh ConcreteTexDoc)); discriminate.
Defined.

Lemma include_figure_seven_lines_witness :
  ("jpg" = "jpg" \/ "jpg" = "svg")
  /\ List.length
       (lines_at
          (content
             (fst (include_figure sample_float sample_str_round2
                     "Epidemic curve" "epi_curve" "jpg" "figures" "Results"
                     "Cases" "Daily cases." "0.85" (fresh ConcreteTexDoc))))
          "Results" "Cases")
     = List.length (lines_at (content (fresh ConcreteTexDoc)) "Results" "Cases")
       + 7.
Proof.
  split; [left; reflexivity|].
  apply (include_figure_seven_lines sample_float sample_str_round2
           "Epidemic curve" "epi_curve" "jpg" "figures" "Results" "Cases"
           "Daily cases." "0.85" (fresh ConcreteTexDoc)).
  left. reflexivity.
Defined.

(** C3 as stated fails: after one [include_figure] on a new document the
    place holds seven elements, none of them the whole block. *)
Lemma include_figure_not_one_element :
  lines_at
    (content
       (fst (include_figure sample_float sample_str_round2 "Epidemic curve"
               "epi_curve" "jpg" "figures" "Results" "" "Daily cases."
               "0.85" (fresh ConcreteTexDoc))))
    "Results" ""
  = [ "\begin{figure}[H]";
      "\caption{\textbf{Epidemic curve} Daily cases.}";
      "\begin{adjustbox}{center, max width=\paperwidth}";
      "\includegraphics[width=0.85\paperwidth]{./figures/epi_curve.jpg}";
      "\end{adjustbox}";
      "\label{epi_curve}";
      "\end{figure}" ++ Str.nl ]
  /\ List.length
       (lines_at
          (content
             (fst (include_figure sample_float sample_str_round2
                     "Epidemic curve" "epi_curve" "jpg" "figures" "Results"
                     "" "Daily cases." "0.85" (fresh ConcreteTexDoc))))
          "Results" "") <> 1.
Proof.
  split; [vm_compute; reflexivity|].
  vm_compute. discriminate.
Qed.

Section Tables.
Variable float : Type.
Variable round4_inv : nat -> float.
Variable fmul : float -> float -> float.
Variable fstr : float -> string.
Variable DataFrame : Type.
Variable shape1 : DataFrame -> nat.
Variable to_latex : DataFrame -> string -> string.

(** C5, as the code has it.  With [n_cols = columns + 1]: a non-empty
    [col_splits] whose length is not [n_cols] makes [include_table] raise
    the value error with the object, hence the content, as before; a
    [col_splits] of length [n_cols] makes it add the table built from those
    splits; no [col_splits], or an empty list, makes it add the table built
    from [n_cols] equal splits [round(1.0 / n_cols, 4)]. *)
Theorem include_table_col_splits (table : DataFrame)
    (name title section subsection : string)
    (col_splits : option (list float)) (table_width : float)
    (longtable : bool) (caption : string) (d : TexDoc) :
  let n_cols := shape1 table + 1 in
  let run := include_table float round4_inv fmul fstr DataFrame shape1
               to_latex table name title section subsection col_splits
               table_width longtable caption d in
  let added splits :=
    add_line
      (table_block float fmul fstr DataFrame to_latex table name title
         splits table_width longtable caption)
      section subsection d in
  (forall l, col_splits = Some l -> l <> [] -> List.length l <> n_cols ->
     run = (d, inl (ValueError
                      "Wrong number of proportion column splits requested")))
  /\ (forall l, col_splits = Some l -> List.length l = n_cols ->
        run = added l)
  /\ (col_splits = None \/ col_splits = Some [] ->
        run = added (repeat (round4_inv n_cols) n_cols)).
Proof.
  intros n_cols run added. subst run added.
  rewrite include_table_eq. fold n_cols.
  split; [|split].
  - intros l -> Hne Hlen. unfold splits_of.
    destruct l as [|x l]; [congruence|].
    apply Nat.eqb_neq in Hlen. rewrite Hlen. reflexivity.
  - intros l -> Hlen. unfold splits_of.
    destruct l as [|x l]; [cbn [List.length] in Hlen; subst n_cols; lia|].
    apply Nat.eqb_eq in Hlen. rewrite Hlen. reflexivity.
  - intros [->| ->]; reflexivity.
Qed.

End Tables.

Lemma include_table_col_splits_witness :
  include_table sample_float sample_round4_inv sample_fmul sample_fstr
    sample_table sample_shape1 sample_to_latex three_columns "tab1" "Counts"
    "Results" "" (Some ["0.5"; "0.25"; "0.25"]) "14.0" false ""
    (fresh ConcreteTexDoc)
  = (fresh ConcreteTexDoc,
     inl (ValueError "Wrong number of proportion column splits requested"))
  /\ include_table sample_float sample_round4_inv sample_fmul sample_fstr
       sample_table sample_shape1 sample_to_latex three_columns "tab1"
       "Counts" "Results" "" (Some ["0.4"; "0.2"; "0.2"; "0.2"]) "14.0"
       false "" (fresh ConcreteTexDoc)
     = add_line
         (table_block sample_float sample_fmul sample_fstr sample_table
            sample_to_latex three_columns "tab1" "Counts"
            ["0.4"; "0.2"; "0.2"; "0.2"] "14.0" false "")
         "Results" "" (fresh ConcreteTexDoc).
Proof.
  pose proof (include_table_col_splits sample_float sample_round4_inv
                sample_fmul sample_fstr sample_table sample_shape1
                sample_to_latex three_columns "tab1" "Counts" "Results" ""
                (Some ["0.5"; "0.25"; "0.25"]) "14.0" false ""
                (fresh ConcreteTexDoc)) as H1.
  pose proof (include_table_col_splits sample_float sample_round4_inv
                sample_fmul sample_fstr sample_table sample_shape1
                sample_to_latex three_columns "tab1" "Counts" "Results" ""
                (Some ["0.4"; "0.2"; "0.2"; "0.2"]) "14.0" false ""
                (fresh ConcreteTexDoc)) as H2.
  cbv zeta in H1, H2.
  destruct H1 as [H1 _]. destruct H2 as [_ [H2 _]].
  split.
  - apply (H1 _ eq_refl); [discriminate | vm_compute; discriminate].
  - apply (H2 _ eq_refl). vm_compute. reflexivity.
Defined.

(** C5 as stated fails: an empty [col_splits], whose length 0 is not the 4
    that a table of three columns needs, raises nothing; the table is
    added with equal splits. *)
Lemma include_table_empty_splits_accepted :
  snd (include_table sample_float sample_round4_inv sample_fmul sample_fstr
         sample_table sample_shape1 sample_to_latex three_columns "tab1"
         "Counts" "Results" "" (Some []) "14.0" false ""
         (fresh ConcreteTexDoc)) = inr tt
  /\ List.length
       (lines_at
          (content
             (fst (include_table sample_float sample_round4_inv sample_fmul
                     sample_fstr sample_table sample_shape1 sample_to_latex
                     three_columns "tab1" "Counts" "Results" "" (Some [])
                     "14.0" false "" (fresh ConcreteTexDoc))))
          "Results" "") = 1
  /\ content (fresh ConcreteTexDoc) = [].
Proof. repeat split; vm_compute; reflexivity. Qed.

End BlockClaims.

(* ------------------------------------------------------------------ *)
(** ** str.replace *)

Module ReplaceFacts.
Import Str StrFacts.

Lemma prefix_self_app (old b : string) : prefix old (old ++ b) = true.
Proof.
  induction old as [|x old IH]; cbn [append].
  - destruct b; reflexivity.
  - cbn [prefix]. destruct (ascii_dec x x); [exact IH | congruence].
Qed.

Lemma prefix_app_r (old : string) : forall s post,
  prefix old s = true -> prefix old (s ++ post) = true.
Proof.
  induction old as [|x old IH]; intros s post.
  - intros _. destruct (s ++ post); reflexivity.
  - destruct s as [|y s]; cbn [append prefix]; [discriminate|].
    destruct (ascii_dec x y); [apply IH | discriminate].
Qed.

Lemma skip_self_app (old b : string) : skip (String.length old) (old ++ b) = b.
Proof. induction old as [|x old IH]; cbn [skip String.length append]; auto. Qed.

Lemma skip_length (n : nat) : forall s,
  String.length (skip n s) <= String.length s.
Proof.
  induction n as [|n IH]; intros s; cbn [skip]; [lia|].
  destruct s as [|a s]; cbn [String.length]; [lia|].
  specialize (IH s). lia.
Qed.

Lemma occurs_app_r (old s post : string) :
  occurs old s = true -> occurs old (s ++ post) = true.
Proof.
  induction s as [|a s IH]; cbn [occurs append]; intros H.
  - rewrite orb_false_r in H.
    pose proof (prefix_app_r old "" post H) as P. cbn [append] in P.
    destruct post; cbn [occurs]; rewrite P; reflexivity.
  - apply orb_true_iff in H. destruct H as [H|H].
    + pose proof (prefix_app_r old (String a s) post H) as P.
      cbn [append] in P. rewrite P. reflexivity.
    + rewrite (IH H). apply orb_true_r.
Qed.

Lemma occurs_app_l (old pre s : string) :
  occurs old s = true -> occurs old (pre ++ s) = true.
Proof.
  intros H. induction pre as [|a pre IH]; cbn [append]; [exact H|].
  cbn [occurs]. rewrite IH. apply orb_true_r.
Qed.

Section Replace.
Variables old new : string.
Hypothesis old_not_empty : old <> "".

(** Any fuel that covers the text gives the same result. *)
Lemma replace_fuel_enough (n : nat) : forall m s,
  String.length s <= n -> String.length s <= m ->
  replace_fuel n old new s = replace_fuel m old new s.
Proof.
  induction n as [|n IH]; intros m s Hn Hm.
  - destruct s; cbn [String.length] in Hn; [|lia].
    destruct m; reflexivity.
  - destruct m as [|m].
    + destruct s; cbn [String.length] in Hm; [reflexivity | lia].
    + cbn [replace_fuel]. destruct s as [|a s]; [reflexivity|].
      cbn [String.length] in Hn, Hm.
      destruct (prefix old (String a s)).
      * f_equal. destruct old as [|x o]; [congruence|].
        cbn [String.length skip].
        pose proof (skip_length (String.length o) s).
        apply IH; lia.
      * f_equal. apply IH; lia.
Qed.

Lemma replace_empty : replace old new "" = "".
Proof. reflexivity. Qed.

Lemma replace_step (a : ascii) (s : string) :
  prefix old (String a s) = false ->
  replace old new (String a s) = String a (replace old new s).
Proof.
  intros H. unfold replace. cbn [String.length replace_fuel]. rewrite H.
  reflexivity.
Qed.

Lemma replace_match (b : string) :
  replace old new (old ++ b) = new ++ replace old new b.
Proof.
  unfold replace.
  assert (Hlen : String.length (old ++ b) = String.length old + String.length b)
    by apply length_append.
  assert (Hpos : 1 <= String.length old)
    by (destruct old; [congruence | cbn [String.length]; lia]).
  pose proof (prefix_self_app old b) as Hp.
  pose proof (skip_self_app old b) as Hs.
  destruct (old ++ b) as [|a s]; cbn [String.length] in Hlen; [lia|].
  cbn [String.length replace_fuel]. rewrite Hp, Hs. f_equal.
  apply replace_fuel_enough; lia.
Qed.

(** A text without occurrence is returned as it is. *)
Lemma replace_none (s : string) :
  occurs old s = false -> replace old new s = s.
Proof.
  induction s as [|a s IH]; [reflexivity|].
  cbn [occurs]. intros H. apply orb_false_iff in H. destruct H as [Hp Ho].
  rewrite (replace_step _ _ Hp), (IH Ho). reflexivity.
Qed.

(** Up to and including the first occurrence. *)
Lemma replace_first (a b : string) :
  starts_within old a (old ++ b) = false ->
  replace old new (a ++ old ++ b) = a ++ new ++ replace old new b.
Proof.
  induction a as [|x a IH]; cbn [starts_within append].
  - intros _. apply replace_match.
  - intros H. apply orb_false_iff in H. destruct H as [Hp Hw].
    rewrite (replace_step _ _ Hp), (IH Hw). reflexivity.
Qed.

(** A text with a single occurrence loses it. *)
Lemma replace_single (a b : string) :
  starts_within old a (old ++ b) = false ->
  occurs old b = false ->
  replace old new (a ++ old ++ b) = a ++ new ++ b.
Proof.
  intros Ha Hb. rewrite (replace_first _ _ Ha), (replace_none _ Hb).
  reflexivity.
Qed.

End Replace.

End ReplaceFacts.

(* ------------------------------------------------------------------ *)
(** ** get_tex_table and get_tex_longtable *)

Module TableClaims.
Import Str StrFacts ReplaceFacts Blocks Examples.

Section Renderers.
Variable DataFrame : Type.
Variable to_latex : DataFrame -> string -> string.

(** C4, as the code has it.  The single-page renderer embeds the
    converter's text as it is, so a tabular wrapper in that text is in the
    table block; it is the long-table renderer that strips the wrapper:
    when the converter's text holds one [\begin{tabular}] and, after it,
    one [\end{tabular}], the long-table block holds the text without the
    two tags. *)
Theorem table_renderers_tabular_wrapper (table : DataFrame)
    (col_format_str caption_str label_str : string) :
  get_tex_table DataFrame to_latex table col_format_str caption_str label_str
  = "\begin{table}" ++ Str.nl ++ to_latex table col_format_str
      ++ caption_str ++ label_str ++ "\end{table}"
  /\ (occurs begin_tabular (to_latex table col_format_str) = true ->
      occurs begin_tabular
        (get_tex_table DataFrame to_latex table col_format_str caption_str
           label_str) = true)
  /\ (forall a m z,
        to_latex table col_format_str
        = a ++ begin_tabular ++ m ++ end_tabular ++ z ->
        starts_within begin_tabular a (begin_tabular ++ m ++ end_tabular ++ z)
        = false ->
        occurs begin_tabular (m ++ end_tabular ++ z) = false ->
        starts_within end_tabular (a ++ m) (end_tabular ++ z) = false ->
        occurs end_tabular z = false ->
        get_tex_longtable DataFrame to_latex table col_format_str caption_str
          label_str
        = "\begin{longtable}" ++ Str.nl ++ a ++ m ++ z
            ++ caption_str ++ label_str ++ "\end{longtable}").
Proof.
  split; [|split].
  - unfold get_tex_table. rewrite !append_assoc. reflexivity.
  - intros H. unfold get_tex_table.
    apply occurs_app_l, occurs_app_r, H.
  - intros a m z Ht H1 H2 H3 H4. unfold get_tex_longtable. rewrite Ht.
    rewrite (replace_single begin_tabular "" ltac:(discriminate) _ _ H1 H2).
    change ("" ++ m ++ end_tabular ++ z) with (m ++ end_tabular ++ z).
    rewrite <- (append_assoc a m (end_tabular ++ z)).
    rewrite (replace_single end_tabular "" ltac:(discriminate) _ _ H3 H4).
    change ("" ++ z) with z.
    rewrite !append_assoc. reflexivity.
Qed.

End Renderers.

Lemma table_renderers_tabular_wrapper_witness :
  occurs begin_tabular
    (get_tex_table sample_table sample_to_latex three_columns "lll"
       "\caption{c}" "\label{t}") = true
  /\ get_tex_longtable sample_table sample_to_latex three_columns "lll"
       "\caption{c}" "\label{t}"
     = "\begin{longtable}" ++ Str.nl ++ "" ++ ("{lll}" ++ Str.nl ++ snd three_columns)
         ++ Str.nl ++ "\caption{c}" ++ "\label{t}" ++ "\end{longtable}".
Proof.
  destruct (table_renderers_tabular_wrapper sample_table sample_to_latex
              three_columns "lll" "\caption{c}" "\label{t}")
    as [_ [H1 H2]].
  split.
  - apply H1. vm_compute. reflexivity.
  - apply (H2 "" ("{lll}" ++ Str.nl ++ snd three_columns) Str.nl);
      vm_compute; reflexivity.
Defined.

(** C4 as stated fails, both ways: on a converter text wrapped in the
    tabular tags, the single-page block holds the opening tag and the whole
    converter text, and the long-table block holds neither. *)
Lemma single_page_table_keeps_wrapper :
  occurs begin_tabular
    (get_tex_table sample_table sample_to_latex three_columns "lll"
       "\caption{c}" "\label{t}") = true
  /\ occurs (sample_to_latex three_columns "lll")
       (get_tex_table sample_table sample_to_latex three_columns "lll"
          "\caption{c}" "\label{t}") = true
  /\ occurs begin_tabular
       (get_tex_longtable sample_table sample_to_latex three_columns "lll"
          "\caption{c}" "\label{t}") = false
  /\ occurs (sample_to_latex three_columns "lll")
       (get_tex_longtable sample_table sample_to_latex three_columns "lll"
          "\caption{c}" "\label{t}") = false.
Proof. repeat split; vm_compute; reflexivity. Qed.

End TableClaims.

(* ------------------------------------------------------------------ *)
(** ** save_content and load_content *)

Module PersistFacts.
Import Dict Tex DictFacts Persist PyYAML.

Section Codec.
Variable file : Type.
Variable yml_dump : content_t -> file.
Variable yml_load : file -> content_t.

(** Whatever the library does, loading into an object with the same path
    and name reads the file that saving wrote, and replaces the whole
    content by what the library makes of it. *)
Lemma load_after_save (d d2 : TexDoc) (fs : filesystem file) :
  path d2 = path d -> doc_name d2 = doc_name d ->
  load_content file yml_load (save_content file yml_dump d fs) d2
  = (set_content (yml_load (yml_dump (content d))) d2, inr tt).
Proof.
  intros Hp Hn. unfold load_content, save_content, yml_path.
  rewrite Hp, Hn, lookup_set_key_same. reflexivity.
Qed.

End Codec.

Section SortItems.
Context {V : Type}.
Implicit Types (d : dict V).


Lemma keys_insert_item (x : string * V) d :
  keys (insert_item x d) = Sorted.insert (fst x) (keys d).
Proof.
  induction d as [|y d IH]; [reflexivity|].
  unfold keys in *. cbn [insert_item map Sorted.insert].
  destruct (String.leb (fst x) (fst y)); cbn [map];
    [reflexivity | rewrite IH; reflexivity].
Qed.

(** The keys come back sorted. *)
Lemma keys_sort_items d : keys (sort_items d) = Sorted.sorted (keys d).
Proof.
  induction d as [|x d IH]; [reflexivity|].
  cbn [sort_items]. rewrite keys_insert_item, IH. reflexivity.
Qed.



End SortItems.





End PersistFacts.

Module PersistClaims.
Import Dict Tex DictFacts Persist PyYAML PersistFacts Calls Examples.




End PersistClaims.

(* ------------------------------------------------------------------ *)
(** ** The content built by a sequence of add_line calls *)

Module ContentOf.
Import Dict Tex DictFacts AddLineFacts PrepareFacts Calls.

(** *** Dictionaries given by a list of keys *)

Section Tabulate.
Context {V : Type}.
Implicit Types (f : string -> V) (ks : list string).

Lemma keys_tabulate f ks : keys (tabulate f ks) = ks.
Proof.
  unfold keys, tabulate. rewrite map_map. cbn [fst]. apply map_id.
Qed.

Lemma tabulate_app f ks ks' :
  tabulate f (ks ++ ks')%list = (tabulate f ks ++ tabulate f ks')%list.
Proof. apply map_app. Qed.

Lemma tabulate_ext f g ks :
  (forall k, In k ks -> f k = g k) -> tabulate f ks = tabulate g ks.
Proof.
  intros H. apply map_ext_in. intros k Hk. rewrite (H k Hk). reflexivity.
Qed.

Lemma lookup_tabulate f ks (k : string) :
  In k ks -> lookup k (tabulate f ks) = Some (f k).
Proof.
  induction ks as [|k' ks IH]; [contradiction|].
  cbn [tabulate map lookup]. destruct (String.eqb_spec k' k) as [->|Hne].
  - reflexivity.
  - intros [E|Hin]; [contradiction | apply IH, Hin].
Qed.

Lemma has_key_tabulate f ks (k : string) :
  has_key k (tabulate f ks) = true <-> In k ks.
Proof. rewrite has_key_In, keys_tabulate. reflexivity. Qed.

Lemma modify_tabulate_absent f ks (k : string) (g : V -> V) :
  ~ In k ks -> modify k g (tabulate f ks) = tabulate f ks.
Proof.
  induction ks as [|k' ks IH]; [reflexivity|].
  intros Hnot. cbn [tabulate map modify].
  destruct (String.eqb_spec k' k) as [->|Hne].
  - exfalso. apply Hnot. left. reflexivity.
  - f_equal. apply IH. intros Hin. apply Hnot. right. exact Hin.
Qed.

Lemma modify_tabulate_present f ks (k : string) (g : V -> V) :
  NoDup ks -> In k ks ->
  modify k g (tabulate f ks)
  = tabulate (fun k' => if String.eqb k' k then g (f k') else f k') ks.
Proof.
  induction 1 as [|k' ks Hnot Hnd IH]; [contradiction|].
  intros Hin. cbn [tabulate map modify].
  destruct (String.eqb_spec k' k) as [->|Hne].
  - f_equal. apply map_ext_in. intros k1 Hk1.
    destruct (String.eqb_spec k1 k) as [->|]; [contradiction | reflexivity].
  - f_equal. apply IH. destruct Hin; [contradiction | assumption].
Qed.

Lemma modify_app_absent (d d' : dict V) (k : string) (g : V -> V) :
  has_key k d = false ->
  modify k g (d ++ d')%list = (d ++ modify k g d')%list.
Proof.
  induction d as [|[k' v] d IH]; [reflexivity|].
  cbn [has_key app modify]. destruct (String.eqb k' k); [discriminate|].
  cbn [orb]. intros H. rewrite (IH H). reflexivity.
Qed.

Lemma set_key_absent (d : dict V) (k : string) (v : V) :
  has_key k d = false -> set_key k v d = (d ++ [(k, v)])%list.
Proof.
  induction d as [|[k' v'] d IH]; [reflexivity|].
  cbn [has_key app set_key]. destruct (String.eqb k' k); [discriminate|].
  cbn [orb]. intros H. rewrite (IH H). reflexivity.
Qed.

(** Creating the key when it is missing and then changing its value. *)
Lemma upsert_tabulate_present f ks (k : string) (e : V) (g : V -> V) :
  NoDup ks -> In k ks ->
  modify k g (setdefault_empty k e (tabulate f ks))
  = tabulate (fun k' => if String.eqb k' k then g (f k') else f k') ks.
Proof.
  intros Hnd Hin. unfold setdefault_empty.
  rewrite (proj2 (has_key_tabulate f ks k) Hin). cbn [negb].
  apply modify_tabulate_present; assumption.
Qed.

Lemma upsert_tabulate_absent f ks (k : string) (e : V) (g : V -> V) :
  ~ In k ks ->
  modify k g (setdefault_empty k e (tabulate f ks))
  = (tabulate f ks ++ [(k, g e)])%list.
Proof.
  intros Hnot. unfold setdefault_empty.
  assert (Hk : has_key k (tabulate f ks) = false).
  { destruct (has_key k (tabulate f ks)) eqn:E; [|reflexivity].
    apply has_key_tabulate in E. contradiction. }
  rewrite Hk. cbn [negb].
  rewrite (set_key_absent _ _ _ Hk), (modify_app_absent _ _ _ _ Hk).
  cbn [modify]. rewrite String.eqb_refl. reflexivity.
Qed.

End Tabulate.

(** *** First occurrences *)

Lemma existsb_eqb_In (x : string) (l : list string) :
  existsb (String.eqb x) l = true <-> In x l.
Proof.
  rewrite existsb_exists. split.
  - intros [y [Hy E]]. apply String.eqb_eq in E. subst. exact Hy.
  - intros H. exists x. split; [exact H | apply String.eqb_refl].
Qed.

Lemma first_seen_snoc (l : list string) (x : string) :
  first_seen (l ++ [x])
  = if existsb (String.eqb x) (first_seen l)
    then first_seen l else (first_seen l ++ [x])%list.
Proof. unfold first_seen. rewrite fold_left_app. reflexivity. Qed.

Lemma first_seen_In (l : list string) (x : string) :
  In x (first_seen l) <-> In x l.
Proof.
  induction l as [|y l IH] using rev_ind; [reflexivity|].
  rewrite first_seen_snoc, in_app_iff. cbn [In].
  destruct (existsb (String.eqb y) (first_seen l)) eqn:E.
  - apply existsb_eqb_In in E. rewrite IH in *.
    intuition (subst; auto).
  - rewrite in_app_iff, IH. cbn [In]. tauto.
Qed.

Lemma first_seen_NoDup (l : list string) : NoDup (first_seen l).
Proof.
  induction l as [|y l IH] using rev_ind; [constructor|].
  rewrite first_seen_snoc.
  destruct (existsb (String.eqb y) (first_seen l)) eqn:E; [exact IH|].
  apply NoDup_app; [exact IH | repeat constructor; intros [] |].
  intros x Hx [<-|[]].
  apply existsb_eqb_In in Hx. congruence.
Qed.

(** *** One more call *)

Lemma sections_added_snoc (cs : list call) (k : call) :
  sections_added (cs ++ [k])
  = if existsb (String.eqb (section k)) (sections_added cs)
    then sections_added cs else (sections_added cs ++ [section k])%list.
Proof. unfold sections_added. rewrite map_app. apply first_seen_snoc. Qed.

Lemma in_section_refl (k : call) : in_section (section k) k = true.
Proof. apply String.eqb_refl. Qed.

Lemma in_section_other (s : string) (k : call) :
  section k <> s -> in_section s k = false.
Proof. intros H. apply String.eqb_neq, H. Qed.

Lemma subsections_added_snoc_other (cs : list call) (k : call) (s : string) :
  section k <> s ->
  subsections_added (cs ++ [k]) s = subsections_added cs s.
Proof.
  intros H. unfold subsections_added. rewrite filter_app. cbn [filter].
  rewrite (in_section_other _ _ H), app_nil_r. reflexivity.
Qed.

Lemma subsections_added_snoc_same (cs : list call) (k : call) :
  subsections_added (cs ++ [k]) (section k)
  = if existsb (String.eqb (subsection k)) (subsections_added cs (section k))
    then subsections_added cs (section k)
    else (subsections_added cs (section k) ++ [subsection k])%list.
Proof.
  unfold subsections_added. rewrite filter_app. cbn [filter].
  rewrite in_section_refl, map_app. apply first_seen_snoc.
Qed.

Lemma lines_added_snoc (cs : list call) (k : call) (s u : string) :
  lines_added (cs ++ [k]) s u
  = (lines_added cs s u ++ if at_place s u k then [line k] else [])%list.
Proof.
  unfold lines_added. rewrite filter_app, map_app. cbn [filter].
  destruct (at_place s u k); reflexivity.
Qed.

Lemma at_place_iff (s u : string) (k : call) :
  at_place s u k = true <-> section k = s /\ subsection k = u.
Proof.
  unfold at_place. rewrite andb_true_iff, !String.eqb_eq. reflexivity.
Qed.

Lemma at_place_other_section (s u : string) (k : call) :
  section k <> s -> at_place s u k = false.
Proof.
  intros H. destruct (at_place s u k) eqn:E; [|reflexivity].
  apply at_place_iff in E. tauto.
Qed.

Lemma at_place_other_subsection (s u : string) (k : call) :
  subsection k <> u -> at_place s u k = false.
Proof.
  intros H. destruct (at_place s u k) eqn:E; [|reflexivity].
  apply at_place_iff in E. tauto.
Qed.

Lemma section_seen (cs : list call) (k : call) :
  In k cs -> In (section k) (sections_added cs).
Proof. intros H. apply first_seen_In, in_map, H. Qed.

Lemma subsection_seen (cs : list call) (k : call) :
  In k cs -> In (subsection k) (subsections_added cs (section k)).
Proof.
  intros H. apply first_seen_In, in_map, filter_In.
  split; [exact H | apply in_section_refl].
Qed.

Lemma filter_nil_of_none {A} (p : A -> bool) (l : list A) :
  (forall x, In x l -> p x = false) -> filter p l = [].
Proof.
  induction l as [|x l IH]; intros H; [reflexivity|].
  cbn [filter]. rewrite (H x (or_introl eq_refl)).
  apply IH. intros y Hy. apply H. right. exact Hy.
Qed.

Lemma no_call_in_unseen_section (cs : list call) (s : string) :
  ~ In s (sections_added cs) -> filter (in_section s) cs = [].
Proof.
  intros Hnot. apply filter_nil_of_none. intros k Hk.
  destruct (in_section s k) eqn:E; [|reflexivity].
  apply String.eqb_eq in E. subst s. exfalso. apply Hnot, section_seen, Hk.
Qed.

Lemma no_call_at_unseen_subsection (cs : list call) (s u : string) :
  ~ In u (subsections_added cs s) -> filter (at_place s u) cs = [].
Proof.
  intros Hnot. apply filter_nil_of_none. intros k Hk.
  destruct (at_place s u k) eqn:E; [|reflexivity].
  apply at_place_iff in E. destruct E as [<- <-].
  exfalso. apply Hnot, subsection_seen, Hk.
Qed.

Lemma lines_added_unseen (cs : list call) (s u : string) :
  ~ In u (subsections_added cs s) -> lines_added cs s u = [].
Proof.
  intros H. unfold lines_added.
  rewrite (no_call_at_unseen_subsection _ _ _ H). reflexivity.
Qed.

Lemma subsections_added_unseen (cs : list call) (s : string) :
  ~ In s (sections_added cs) -> subsections_added cs s = [].
Proof.
  intros H. unfold subsections_added.
  rewrite (no_call_in_unseen_section _ _ H). reflexivity.
Qed.

Lemma not_existsb_eqb (x : string) (l : list string) :
  ~ In x l -> existsb (String.eqb x) l = false.
Proof.
  intros H. destruct (existsb (String.eqb x) l) eqn:E; [|reflexivity].
  apply existsb_eqb_In in E. contradiction.
Qed.

(** The subsections of the section that the call names. *)
Lemma subs_after_content_of (cs : list call) (k : call) :
  subs_after (line k) (subsection k)
    (tabulate (lines_added cs (section k))
       (subsections_added cs (section k)))
  = tabulate (lines_added (cs ++ [k]) (section k))
      (subsections_added (cs ++ [k]) (section k)).
Proof.
  unfold subs_after. rewrite subsections_added_snoc_same.
  destruct (in_dec string_dec (subsection k)
              (subsections_added cs (section k))) as [Hin|Hnot].
  - rewrite upsert_tabulate_present;
      [| apply first_seen_NoDup | exact Hin].
    rewrite (proj2 (existsb_eqb_In _ _) Hin).
    apply tabulate_ext. intros u Hu. rewrite lines_added_snoc.
    destruct (String.eqb_spec u (subsection k)) as [->|Hne].
    + rewrite (proj2 (at_place_iff _ _ _) (conj eq_refl eq_refl)).
      reflexivity.
    + rewrite at_place_other_subsection by congruence.
      rewrite app_nil_r. reflexivity.
  - rewrite upsert_tabulate_absent by exact Hnot.
    rewrite (not_existsb_eqb _ _ Hnot), tabulate_app. f_equal.
    + apply tabulate_ext. intros u Hu. rewrite lines_added_snoc.
      rewrite at_place_other_subsection by (intros E; subst; contradiction).
      rewrite app_nil_r. reflexivity.
    + cbn [tabulate map]. rewrite lines_added_snoc.
      rewrite (lines_added_unseen _ _ _ Hnot).
      rewrite (proj2 (at_place_iff _ _ _) (conj eq_refl eq_refl)).
      reflexivity.
Qed.

(** The subsections of any other section. *)
Lemma other_section_content_of (cs : list call) (k : call) (s : string) :
  s <> section k ->
  tabulate (lines_added (cs ++ [k]) s) (subsections_added (cs ++ [k]) s)
  = tabulate (lines_added cs s) (subsections_added cs s).
Proof.
  intros Hne. rewrite subsections_added_snoc_other by congruence.
  apply tabulate_ext. intros u Hu. rewrite lines_added_snoc.
  rewrite at_place_other_section by congruence.
  apply app_nil_r.
Qed.

Lemma add_line_content_of (cs : list call) (k : call) :
  add_line_content (line k) (section k) (subsection k) (content_of cs)
  = content_of (cs ++ [k]).
Proof.
  rewrite add_line_content_eq. unfold content_of.
  rewrite sections_added_snoc.
  destruct (in_dec string_dec (section k) (sections_added cs)) as [Hin|Hnot].
  - rewrite upsert_tabulate_present;
      [| apply first_seen_NoDup | exact Hin].
    rewrite (proj2 (existsb_eqb_In _ _) Hin).
    apply tabulate_ext. intros s Hs.
    destruct (String.eqb_spec s (section k)) as [->|Hne].
    + apply subs_after_content_of.
    + symmetry. apply other_section_content_of, Hne.
  - rewrite upsert_tabulate_absent by exact Hnot.
    rewrite (not_existsb_eqb _ _ Hnot), tabulate_app. f_equal.
    + apply tabulate_ext. intros s Hs. symmetry.
      apply other_section_content_of. intros E. subst. contradiction.
    + cbn [tabulate map]. rewrite <- subs_after_content_of.
      rewrite (subsections_added_unseen _ _ Hnot). reflexivity.
Qed.

(** The content after the calls, on a document that was empty. *)
Lemma add_lines_content_of (cs : list call) :
  add_lines_content cs [] = content_of cs.
Proof.
  induction cs as [|k cs IH] using rev_ind; [reflexivity|].
  unfold add_lines_content in *. rewrite fold_left_app. cbn [fold_left].
  rewrite IH. apply add_line_content_of.
Qed.

End ContentOf.

(* ------------------------------------------------------------------ *)
(** ** The pieces emitted after a sequence of add_line calls *)

Module EmitCalls.
Import Dict Tex DictFacts AddLineFacts PrepareFacts Calls ContentOf.
Import EmitFacts EmitOutcome.

Lemma lines_of_app (ps ps' : list piece) :
  lines_of (ps ++ ps')%list = (lines_of ps ++ lines_of ps')%list.
Proof.
  induction ps as [|[l|s|u] ps IH]; cbn [lines_of app]; try assumption.
  - reflexivity.
  - rewrite IH. reflexivity.
Qed.

Lemma lines_of_lines (ls : list string) : lines_of (map Line ls) = ls.
Proof. induction ls as [|l ls IH]; cbn [map lines_of]; congruence. Qed.

Lemma getitem_tabulate {V} (f : string -> V) (ks : list string) (k : string) :
  In k ks -> getitem k (tabulate f ks) = inr (f k).
Proof. intros H. unfold getitem. rewrite (lookup_tabulate f ks k H). reflexivity. Qed.

(** The pieces of the named subsections of a section given by its lines. *)
Lemma subsection_pieces_tabulate (L : string -> list string)
    (K ks : list string) :
  (forall u, In u ks -> In u K) ->
  exists ps, subsection_pieces (tabulate L K) ks = inr ps
             /\ lines_of ps = flat_map L ks.
Proof.
  induction ks as [|u ks IH]; intros Hsub; cbn [subsection_pieces].
  - exists []. auto.
  - rewrite getitem_tabulate by (apply Hsub; left; reflexivity).
    destruct IH as [ps [Hps Hl]];
      [intros u' Hu'; apply Hsub; right; exact Hu'|].
    rewrite Hps. cbn [rbind]. eexists. split; [reflexivity|].
    cbn [lines_of flat_map]. rewrite lines_of_app, lines_of_lines, Hl.
    reflexivity.
Qed.

(** The lines without subsection of a section that the calls name. *)
Lemma plain_lines_content_of (cs : list call) (s : string) :
  (if has_key ""
        (tabulate (lines_added cs s) (subsections_added cs s))
   then getitem ""
          (tabulate (lines_added cs s) (subsections_added cs s))
   else inr [])
  = inr (lines_added cs s "").
Proof.
  destruct (has_key "" (tabulate (lines_added cs s) (subsections_added cs s)))
    eqn:E.
  - apply has_key_tabulate in E. apply getitem_tabulate, E.
  - rewrite lines_added_unseen; [reflexivity|].
    intros Hin. apply (has_key_tabulate (lines_added cs s)) in Hin.
    congruence.
Qed.

Lemma section_pieces_content_of (cs : list call) (order : list string) :
  (forall s, In s order -> In s (sections_added cs)) ->
  exists ps, section_pieces (content_of cs) order = inr ps
             /\ lines_of ps = flat_map (section_lines cs) order.
Proof.
  induction order as [|s order IH]; intros Hsub; cbn [section_pieces].
  - exists []. auto.
  - unfold content_of at 1.
    rewrite getitem_tabulate by (apply Hsub; left; reflexivity).
    cbn [rbind]. rewrite plain_lines_content_of. cbn [rbind].
    rewrite keys_tabulate.
    destruct (subsection_pieces_tabulate (lines_added cs s)
                (subsections_added cs s)
                (filter named (subsections_added cs s)))
      as [ps1 [Hps1 Hl1]];
      [intros u Hu; apply filter_In in Hu; tauto|].
    rewrite Hps1. cbn [rbind].
    destruct IH as [ps2 [Hps2 Hl2]];
      [intros s' Hs'; apply Hsub; right; exact Hs'|].
    rewrite Hps2. cbn [rbind]. eexists. split; [reflexivity|].
    cbn [lines_of flat_map].
    rewrite !lines_of_app, lines_of_lines, Hl1, Hl2.
    unfold section_lines. rewrite <- app_assoc. reflexivity.
Qed.

Lemma has_plain_lines_content_of (cs : list call) (s : string) :
  has_plain_lines s (content_of cs) = true ->
  getitem s (content_of cs)
  = inr (tabulate (lines_added cs s) (subsections_added cs s))
  /\ getitem "" (tabulate (lines_added cs s) (subsections_added cs s))
     = inr (lines_added cs s "").
Proof.
  unfold has_plain_lines. intros H.
  destruct (in_dec string_dec s (sections_added cs)) as [Hin|Hnot].
  - unfold content_of in *.
    rewrite (lookup_tabulate _ _ _ Hin) in H.
    split.
    + apply (getitem_tabulate
               (fun s => tabulate (lines_added cs s) (subsections_added cs s))),
        Hin.
    + apply getitem_tabulate. apply has_key_tabulate in H. exact H.
  - exfalso. rewrite lookup_absent in H; [discriminate|].
    destruct (has_key s (content_of cs)) eqn:E; [|reflexivity].
    unfold content_of in E. apply has_key_tabulate in E. contradiction.
Qed.

(** The lines among the pieces are those that the specification lists. *)
Lemma emit_pieces_content_of (cs : list call) :
  has_plain_lines "preamble" (content_of cs) = true ->
  has_plain_lines "endings" (content_of cs) = true ->
  exists ps,
    emit_pieces (content_of cs) (keys (content_of cs)) = inr ps
    /\ lines_of ps = expected_lines cs.
Proof.
  intros Hp He.
  destruct (has_plain_lines_content_of _ _ Hp) as [Hp1 Hp2].
  destruct (has_plain_lines_content_of _ _ He) as [He1 He2].
  unfold emit_pieces. rewrite Hp1. cbn [rbind]. rewrite Hp2. cbn [rbind].
  replace (keys (content_of cs)) with (sections_added cs)
    by (unfold content_of; rewrite keys_tabulate; reflexivity).
  destruct (section_pieces_content_of cs
              (filter not_standard (sections_added cs)))
    as [ps [Hps Hl]]; [intros s Hs; apply filter_In in Hs; tauto|].
  rewrite Hps. cbn [rbind]. rewrite He1. cbn [rbind].
  rewrite He2. cbn [rbind]. eexists. split; [reflexivity|].
  rewrite !lines_of_app, !lines_of_lines, Hl. reflexivity.
Qed.

End EmitCalls.

(* ------------------------------------------------------------------ *)
(** ** Every emitted line was added, and as often *)

Module CallCount.
Import Dict Tex DictFacts AddLineFacts Calls ContentOf.

Section Grouping.
Context {A : Type}.

Lemma filter_split_perm (p : A -> bool) (l : list A) :
  Permutation (filter p l ++ filter (fun x => negb (p x)) l)%list l.
Proof.
  induction l as [|x l IH]; cbn [filter]; [constructor|].
  destruct (p x); cbn [negb app].
  - constructor. exact IH.
  - rewrite <- Permutation_middle. constructor. exact IH.
Qed.

Lemma flat_map_ext_in {B} (f g : string -> list B) (l : list string) :
  (forall x, In x l -> f x = g x) -> flat_map f l = flat_map g l.
Proof.
  induction l as [|x l IH]; intros H; [reflexivity|].
  cbn [flat_map]. rewrite (H x (or_introl eq_refl)), IH; [reflexivity|].
  intros y Hy. apply H. right. exact Hy.
Qed.

Lemma flat_map_perm_in {B} (f g : string -> list B) (l : list string) :
  (forall x, In x l -> Permutation (f x) (g x)) ->
  Permutation (flat_map f l) (flat_map g l).
Proof.
  induction l as [|x l IH]; intros H; [constructor|].
  cbn [flat_map]. apply Permutation_app.
  - apply H. left. reflexivity.
  - apply IH. intros y Hy. apply H. right. exact Hy.
Qed.

Variable key : A -> string.

Lemma filter_key_after_drop (k k' : string) (l : list A) :
  k' <> k ->
  filter (fun x => String.eqb (key x) k')
    (filter (fun x => negb (String.eqb (key x) k)) l)
  = filter (fun x => String.eqb (key x) k') l.
Proof.
  intros Hne. induction l as [|x l IH]; [reflexivity|].
  cbn [filter]. destruct (String.eqb_spec (key x) k) as [E|E]; cbn [negb].
  - rewrite IH.
    destruct (String.eqb_spec (key x) k'); [congruence | reflexivity].
  - cbn [filter]. rewrite IH. reflexivity.
Qed.

(** Grouping a list by key, over keys without repetition that cover the
    list, rearranges the list. *)
Lemma group_perm (ks : list string) : forall l : list A,
  NoDup ks -> (forall x, In x l -> In (key x) ks) ->
  Permutation (flat_map (fun k => filter (fun x => String.eqb (key x) k) l) ks)
    l.
Proof.
  induction ks as [|k ks IH]; intros l Hnd Hcov.
  - destruct l as [|x l]; [constructor|].
    exfalso. apply (Hcov x). left. reflexivity.
  - inversion Hnd as [|? ? Hnot Hnd']; subst. cbn [flat_map].
    rewrite (flat_map_ext_in _
               (fun k' =>
                  filter (fun x => String.eqb (key x) k')
                    (filter (fun x => negb (String.eqb (key x) k)) l))).
    + rewrite IH; [apply filter_split_perm | exact Hnd' |].
      intros x Hx. apply filter_In in Hx. destruct Hx as [Hx Hk].
      destruct (Hcov x Hx) as [E|Hin]; [|exact Hin].
      rewrite E, String.eqb_refl in Hk. discriminate.
    + intros k' Hk'. symmetry. apply filter_key_after_drop.
      intros E. subst. contradiction.
Qed.

End Grouping.

Lemma filter_named_all (ks : list string) :
  ~ In "" ks -> filter named ks = ks.
Proof.
  intros H. apply forallb_filter_id, forallb_forall. intros k Hk.
  unfold named. destruct (String.eqb_spec k ""); [subst; contradiction|].
  reflexivity.
Qed.

(** Taking the key [""] first, then the others in order. *)
Lemma plain_first_perm {A} (g : string -> list A) (ks : list string) :
  NoDup ks -> (~ In "" ks -> g "" = []) ->
  Permutation (g "" ++ flat_map g (filter named ks))%list (flat_map g ks).
Proof.
  induction 1 as [|u ks Hnot Hnd IH]; intros Hempty.
  - cbn [filter flat_map]. rewrite Hempty by (intros []). constructor.
  - cbn [filter flat_map]. unfold named at 1.
    destruct (String.eqb_spec u "") as [->|Hne]; cbn [negb].
    + rewrite (filter_named_all _ Hnot). reflexivity.
    + cbn [flat_map]. rewrite Permutation_app_swap_app.
      apply Permutation_app_head, IH.
      intros H. apply Hempty. intros [E|Hin]; [congruence | contradiction].
Qed.

Lemma at_place_filter (cs : list call) (s u : string) :
  filter (at_place s u) cs
  = filter (fun k => String.eqb (subsection k) u) (filter (in_section s) cs).
Proof.
  induction cs as [|k cs IH]; [reflexivity|].
  cbn [filter]. unfold at_place at 1, in_section at 1.
  destruct (String.eqb (section k) s); cbn [andb filter]; rewrite IH;
    reflexivity.
Qed.

(** The calls of one section, in the order of emission, are the calls
    made for that section. *)
Lemma section_calls_perm (cs : list call) (s : string) :
  Permutation (section_calls cs s) (filter (in_section s) cs).
Proof.
  unfold section_calls.
  rewrite (plain_first_perm (fun u => filter (at_place s u) cs)).
  - rewrite (flat_map_ext_in _
               (fun u => filter (fun k => String.eqb (subsection k) u)
                           (filter (in_section s) cs)))
      by (intros u _; apply at_place_filter).
    apply group_perm; [apply first_seen_NoDup|].
    intros k Hk. apply filter_In in Hk. destruct Hk as [Hk Hs].
    apply String.eqb_eq in Hs. subst s. apply subsection_seen, Hk.
  - apply first_seen_NoDup.
  - apply no_call_at_unseen_subsection.
Qed.

Lemma in_section_filter_ordinary (cs : list call) (s : string) :
  not_standard s = true ->
  filter (in_section s) cs
  = filter (fun k => String.eqb (section k) s) (filter ordinary cs).
Proof.
  intros Hs. induction cs as [|k cs IH]; [reflexivity|].
  cbn [filter]. unfold in_section at 1, ordinary at 1.
  destruct (String.eqb_spec (section k) s) as [E|E].
  - rewrite E, Hs. cbn [filter]. rewrite E, String.eqb_refl, IH. reflexivity.
  - destruct (not_standard (section k)); cbn [filter]; rewrite IH;
      [|reflexivity].
    destruct (String.eqb_spec (section k) s); [contradiction | reflexivity].
Qed.

(** The calls of the ordinary sections, in the order of emission, are the
    calls made for ordinary sections. *)
Lemma ordinary_calls_perm (cs : list call) :
  Permutation
    (flat_map (section_calls cs) (filter not_standard (sections_added cs)))
    (filter ordinary cs).
Proof.
  rewrite (flat_map_perm_in _
             (fun s => filter (fun k => String.eqb (section k) s)
                         (filter ordinary cs))).
  - apply group_perm; [apply NoDup_filter, first_seen_NoDup|].
    intros k Hk. apply filter_In in Hk. destruct Hk as [Hk Ho].
    apply filter_In. split; [apply section_seen, Hk | exact Ho].
  - intros s Hs. apply filter_In in Hs. destruct Hs as [_ Hs].
    rewrite <- (in_section_filter_ordinary _ _ Hs).
    apply section_calls_perm.
Qed.

(** The calls whose lines are emitted: plain preamble lines, everything in
    ordinary sections, plain endings lines. *)
Lemma emitted_three_ways (cs : list call) :
  Permutation (filter emitted cs)
    (filter (at_place "preamble" "") cs ++ filter ordinary cs
     ++ filter (at_place "endings" "") cs)%list.
Proof.
  induction cs as [|k cs IH]; [constructor|].
  assert (He : emitted k
               = negb (String.eqb (section k) "preamble"
                       || (String.eqb (section k) "endings" || false))
                 || String.eqb (subsection k) "") by reflexivity.
  assert (Ho : ordinary k
               = negb (String.eqb (section k) "preamble"
                       || (String.eqb (section k) "endings" || false)))
    by reflexivity.
  assert (Hp : at_place "preamble" "" k
               = String.eqb (section k) "preamble"
                 && String.eqb (subsection k) "") by reflexivity.
  assert (Hn : at_place "endings" "" k
               = String.eqb (section k) "endings"
                 && String.eqb (subsection k) "") by reflexivity.
  cbn [filter]. rewrite He, Ho, Hp, Hn. clear He Ho Hp Hn.
  destruct (String.eqb_spec (section k) "preamble") as [E1|E1];
    destruct (String.eqb_spec (section k) "endings") as [E2|E2];
    try (exfalso; congruence);
    destruct (String.eqb (subsection k) ""); cbn [orb andb negb app];
    try exact IH.
  - constructor. exact IH.
  - rewrite IH, !app_assoc. apply Permutation_middle.
  - rewrite IH. apply Permutation_middle.
  - rewrite IH. apply Permutation_middle.
Qed.

Lemma expected_calls_perm (cs : list call) :
  Permutation (expected_calls cs) (filter emitted cs).
Proof.
  unfold expected_calls. rewrite emitted_three_ways, ordinary_calls_perm.
  reflexivity.
Qed.

Lemma map_flat_map_lines {B C} (f : B -> C) (g : string -> list B)
    (l : list string) :
  map f (flat_map g l) = flat_map (fun x => map f (g x)) l.
Proof.
  induction l as [|x l IH]; [reflexivity|].
  cbn [flat_map]. rewrite map_app, IH. reflexivity.
Qed.

Lemma expected_lines_calls (cs : list call) :
  expected_lines cs = map line (expected_calls cs).
Proof.
  unfold expected_lines, expected_calls, lines_added.
  rewrite !map_app, map_flat_map_lines. f_equal. f_equal.
  apply flat_map_ext. intros s.
  unfold section_lines, section_calls, lines_added.
  rewrite map_app, map_flat_map_lines. reflexivity.
Qed.

(** The expected lines are the lines of the emitted calls, each as often
    as it was added. *)
Lemma expected_lines_perm (cs : list call) :
  Permutation (expected_lines cs) (map line (filter emitted cs)).
Proof.
  rewrite expected_lines_calls. apply Permutation_map, expected_calls_perm.
Qed.

End CallCount.

(* ------------------------------------------------------------------ *)
(** ** add_line calls followed by emit_doc *)

Module AddLinesClaim.
Import Dict Tex DictFacts AddLineFacts PrepareFacts Calls ContentOf.
Import EmitFacts EmitOutcome EmitCalls CallCount Examples.

Lemma ready_concrete_content (d : TexDoc) :
  cls d = ConcreteTexDoc -> content (ready d) = content d.
Proof.
  intros Hc. unfold ready, prepared_state, prepare_doc.
  destruct (prepared d); [reflexivity|]. rewrite Hc. reflexivity.
Qed.

Lemma content_after_calls (calls : list call) (d : TexDoc) :
  content d = [] -> content (fst (add_lines calls d)) = content_of calls.
Proof.
  intros Hd. rewrite add_lines_eq. cbn [fst].
  replace (content (set_content (add_lines_content calls (content d)) d))
    with (add_lines_content calls (content d)) by reflexivity.
  rewrite Hd. apply add_lines_content_of.
Qed.

Lemma cls_after_calls (calls : list call) (d : TexDoc) :
  cls (fst (add_lines calls d)) = cls d.
Proof. rewrite add_lines_eq. reflexivity. Qed.

(** C1, as the code has it.  On a new [ConcreteTexDoc], after any sequence
    of [add_line] calls that leaves plain lines (no subsection) in both
    "preamble" and "endings", [emit_doc()] returns a text and leaves the
    content as it was.  The lines in that text are: the plain lines of
    "preamble"; then, for each other section in order of first use, its
    plain lines followed by the lines of each named subsection in order of
    first use; then the plain lines of "endings"; at each place in the
    order of the calls.  Every line added to an ordinary section, or
    without subsection to a standard section, appears exactly as often as
    it was added, and no line appears that was not added. *)
Theorem add_lines_then_emit (calls : list call) (d : TexDoc) :
  cls d = ConcreteTexDoc -> content d = [] ->
  let d' := fst (add_lines calls d) in
  has_plain_lines "preamble" (content d') = true ->
  has_plain_lines "endings" (content d') = true ->
  exists ps,
    snd (emit_doc [] d') = inr (render_all ps)
    /\ content (fst (emit_doc [] d')) = content d'
    /\ emit_pieces (content d') (keys (content d')) = inr ps
    /\ lines_of ps = expected_lines calls
    /\ Permutation (lines_of ps) (map line (filter emitted calls))
    /\ (forall l, In l (lines_of ps) -> In l (map line calls)).
Proof.
  intros Hcls Hempty d' Hpre Hend.
  assert (Hc : content d' = content_of calls)
    by (apply content_after_calls, Hempty).
  assert (Hcls' : cls d' = ConcreteTexDoc)
    by (unfold d'; rewrite cls_after_calls; exact Hcls).
  rewrite Hc in Hpre, Hend.
  destruct (emit_pieces_content_of calls Hpre Hend) as [ps [Hps Hl]].
  exists ps.
  rewrite (emit_doc_accepted [] d' eq_refl). cbn [fst snd order_of].
  rewrite (ready_concrete_content d' Hcls'), Hc, emit_text_pieces, Hps.
  cbn [rbind].
  split; [reflexivity|]. split; [reflexivity|]. split; [reflexivity|].
  split; [exact Hl|].
  assert (Hperm : Permutation (lines_of ps) (map line (filter emitted calls)))
    by (rewrite Hl; apply expected_lines_perm).
  split; [exact Hperm|].
  intros l Hin. rewrite Hperm in Hin.
  apply in_map_iff in Hin. destruct Hin as [k [<- Hk]].
  apply in_map. apply filter_In in Hk. tauto.
Qed.

Lemma add_lines_then_emit_witness :
  exists ps,
    snd (emit_doc [] (after late_preamble (fresh ConcreteTexDoc)))
    = inr (render_all ps)
    /\ lines_of ps = ["p"; "Hello"; "Again"; "Hello"; "World"; "Bye"; "e"].
Proof.
  destruct (add_lines_then_emit late_preamble (fresh ConcreteTexDoc)
              eq_refl eq_refl)
    as [ps [H1 [_ [_ [H4 _]]]]].
  - vm_compute. reflexivity.
  - vm_compute. reflexivity.
  - exists ps. split; [exact H1|].
    rewrite H4. vm_compute. reflexivity.
Defined.

(** C1 as stated fails: the content holds the "preamble" and "endings"
    sections, and a line added to a named subsection of the preamble is
    not written. *)
Lemma preamble_subsection_line_lost :
  has_key "preamble" (content (after preamble_notes (fresh ConcreteTexDoc)))
  = true
  /\ has_key "endings" (content (after preamble_notes (fresh ConcreteTexDoc)))
     = true
  /\ emit_pieces (content (after preamble_notes (fresh ConcreteTexDoc)))
       (keys (content (after preamble_notes (fresh ConcreteTexDoc))))
     = inr [Line "p"; Line "e"]
  /\ snd (emit_doc [] (after preamble_notes (fresh ConcreteTexDoc)))
     = inr ("p" ++ Str.nl ++ "e" ++ Str.nl)
  /\ count_occ string_dec (map line preamble_notes) "x" = 1
  /\ count_occ string_dec (lines_of [Line "p"; Line "e"]) "x" = 0.
Proof. repeat split; vm_compute; reflexivity. Qed.

End AddLinesClaim.

(* ------------------------------------------------------------------ *)
(** ** More on add_line *)

Module AddLineMore.
Import Dict Tex DictFacts AddLineFacts PrepareFacts Calls ContentOf Shape.
Import Examples.

Lemma has_key_existsb {V} (k : string) (d : dict V) :
  has_key k d = existsb (String.eqb k) (keys d).
Proof.
  induction d as [|[k' v] d IH]; [reflexivity|].
  cbn [has_key keys map existsb fst] in *.
  rewrite IH, (String.eqb_sym k' k). reflexivity.
Qed.

Lemma distinct_snoc (l : list string) (x : string) :
  distinct l = true -> existsb (String.eqb x) l = false ->
  distinct (l ++ [x]) = true.
Proof.
  induction l as [|y l IH]; [reflexivity|].
  cbn [distinct existsb app]. intros Hd Hx.
  apply andb_prop in Hd. destruct Hd as [Hy Hd].
  apply orb_false_iff in Hx. destruct Hx as [Hxy Hx].
  rewrite (IH Hd Hx), existsb_app. cbn [existsb].
  rewrite (String.eqb_sym y x), Hxy, orb_false_r, Hy. reflexivity.
Qed.

Lemma distinct_keys_setdefault {V} (k : string) (e : V) (d : dict V) :
  distinct (keys d) = true ->
  distinct (keys (setdefault_empty k e d)) = true.
Proof.
  intros H. rewrite keys_setdefault_empty.
  destruct (has_key k d) eqn:E; [exact H|].
  apply distinct_snoc; [exact H|]. rewrite <- has_key_existsb. exact E.
Qed.

Lemma distinct_keys_subs_after (line u : string) (subs : subsections) :
  distinct (keys subs) = true ->
  distinct (keys (subs_after line u subs)) = true.
Proof.
  intros H. unfold subs_after. rewrite keys_modify.
  apply distinct_keys_setdefault, H.
Qed.

Lemma forallb_modify {V} (Q : V -> bool) (k : string) (f : V -> V)
    (d : dict V) :
  (forall v, Q v = true -> Q (f v) = true) ->
  forallb (fun e => Q (snd e)) d = true ->
  forallb (fun e => Q (snd e)) (modify k f d) = true.
Proof.
  intros Hf. induction d as [|[k' v] d IH]; [reflexivity|].
  cbn [forallb modify snd]. intros H. apply andb_prop in H.
  destruct H as [Hv Hd].
  destruct (String.eqb k' k); cbn [forallb snd].
  - rewrite (Hf v Hv), Hd. reflexivity.
  - rewrite Hv, (IH Hd). reflexivity.
Qed.

Lemma forallb_setdefault {V} (Q : V -> bool) (k : string) (e : V)
    (d : dict V) :
  Q e = true ->
  forallb (fun x => Q (snd x)) d = true ->
  forallb (fun x => Q (snd x)) (setdefault_empty k e d) = true.
Proof.
  intros He H. unfold setdefault_empty.
  destruct (has_key k d) eqn:E; cbn [negb]; [exact H|].
  rewrite (set_key_absent _ _ _ E), forallb_app, H. cbn [forallb snd].
  rewrite He. reflexivity.
Qed.

Lemma unique_keys_add_line_content (line s u : string) (c : content_t) :
  unique_keys c = true -> unique_keys (add_line_content line s u c) = true.
Proof.
  unfold unique_keys. intros H. apply andb_prop in H. destruct H as [Hk Hs].
  rewrite add_line_content_eq. apply andb_true_intro. split.
  - rewrite keys_modify. apply distinct_keys_setdefault, Hk.
  - apply (forallb_modify (fun subs => distinct (keys subs))).
    + intros subs. apply distinct_keys_subs_after.
    + apply (forallb_setdefault (fun subs => distinct (keys subs)));
        [reflexivity | exact Hs].
Qed.

(** What one more call does to each place. *)
Lemma lines_at_add_line (k : call) (c : content_t) (s u : string) :
  lines_at (add_line_content (line k) (section k) (subsection k) c) s u
  = (lines_at c s u ++ if at_place s u k then [line k] else [])%list.
Proof.
  destruct (at_place s u k) eqn:E.
  - apply at_place_iff in E. destruct E as [<- <-].
    apply lines_at_add_line_same.
  - rewrite app_nil_r. apply lines_at_add_line_other.
    intros H. injection H as -> ->.
    rewrite (proj2 (at_place_iff _ _ _) (conj eq_refl eq_refl)) in E.
    discriminate.
Qed.

Lemma lines_at_add_lines (cs : list call) : forall (c : content_t) s u,
  lines_at (add_lines_content cs c) s u
  = (lines_at c s u ++ lines_added cs s u)%list.
Proof.
  induction cs as [|k cs IH]; intros c s u.
  - unfold lines_added. cbn [filter map]. rewrite app_nil_r. reflexivity.
  - unfold add_lines_content in *. cbn [fold_left]. rewrite IH.
    rewrite lines_at_add_line, <- app_assoc. f_equal.
    unfold lines_added. cbn [filter].
    destruct (at_place s u k); reflexivity.
Qed.

Lemma content_add_lines (cs : list call) (d : TexDoc) :
  content (fst (add_lines cs d)) = add_lines_content cs (content d).
Proof. rewrite add_lines_eq. reflexivity. Qed.

(** X1.  After any sequence of [add_line] calls on any document, every
    place [content[s][u]] holds the lines it held before followed by the
    lines that the calls added to it, in the order of the calls; lines are
    never dropped, reordered or merged, and a line added twice is there
    twice. *)
Theorem add_lines_extend_each_place (calls : list call) (d : TexDoc)
    (s u : string) :
  lines_at (content (fst (add_lines calls d))) s u
  = (lines_at (content d) s u ++ lines_added calls s u)%list.
Proof. rewrite content_add_lines. apply lines_at_add_lines. Qed.

(** X2.  [add_line] keeps the order of the sections and of the subsections:
    a section, or a subsection of the section, that exists stays where it
    is, a new one goes to the end; the subsections of every other section
    are untouched. *)
Theorem add_line_keeps_order (line s u : string) (d : TexDoc) :
  let c := content d in
  let c' := content (fst (add_line line s u d)) in
  keys c' = (if has_key s c then keys c else keys c ++ [s])%list
  /\ keys (or_empty (lookup s c'))
     = (if has_key u (or_empty (lookup s c))
        then keys (or_empty (lookup s c))
        else keys (or_empty (lookup s c)) ++ [u])%list
  /\ (forall s', s' <> s -> lookup s' c' = lookup s' c).
Proof.
  cbv zeta. unfold add_line, update. cbn [fst].
  replace (content (set_content (add_line_content line s u (content d)) d))
    with (add_line_content line s u (content d)) by reflexivity.
  split; [apply keys_add_line_content|]. split.
  - rewrite lookup_add_line_content_same. cbn [or_empty].
    apply keys_subs_after.
  - intros s' Hne. apply lookup_add_line_content_other, Hne.
Qed.

(** X3.  [add_line] keeps the content a dictionary of dictionaries: when
    no section name and no subsection name of a section occurs twice
    before the call, none does after it. *)
Theorem add_line_keeps_unique_keys (line s u : string) (d : TexDoc) :
  unique_keys (content d) = true ->
  unique_keys (content (fst (add_line line s u d))) = true.
Proof.
  intros H. unfold add_line, update. cbn [fst].
  replace (content (set_content (add_line_content line s u (content d)) d))
    with (add_line_content line s u (content d)) by reflexivity.
  apply unique_keys_add_line_content, H.
Qed.

Lemma add_line_keeps_unique_keys_witness :
  unique_keys (content (after hello_calls (fresh ConcreteTexDoc))) = true
  /\ unique_keys
       (content
          (fst (add_line "More" "Intro" "Background"
                  (after hello_calls (fresh ConcreteTexDoc))))) = true.
Proof.
  split; [vm_compute; reflexivity|].
  apply (add_line_keeps_unique_keys "More" "Intro" "Background"
           (after hello_calls (fresh ConcreteTexDoc))).
  vm_compute. reflexivity.
Defined.

(** X4.  On a document whose content is empty, after any sequence of
    [add_line] calls the sections are those the calls name, in the order
    in which they first name them, and the subsections of each section
    are those the calls name for it, in the order in which they first
    name them. *)
Theorem add_lines_first_use_order (calls : list call) (d : TexDoc) :
  content d = [] ->
  let c := content (fst (add_lines calls d)) in
  keys c = sections_added calls
  /\ (forall s, keys (or_empty (lookup s c)) = subsections_added calls s).
Proof.
  intros Hd c. subst c.
  rewrite content_add_lines, Hd, add_lines_content_of.
  unfold content_of. split; [apply keys_tabulate|].
  intros s. destruct (in_dec string_dec s (sections_added calls)) as [Hin|Hn].
  - rewrite (lookup_tabulate _ _ _ Hin). cbn [or_empty].
    apply keys_tabulate.
  - rewrite lookup_absent.
    + rewrite (subsections_added_unseen _ _ Hn). reflexivity.
    + apply has_key_false_In. rewrite keys_tabulate. exact Hn.
Qed.

Lemma add_lines_first_use_order_witness :
  keys (content (after late_preamble (fresh ConcreteTexDoc)))
  = ["Intro"; "preamble"; "endings"; "Outro"]
  /\ keys (or_empty
             (lookup "Intro"
                (content (after late_preamble (fresh ConcreteTexDoc)))))
     = [""; "Background"].
Proof.
  destruct (add_lines_first_use_order late_preamble (fresh ConcreteTexDoc)
              eq_refl) as [H1 H2].
  split.
  - unfold after. rewrite H1. vm_compute. reflexivity.
  - unfold after. rewrite H2. vm_compute. reflexivity.
Defined.

End AddLineMore.

(* ------------------------------------------------------------------ *)
(** ** More on prepare_doc and emit_doc *)

Module EmitMore.
Import Dict Tex DictFacts AddLineFacts PrepareFacts Calls ContentOf.
Import StrFacts EmitFacts EmitOutcome AddLineMore Boilerplate Examples.

Lemma boilerplate_preamble (d : TexDoc) :
  lines_added (boilerplate d) "preamble" "" = preamble_boilerplate d.
Proof.
  destruct d as [k c p n b t pr toc]. destruct toc; reflexivity.
Qed.

Lemma boilerplate_endings (d : TexDoc) :
  lines_added (boilerplate d) "endings" "" = endings_boilerplate.
Proof.
  destruct d as [k c p n b t pr toc]. destruct toc; reflexivity.
Qed.

Lemma boilerplate_places (d : TexDoc) :
  Forall (fun k => (section k, subsection k) = ("preamble", "")
                   \/ (section k, subsection k) = ("endings", ""))
    (boilerplate d).
Proof.
  unfold boilerplate. destruct (table_of_contents d);
    repeat (constructor; [cbn; auto|]); constructor.
Qed.

Lemma boilerplate_elsewhere (d : TexDoc) (s u : string) :
  (s, u) <> ("preamble", "") -> (s, u) <> ("endings", "") ->
  lines_added (boilerplate d) s u = [].
Proof.
  intros Hp He. unfold lines_added.
  rewrite filter_nil_of_none; [reflexivity|].
  intros k Hk. destruct (at_place s u k) eqn:E; [|reflexivity].
  apply at_place_iff in E. destruct E as [E1 E2].
  pose proof (boilerplate_places d) as Hall.
  rewrite Forall_forall in Hall. specialize (Hall k Hk).
  rewrite E1, E2 in Hall. destruct Hall; contradiction.
Qed.

Lemma prepare_doc_standard_content (d : TexDoc) :
  cls d = StandardTexDoc ->
  content (fst (prepare_doc d)) = add_lines_content (boilerplate d) (content d).
Proof.
  intros Hc. unfold prepare_doc. rewrite Hc, prepare_doc_standard_eq.
  reflexivity.
Qed.

Lemma prepare_doc_standard_lines (d : TexDoc) (s u : string) :
  cls d = StandardTexDoc ->
  lines_at (content (fst (prepare_doc d))) s u
  = (lines_at (content d) s u ++ lines_added (boilerplate d) s u)%list.
Proof.
  intros Hc. rewrite (prepare_doc_standard_content d Hc).
  apply lines_at_add_lines.
Qed.

(** X5.  [StandardTexDoc.prepare_doc] marks the document prepared and puts
    its boilerplate after whatever the two standard sections already hold:
    the plain lines of "preamble" are the old ones followed by the
    eighteen fixed lines (and the table of contents line when the flag is
    set), those of "endings" the old ones followed by the two closing
    lines; every other place is as before. *)
Theorem prepare_doc_standard_appends (d : TexDoc) :
  cls d = StandardTexDoc ->
  let d' := fst (prepare_doc d) in
  prepared d' = true
  /\ lines_at (content d') "preamble" ""
     = (lines_at (content d) "preamble" "" ++ preamble_boilerplate d)%list
  /\ lines_at (content d') "endings" ""
     = (lines_at (content d) "endings" "" ++ endings_boilerplate)%list
  /\ (forall s u,
        (s, u) <> ("preamble", "") -> (s, u) <> ("endings", "") ->
        lines_at (content d') s u = lines_at (content d) s u).
Proof.
  intros Hc d'. subst d'.
  split; [apply prepared_state_prepared|].
  split; [|split].
  - rewrite (prepare_doc_standard_lines d _ _ Hc), boilerplate_preamble.
    reflexivity.
  - rewrite (prepare_doc_standard_lines d _ _ Hc), boilerplate_endings.
    reflexivity.
  - intros s u Hp He.
    rewrite (prepare_doc_standard_lines d _ _ Hc),
      (boilerplate_elsewhere d s u Hp He).
    apply app_nil_r.
Qed.

Lemma prepare_doc_standard_appends_witness :
  lines_at (content (fst (prepare_doc
                            (after preamble_notes (fresh StandardTexDoc)))))
    "endings" ""
  = ["e"; "\printbibliography"; "\end{document}"].
Proof.
  destruct (prepare_doc_standard_appends
              (after preamble_notes (fresh StandardTexDoc)) eq_refl)
    as [_ [_ [H _]]].
  rewrite H. vm_compute. reflexivity.
Defined.

Lemma prepare_doc_keeps_identity (d : TexDoc) :
  cls (fst (prepare_doc d)) = cls d
  /\ preamble_boilerplate (fst (prepare_doc d)) = preamble_boilerplate d.
Proof.
  unfold prepare_doc. destruct (cls d) eqn:E.
  - split; [exact E | reflexivity].
  - rewrite prepare_doc_standard_eq. split; [exact E | reflexivity].
Qed.

(** X6.  [prepare_doc] has no guard of its own: called a second time on a
    [StandardTexDoc], it adds the preamble boilerplate a second time. *)
Theorem prepare_doc_standard_twice (d : TexDoc) :
  cls d = StandardTexDoc ->
  lines_at (content (fst (prepare_doc (fst (prepare_doc d)))))
    "preamble" ""
  = (lines_at (content d) "preamble" ""
     ++ preamble_boilerplate d ++ preamble_boilerplate d)%list.
Proof.
  intros Hc.
  destruct (prepare_doc_keeps_identity d) as [Hc1 Hb1].
  rewrite prepare_doc_standard_content by (rewrite Hc1; exact Hc).
  rewrite lines_at_add_lines, boilerplate_preamble, Hb1.
  rewrite (prepare_doc_standard_content d Hc).
  rewrite lines_at_add_lines, boilerplate_preamble, <- app_assoc.
  reflexivity.
Qed.

Lemma prepare_doc_standard_twice_witness :
  List.length
    (lines_at
       (content (fst (prepare_doc (fst (prepare_doc (fresh StandardTexDoc))))))
       "preamble" "") = 36.
Proof.
  rewrite (prepare_doc_standard_twice (fresh StandardTexDoc) eq_refl).
  vm_compute. reflexivity.
Defined.

(** *** Success of emit_doc *)

Lemma has_plain_lines_of_lines (c : content_t) (s : string) :
  lines_at c s "" <> [] -> has_plain_lines s c = true.
Proof.
  unfold lines_at, has_plain_lines.
  destruct (lookup s c) as [subs|]; cbn [or_empty].
  - destruct (lookup "" subs) as [ls|] eqn:E; cbn [or_empty].
    + intros _. apply (lookup_has_key _ _ _ E).
    + intros H. exfalso. apply H. reflexivity.
  - cbn [lookup or_empty]. intros H. exfalso. apply H. reflexivity.
Qed.

Lemma accepted_order_found (section_order : list string) (d : TexDoc) :
  order_rejected (content d) section_order = false ->
  Forall (fun s => In s (keys (content (ready d))))
    (filter not_standard (order_of section_order (ready d))).
Proof.
  intros Hok. apply Forall_forall. intros s Hs.
  apply filter_In in Hs. destruct Hs as [Hs Hn].
  destruct section_order as [|s0 l]; [exact Hs|].
  apply order_rejected_iff in Hok. destruct Hok as [E|Hp]; [discriminate E|].
  cbn [order_of] in Hs. rewrite Hp, <- ready_ordinary_keys in Hs.
  apply filter_In in Hs. tauto.
Qed.

(** [emit_doc] succeeds as soon as the plain lines of the two standard
    sections exist once the document is prepared. *)
Lemma emit_doc_succeeds (section_order : list string) (d : TexDoc) :
  order_rejected (content d) section_order = false ->
  has_plain_lines "preamble" (content (ready d)) = true ->
  has_plain_lines "endings" (content (ready d)) = true ->
  exists ps,
    emit_doc section_order d = (ready d, inr (render_all ps))
    /\ emit_pieces (content (ready d)) (order_of section_order (ready d))
       = inr ps.
Proof.
  intros Hok Hp He.
  destruct (emit_pieces_ok _ _ Hp He (accepted_order_found _ _ Hok))
    as [ps [Hps _]].
  exists ps. rewrite (emit_doc_accepted _ _ Hok), emit_text_pieces, Hps.
  auto.
Qed.

(** X7.  On a [StandardTexDoc] that is not yet prepared, [emit_doc] with
    an order that passes the check always returns a text: the preparation
    supplies the lines that [emit_doc] needs, whatever the content. *)
Theorem standard_emit_doc_returns (section_order : list string) (d : TexDoc) :
  cls d = StandardTexDoc -> prepared d = false ->
  order_rejected (content d) section_order = false ->
  exists text,
    emit_doc section_order d = (fst (prepare_doc d), inr text).
Proof.
  intros Hc Hu Hok.
  assert (Hr : ready d = fst (prepare_doc d))
    by (unfold ready, prepared_state; rewrite Hu; reflexivity).
  destruct (emit_doc_succeeds section_order d Hok) as [ps [H _]].
  - rewrite Hr. apply has_plain_lines_of_lines.
    rewrite (prepare_doc_standard_lines d _ _ Hc), boilerplate_preamble.
    intros E. apply app_eq_nil in E. destruct E as [_ E].
    unfold preamble_boilerplate in E. discriminate E.
  - rewrite Hr. apply has_plain_lines_of_lines.
    rewrite (prepare_doc_standard_lines d _ _ Hc), boilerplate_endings.
    intros E. apply app_eq_nil in E. destruct E as [_ E]. discriminate E.
  - exists (render_all ps). rewrite H, Hr. reflexivity.
Qed.

Lemma standard_emit_doc_returns_witness :
  exists text,
    emit_doc ["Results"; "Methods"] (after two_sections (fresh StandardTexDoc))
    = (fst (prepare_doc (after two_sections (fresh StandardTexDoc))),
       inr text).
Proof.
  apply (standard_emit_doc_returns ["Results"; "Methods"]
           (after two_sections (fresh StandardTexDoc)));
    vm_compute; reflexivity.
Defined.

(** *** What emit_doc leaves alone *)

Lemma lines_at_ready (d : TexDoc) (s u : string) :
  not_standard s = true ->
  lines_at (content (ready d)) s u = lines_at (content d) s u.
Proof.
  intros Hs. unfold ready. destruct (prepared d); [reflexivity|].
  unfold prepared_state. destruct (cls d) eqn:Hc.
  - unfold prepare_doc. rewrite Hc. reflexivity.
  - rewrite (prepare_doc_standard_content d Hc), lines_at_add_lines.
    rewrite boilerplate_elsewhere; [apply app_nil_r | |];
      intros E; injection E as -> _; discriminate Hs.
Qed.

Lemma ready_of_prepared (d : TexDoc) : prepared d = true -> ready d = d.
Proof. intros H. unfold ready. rewrite H. reflexivity. Qed.

(** X8.  [emit_doc] never touches what the user put in ordinary sections:
    whatever the order and whether it returns or raises, every place of
    every section other than "preamble" and "endings" holds the same lines
    afterwards, and the ordinary sections are the same in the same order;
    on a document that is already prepared nothing at all changes. *)
Theorem emit_doc_keeps_user_content (section_order : list string)
    (d : TexDoc) :
  (forall s u, not_standard s = true ->
     lines_at (content (fst (emit_doc section_order d))) s u
     = lines_at (content d) s u)
  /\ filter not_standard (keys (content (fst (emit_doc section_order d))))
     = filter not_standard (keys (content d))
  /\ (prepared d = true -> fst (emit_doc section_order d) = d).
Proof.
  destruct (order_rejected (content d) section_order) eqn:E.
  - rewrite (emit_doc_rejected _ _ E). cbn [fst]. auto.
  - rewrite (emit_doc_accepted _ _ E). cbn [fst].
    split; [intros s u Hs; apply lines_at_ready, Hs|].
    split; [apply ready_ordinary_keys | apply ready_of_prepared].
Qed.

(** *** The exceptions of emit_doc *)

(** X9.  With the default (empty) order [emit_doc] never raises the value
    error, and the only lookups that can fail are those of "preamble", of
    "endings" and of their plain lines: it returns a text, or raises a key
    error for "preamble", for "endings" or for the empty subsection
    name. *)
Theorem emit_doc_default_order_outcomes (d : TexDoc) :
  (exists text, snd (emit_doc [] d) = inr text)
  \/ snd (emit_doc [] d) = inl (KeyError "preamble")
  \/ snd (emit_doc [] d) = inl (KeyError "endings")
  \/ snd (emit_doc [] d) = inl (KeyError "").
Proof.
  rewrite (emit_doc_accepted [] d eq_refl). cbn [snd].
  rewrite emit_text_pieces. unfold emit_pieces.
  destruct (getitem "preamble" (content (ready d))) as [e|pre] eqn:E1;
    cbn [rbind].
  { rewrite (getitem_error _ _ _ E1). auto. }
  destruct (getitem "" pre) as [e|ls1] eqn:E2; cbn [rbind].
  { rewrite (getitem_error _ _ _ E2). auto. }
  destruct (section_pieces_ok (content (ready d)) _
              (accepted_order_found [] d eq_refl)) as [ps [Hps _]].
  rewrite Hps. cbn [rbind].
  destruct (getitem "endings" (content (ready d))) as [e|en] eqn:E3;
    cbn [rbind].
  { rewrite (getitem_error _ _ _ E3). auto. }
  destruct (getitem "" en) as [e|ls2] eqn:E4; cbn [rbind].
  { rewrite (getitem_error _ _ _ E4). auto. }
  left. eexists. reflexivity.
Qed.

(** X11.  A section order that names "preamble" or "endings" is always
    refused: [emit_doc] raises the value error and leaves the object as it
    is, whatever the content. *)
Theorem emit_doc_refuses_standard_names (section_order : list string)
    (s : string) (d : TexDoc) :
  In s section_order -> is_standard s = true ->
  emit_doc section_order d = (d, inl (ValueError bad_order_msg)).
Proof.
  intros Hin Hs. apply emit_doc_rejected.
  destruct (order_rejected (content d) section_order) eqn:E; [reflexivity|].
  apply order_rejected_iff in E. destruct E as [->|Hp]; [destruct Hin|].
  rewrite Hp in Hin. apply filter_In in Hin. destruct Hin as [_ Hn].
  unfold not_standard in Hn. rewrite Hs in Hn. discriminate Hn.
Qed.

Lemma emit_doc_refuses_standard_names_witness :
  emit_doc ["preamble"; "Methods"; "Results"; "endings"]
    (after two_sections (fresh StandardTexDoc))
  = (after two_sections (fresh StandardTexDoc),
     inl (ValueError bad_order_msg)).
Proof.
  apply (emit_doc_refuses_standard_names _ "preamble").
  - left. reflexivity.
  - reflexivity.
Defined.

End EmitMore.

(* ------------------------------------------------------------------ *)
(** ** The shape of the emitted text *)

Module EmitShape.
Import Dict Tex DictFacts AddLineFacts PrepareFacts Calls.
Import StrFacts EmitFacts EmitOutcome Examples.

Lemma subsection_pieces_no_sections (subs : subsections) (ks : list string) :
  forall ps, subsection_pieces subs ks = inr ps -> sections_of ps = [].
Proof.
  induction ks as [|u ks IH]; intros ps; cbn [subsection_pieces].
  - intros H. injection H as <-. reflexivity.
  - destruct (getitem u subs) as [e|ls]; cbn [rbind]; [discriminate|].
    destruct (subsection_pieces subs ks) as [e|ps']; cbn [rbind];
      [discriminate|].
    intros H. injection H as <-. cbn [sections_of].
    rewrite sections_of_app, sections_of_lines. apply IH. reflexivity.
Qed.

Lemma section_pieces_sections (c : content_t) (order : list string) :
  forall ps, section_pieces c order = inr ps -> sections_of ps = order.
Proof.
  induction order as [|s order IH]; intros ps; cbn [section_pieces].
  - intros H. injection H as <-. reflexivity.
  - destruct (getitem s c) as [e|subs]; cbn [rbind]; [discriminate|].
    destruct (if has_key "" subs then getitem "" subs else inr [])
      as [e|ls]; cbn [rbind]; [discriminate|].
    destruct (subsection_pieces subs (filter named (keys subs)))
      as [e|ps1] eqn:E1; cbn [rbind]; [discriminate|].
    destruct (section_pieces c order) as [e|ps2]; cbn [rbind];
      [discriminate|].
    intros H. injection H as <-. cbn [sections_of].
    rewrite !sections_of_app, sections_of_lines.
    rewrite (subsection_pieces_no_sections _ _ _ E1), (IH ps2 eq_refl).
    reflexivity.
Qed.

Lemma getitem_lines_at (c : content_t) (s : string) (subs : subsections)
    (ls : list string) :
  getitem s c = inr subs -> getitem "" subs = inr ls -> lines_at c s "" = ls.
Proof.
  unfold getitem, lines_at.
  destruct (lookup s c) as [subs'|]; [|discriminate].
  intros H. injection H as ->. cbn [or_empty].
  destruct (lookup "" subs) as [ls'|]; [|discriminate].
  intros H. injection H as ->. reflexivity.
Qed.

(** X10.  Whenever [emit_doc] returns a text, the text is the rendering of
    these pieces and no others: the plain lines of "preamble", then the
    pieces that the loop over the sections makes for the order without
    "preamble" and "endings", then the plain lines of "endings".  The
    section headers that [emit_doc] itself writes (the header pieces, as
    opposed to text inside an added line) are those of that order, in that
    order, none of them for a standard section. *)
Theorem emit_doc_text_shape (section_order : list string) (d d' : TexDoc)
    (text : string) :
  emit_doc section_order d = (d', inr text) ->
  exists ps body,
    emit_pieces (content d') (order_of section_order d') = inr ps
    /\ section_pieces (content d')
         (filter not_standard (order_of section_order d')) = inr body
    /\ text = render_all ps
    /\ ps = (map Line (lines_at (content d') "preamble" "") ++ body
             ++ map Line (lines_at (content d') "endings" ""))%list
    /\ sections_of ps = filter not_standard (order_of section_order d')
    /\ Forall (fun s => is_standard s = false) (sections_of ps).
Proof.
  intros H.
  destruct (order_rejected (content d) section_order) eqn:E.
  { rewrite (emit_doc_rejected _ _ E) in H. discriminate H. }
  rewrite (emit_doc_accepted _ _ E), emit_text_pieces in H.
  injection H as Hd Ht. subst d'.
  destruct (emit_pieces (content (ready d))
              (order_of section_order (ready d))) as [e|ps] eqn:Eps;
    cbn [rbind] in Ht; [discriminate|].
  injection Ht as <-. unfold emit_pieces in Eps.
  destruct (getitem "preamble" (content (ready d))) as [e|pre] eqn:E1;
    cbn [rbind] in Eps; [discriminate|].
  destruct (getitem "" pre) as [e|ls1] eqn:E2; cbn [rbind] in Eps;
    [discriminate|].
  destruct (section_pieces (content (ready d))
              (filter not_standard (order_of section_order (ready d))))
    as [e|body] eqn:E3; cbn [rbind] in Eps; [discriminate|].
  destruct (getitem "endings" (content (ready d))) as [e|en] eqn:E4;
    cbn [rbind] in Eps; [discriminate|].
  destruct (getitem "" en) as [e|ls2] eqn:E5; cbn [rbind] in Eps;
    [discriminate|].
  injection Eps as <-. eexists. exists body.
  rewrite (getitem_lines_at _ _ _ _ E1 E2), (getitem_lines_at _ _ _ _ E4 E5).
  pose proof (section_pieces_sections _ _ _ E3) as Hs.
  assert (Hsec : sections_of (map Line ls1 ++ body ++ map Line ls2)%list
                 = filter not_standard (order_of section_order (ready d))).
  { rewrite !sections_of_app, !sections_of_lines, Hs. apply app_nil_r. }
  split; [reflexivity|]. split; [reflexivity|]. split; [reflexivity|].
  split; [reflexivity|]. split; [exact Hsec|].
  rewrite Hsec. apply Forall_forall. intros s Hin.
  apply filter_In in Hin. destruct Hin as [_ Hn].
  unfold not_standard in Hn. destruct (is_standard s); [discriminate Hn|].
  reflexivity.
Qed.

Lemma emit_doc_text_shape_witness :
  exists ps,
    sections_of ps = ["Intro"; "Outro"]
    /\ snd (emit_doc [] (after late_preamble (fresh ConcreteTexDoc)))
       = inr (render_all ps).
Proof.
  destruct (emit_doc [] (after late_preamble (fresh ConcreteTexDoc)))
    as [d' [e|text]] eqn:E; [vm_compute in E; discriminate E|].
  destruct (emit_doc_text_shape _ _ _ _ E) as [ps [body [_ [_ [H1 [_ [H2 _]]]]]]].
  assert (Hd : d' = set_prepared true (after late_preamble
                                         (fresh ConcreteTexDoc))).
  { apply (f_equal fst) in E. cbn [fst] in E. rewrite <- E.
    vm_compute. reflexivity. }
  exists ps. subst d'. split.
  - rewrite H2. vm_compute. reflexivity.
  - cbn [snd]. rewrite H1. reflexivity.
Defined.

End EmitShape.

(* ------------------------------------------------------------------ *)
(** ** Labels *)

Module LabelFacts.
Import Str StrFacts ReplaceFacts Tex.

Lemma space_not_empty : " " <> "".
Proof. discriminate. Qed.

Lemma prefix_space (a : ascii) (s : string) :
  prefix " " (String a s) = Ascii.eqb a " ".
Proof.
  cbn [prefix]. destruct (ascii_dec " " a) as [<-|Hne].
  - destruct s; reflexivity.
  - symmetry. apply Ascii.eqb_neq. congruence.
Qed.

Lemma replace_space_cons (a : ascii) (s : string) :
  replace " " "_" (String a s)
  = if Ascii.eqb a " " then String "_" (replace " " "_" s)
    else String a (replace " " "_" s).
Proof.
  destruct (Ascii.eqb a " ") eqn:E.
  - apply Ascii.eqb_eq in E. subst a.
    apply (replace_match " " "_" space_not_empty s).
  - apply replace_step. rewrite prefix_space. exact E.
Qed.

Lemma replace_space_none (s : string) :
  occurs " " (replace " " "_" s) = false.
Proof.
  induction s as [|a s IH]; [reflexivity|].
  rewrite replace_space_cons.
  destruct (Ascii.eqb a " ") eqn:E; cbn [occurs]; rewrite prefix_space, IH.
  - reflexivity.
  - rewrite E. reflexivity.
Qed.

(** X12.  The label derived from a section or subsection name contains no
    space.  Spaces are replaced after the lower-casing, so this holds of
    the replacement applied to any text, whatever the lower-casing made of
    the name. *)
Theorem label_has_no_space :
  (forall lowered : string, occurs " " (replace " " "_" lowered) = false)
  /\ (forall name : string, occurs " " (label_of name) = false).
Proof.
  split.
  - apply replace_space_none.
  - intros name. unfold label_of. apply replace_space_none.
Qed.

End LabelFacts.

(* ------------------------------------------------------------------ *)
(** ** More on tables *)

Module TableMore.
Import Str StrFacts ReplaceFacts Dict Tex DictFacts AddLineFacts.
Import Blocks BlockFacts Examples.

Section Tables.
Variable float : Type.
Variable round4_inv : nat -> float.
Variable fmul : float -> float -> float.
Variable fstr : float -> string.
Variable DataFrame : Type.
Variable shape1 : DataFrame -> nat.
Variable to_latex : DataFrame -> string -> string.

(** X13.  When the converter's text holds neither tabular tag, the
    long-table renderer embeds it unchanged between its opener and the
    caption. *)
Theorem get_tex_longtable_without_wrapper (table : DataFrame)
    (col_format_str caption_str label_str : string) :
  occurs begin_tabular (to_latex table col_format_str) = false ->
  occurs end_tabular (to_latex table col_format_str) = false ->
  get_tex_longtable DataFrame to_latex table col_format_str caption_str
    label_str
  = "\begin{longtable}" ++ Str.nl ++ to_latex table col_format_str
      ++ caption_str ++ label_str ++ "\end{longtable}".
Proof.
  intros Hb He. unfold get_tex_longtable.
  rewrite (replace_none begin_tabular "" _ Hb).
  rewrite (replace_none end_tabular "" _ He).
  rewrite !append_assoc. reflexivity.
Qed.

Lemma splits_of_length (n : nat) (col_splits : option (list float))
    (l : list float) :
  splits_of float round4_inv n col_splits = inr l -> List.length l = n.
Proof.
  unfold splits_of. destruct col_splits as [[|x l']|].
  - intros H. injection H as <-. apply repeat_length.
  - destruct (List.length (x :: l') =? n)%nat eqn:E; cbn [negb];
      [|discriminate].
    intros H. injection H as <-. apply Nat.eqb_eq, E.
  - intros H. injection H as <-. apply repeat_length.
Qed.

(** X14.  Whenever [include_table] returns normally, it has added exactly
    one element, the whole table block, at the end of
    [content[section][subsection]]; the block is built from exactly
    [columns + 1] splits, and every other place is as before. *)
Theorem include_table_adds_one_block (table : DataFrame)
    (name title section subsection : string)
    (col_splits : option (list float)) (table_width : float)
    (longtable : bool) (caption : string) (d : TexDoc) :
  let run := include_table float round4_inv fmul fstr DataFrame shape1
               to_latex table name title section subsection col_splits
               table_width longtable caption d in
  snd run = inr tt ->
  exists splits,
    List.length splits = shape1 table + 1
    /\ lines_at (content (fst run)) section subsection
       = (lines_at (content d) section subsection
          ++ [table_block float fmul fstr DataFrame to_latex table name
                title splits table_width longtable caption])%list
    /\ (forall s u, (s, u) <> (section, subsection) ->
          lines_at (content (fst run)) s u = lines_at (content d) s u).
Proof.
  intros run. subst run. rewrite include_table_eq.
  destruct (splits_of float round4_inv (shape1 table + 1) col_splits)
    as [e|splits] eqn:E; cbn [snd fst]; [discriminate|].
  intros _. exists splits.
  split; [apply (splits_of_length _ _ _ E)|].
  unfold add_line, update. cbn [fst].
  split.
  - apply lines_at_add_line_same.
  - intros s u Hne. apply lines_at_add_line_other, Hne.
Qed.

End Tables.

Lemma get_tex_longtable_without_wrapper_witness :
  get_tex_longtable sample_table (fun t _ => snd t) three_columns "lll"
    "\caption{c}" "\label{t}"
  = "\begin{longtable}" ++ Str.nl ++ snd three_columns
      ++ "\caption{c}" ++ "\label{t}" ++ "\end{longtable}".
Proof.
  apply (get_tex_longtable_without_wrapper sample_table (fun t _ => snd t));
    vm_compute; reflexivity.
Defined.

Lemma include_table_adds_one_block_witness :
  exists splits,
    List.length splits = 4
    /\ lines_at
         (content
            (fst (include_table sample_float sample_round4_inv sample_fmul
                    sample_fstr sample_table sample_shape1 sample_to_latex
                    three_columns "tab1" "Counts" "Results" "" None "14.0"
                    true "" (after hello_calls (fresh ConcreteTexDoc)))))
         "Results" ""
       = [table_block sample_float sample_fmul sample_fstr sample_table
            sample_to_latex three_columns "tab1" "Counts" splits "14.0"
            true ""].
Proof.
  destruct (include_table_adds_one_block sample_float sample_round4_inv
              sample_fmul sample_fstr sample_table sample_shape1
              sample_to_latex three_columns "tab1" "Counts" "Results" ""
              None "14.0" true "" (after hello_calls (fresh ConcreteTexDoc)))
    as [splits [H1 [H2 _]]]; [vm_compute; reflexivity|].
  exists splits. split; [exact H1|]. rewrite H2. reflexivity.
Defined.

End TableMore.

(* ------------------------------------------------------------------ *)
(** ** More on save_content and load_content *)

Module PersistMore.
Import Dict Tex DictFacts Persist PyYAML PersistFacts Calls Examples.
Import Paths StrFacts.

Section Codec.
Variable file : Type.
Variable yml_dump : content_t -> file.
Variable yml_load : file -> content_t.

(** X15.  The store loses nothing of its own: with a YAML library that
    gives back the mapping [c] it was given, [save_content] on a document
    holding [c] followed by [load_content] on any document with the same
    path and name leaves that document holding exactly [c], whatever it
    held before, and changes none of its other attributes. *)
Theorem save_then_load_exact (d d2 : TexDoc) (fs : filesystem file) :
  path d2 = path d -> doc_name d2 = doc_name d ->
  yml_load (yml_dump (content d)) = content d ->
  load_content file yml_load (save_content file yml_dump d fs) d2
  = (set_content (content d) d2, inr tt).
Proof.
  intros Hp Hn Hrt. rewrite (load_after_save _ _ _ _ _ _ Hp Hn), Hrt.
  reflexivity.
Qed.

(** X16.  [save_content] writes one file only: for a document in the same
    directory under another plain name (a name without "/"),
    [load_content] does after the save what it did before it, be it the
    same content or the same exception. *)
Theorem save_content_other_file (d d2 : TexDoc) (fs : filesystem file) :
  path d2 = path d ->
  plain_name (doc_name d) = true -> plain_name (doc_name d2) = true ->
  doc_name d2 <> doc_name d ->
  load_content file yml_load (save_content file yml_dump d fs) d2
  = load_content file yml_load fs d2.
Proof.
  intros Hp _ _ Hne. unfold load_content, save_content.
  rewrite lookup_set_key_other; [reflexivity|].
  unfold yml_path. rewrite Hp. intros E.
  apply append_cancel_l, append_cancel_l, append_cancel_r in E.
  contradiction.
Qed.

End Codec.

Lemma save_then_load_exact_witness :
  load_content content_t (fun c => c)
    (save_content content_t (fun c => c)
       (after results_first (fresh ConcreteTexDoc)) [])
    (after hello_calls (fresh StandardTexDoc))
  = (set_content (content (after results_first (fresh ConcreteTexDoc)))
       (after hello_calls (fresh StandardTexDoc)), inr tt).
Proof.
  apply (save_then_load_exact content_t (fun c => c) (fun c => c));
    reflexivity.
Defined.

Lemma save_content_other_file_witness :
  load_content document load
    (save_content document dump (after hello_calls (fresh ConcreteTexDoc)) [])
    (init ConcreteTexDoc "out" "appendix" "T" "refs" false)
  = (init ConcreteTexDoc "out" "appendix" "T" "refs" false,
     inl (FileNotFoundError "out/appendix.yml")).
Proof.
  rewrite (save_content_other_file document dump load);
    [vm_compute; reflexivity | reflexivity | vm_compute; reflexivity
    | vm_compute; reflexivity | vm_compute; discriminate].
Defined.

(** *** A second round trip *)

Section SortItems.
Context {V : Type}.

Lemma sort_items_ascending_id (d : dict V) :
  Sorted.ascending (keys d) -> sort_items d = d.
Proof.
  induction d as [|x d IH]; [reflexivity|].
  unfold keys. cbn [map]. intros H.
  inversion H as [|? ? Hlow Hasc]; subst.
  cbn [sort_items]. rewrite (IH Hasc).
  destruct d as [|y d]; [reflexivity|].
  cbn [insert_item]. cbn [map] in Hlow.
  inversion Hlow as [|? ? Hxy _]; subst. rewrite Hxy. reflexivity.
Qed.

Lemma sort_items_twice (d : dict V) : sort_items (sort_items d) = sort_items d.
Proof.
  apply sort_items_ascending_id. rewrite keys_sort_items.
  apply SortedFacts.sorted_ascending.
Qed.

Lemma insert_item_map_values {W} (g : V -> W) (x : string * V) (d : dict V) :
  map (fun '(k, v) => (k, g v)) (insert_item x d)
  = insert_item (fst x, g (snd x)) (map (fun '(k, v) => (k, g v)) d).
Proof.
  induction d as [|[k' v'] d IH]; destruct x as [k v]; [reflexivity|].
  cbn [insert_item map fst snd] in *.
  destruct (String.leb k k'); cbn [map]; [reflexivity|].
  rewrite IH. reflexivity.
Qed.

Lemma sort_items_map_values {W} (g : V -> W) (d : dict V) :
  map (fun '(k, v) => (k, g v)) (sort_items d)
  = sort_items (map (fun '(k, v) => (k, g v)) d).
Proof.
  induction d as [|[k v] d IH]; [reflexivity|].
  cbn [sort_items map]. rewrite insert_item_map_values, IH. reflexivity.
Qed.

End SortItems.

(** X17.  What [save_content] writes for a mapping that [load_content]
    returned is the file that was loaded: after one round trip a further
    one changes nothing, order of sections and subsections included. *)
Theorem second_round_trip_exact (c : content_t) :
  load (dump (load (dump c))) = load (dump c).
Proof.
  unfold load, dump.
  rewrite (sort_items_map_values (fun subs : subsections => sort_items subs)).
  rewrite sort_items_twice, map_map. f_equal.
  apply map_ext. intros [s subs]. rewrite sort_items_twice. reflexivity.
Qed.

End PersistMore.

(* ------------------------------------------------------------------ *)
(** ** write_doc *)

Module OutputFacts.
Import Dict Tex DictFacts PrepareFacts EmitFacts Output Calls Examples.
Import Paths StrFacts.

Lemma set_key_set_key {V} (k : string) (v w : V) (d : dict V) :
  set_key k v (set_key k w d) = set_key k v d.
Proof.
  induction d as [|[k' v'] d IH]; cbn [set_key].
  - rewrite String.eqb_refl. reflexivity.
  - destruct (String.eqb k' k) eqn:E; cbn [set_key]; rewrite E;
      [reflexivity | rewrite IH; reflexivity].
Qed.

Lemma tex_path_ready (d : TexDoc) : tex_path (ready d) = tex_path d.
Proof.
  unfold ready, prepared_state, prepare_doc, tex_path.
  destruct (prepared d); [reflexivity|].
  destruct (cls d); [reflexivity|].
  rewrite prepare_doc_standard_eq. reflexivity.
Qed.

Lemma tex_path_after_emit (section_order : list string) (d : TexDoc) :
  tex_path (fst (emit_doc section_order d)) = tex_path d.
Proof.
  destruct (order_rejected (content d) section_order) eqn:E.
  - rewrite (emit_doc_rejected _ _ E). reflexivity.
  - rewrite (emit_doc_accepted _ _ E). apply tex_path_ready.
Qed.

Lemma emit_doc_again (section_order : list string) (d : TexDoc) :
  emit_doc section_order (fst (emit_doc section_order d))
  = emit_doc section_order d.
Proof.
  destruct (order_rejected (content d) section_order) eqn:E.
  - rewrite (emit_doc_rejected _ _ E). cbn [fst].
    apply emit_doc_rejected, E.
  - rewrite (emit_doc_accepted _ _ E). cbn [fst].
    rewrite emit_doc_accepted by (rewrite order_rejected_ready; exact E).
    rewrite ready_ready. reflexivity.
Qed.

(** X18.  After [write_doc] the file of the document holds the text of
    [emit_doc] when [emit_doc] returns, and is empty when [emit_doc]
    raises, whatever it held before: the file is opened for writing before
    the text is built.  The exception is passed on, the object is as
    [emit_doc] leaves it, and the file of a document in the same directory
    under another plain name (a name without "/") does not change. *)
Theorem write_doc_file (order : list string) (d : TexDoc) (fs : text_files) :
  let run := write_doc order d fs in
  fst (fst run) = fst (emit_doc order d)
  /\ lookup (tex_path d) (snd (fst run))
     = Some (match snd (emit_doc order d) with
             | inr text => text
             | inl _ => ""
             end)
  /\ snd run = match snd (emit_doc order d) with
               | inr _ => inr tt
               | inl e => inl e
               end
  /\ (forall d2,
        path d2 = path d ->
        plain_name (doc_name d) = true -> plain_name (doc_name d2) = true ->
        doc_name d2 <> doc_name d ->
        lookup (tex_path d2) (snd (fst run)) = lookup (tex_path d2) fs).
Proof.
  cbv zeta. unfold write_doc.
  assert (Hother : forall d2, path d2 = path d ->
                     doc_name d2 <> doc_name d -> tex_path d2 <> tex_path d).
  { intros d2 Hp Hne E. unfold tex_path in E. rewrite Hp in E.
    apply append_cancel_l, append_cancel_l, append_cancel_r in E.
    contradiction. }
  destruct (emit_doc order d) as [d' [e|text]]; cbn [fst snd].
  - split; [reflexivity|]. split; [apply lookup_set_key_same|].
    split; [reflexivity|].
    intros d2 Hp _ _ Hne. apply lookup_set_key_other, Hother; assumption.
  - split; [reflexivity|]. split; [apply lookup_set_key_same|].
    split; [reflexivity|].
    intros d2 Hp _ _ Hne.
    rewrite !lookup_set_key_other by (apply Hother; assumption).
    reflexivity.
Qed.

(** X19.  Writing the document a second time with the same order changes
    neither the object nor any file, and ends the same way. *)
Theorem write_doc_twice (order : list string) (d : TexDoc) (fs : text_files) :
  write_doc order (fst (fst (write_doc order d fs)))
    (snd (fst (write_doc order d fs)))
  = write_doc order d fs.
Proof.
  unfold write_doc at 2 3 4.
  pose proof (emit_doc_again order d) as Hagain.
  pose proof (tex_path_after_emit order d) as Hpath.
  destruct (emit_doc order d) as [d' [e|text]]; cbn [fst snd] in *;
    unfold write_doc; rewrite Hagain, Hpath, !set_key_set_key; reflexivity.
Qed.

End OutputFacts.

(* ------------------------------------------------------------------ *)
(** ** add_image_to_doc *)

Module ImageFacts.
Import Dict Tex DictFacts AddLineFacts Blocks BlockFacts Images Examples.
Import StrFacts Paths.

Section Images.
Variable float : Type.
Variable str_round2 : float -> string.
Variable library_saves : figure -> string -> bool.

(** X20.  When [add_image_to_doc] raises, the document is as before.  A
    figure of no supported kind raises the type error after the figures
    directory is made and before anything is saved.  A file type that the
    plotting library does not write raises the library's error, with
    nothing saved and [include_figure] not reached.  A file type that the
    library writes but that is neither "jpg" nor "svg" is refused only
    after the image has been saved: the directory is made, the image file
    is written, and then the value error of [include_figure] is raised. *)
Theorem add_image_to_doc_failures (fig : figure)
    (filename filetype title section subsection caption : string)
    (fig_width : float) (d : TexDoc) :
  let run := add_image_to_doc float str_round2 library_saves fig filename
               filetype title (Store d) section subsection caption
               fig_width in
  (fig = OtherObject ->
   run = (Store d, [Mkdir (fig_dir d)],
          inl (TypeError "Figure type not supported")))
  /\ (fig <> OtherObject -> library_saves fig filetype = false ->
      run = (Store d, [Mkdir (fig_dir d)], inl (SaveError filetype)))
  /\ (fig <> OtherObject -> library_saves fig filetype = true ->
      filetype <> "jpg" -> filetype <> "svg" ->
      run = (Store d,
             [Mkdir (fig_dir d);
              SaveFigure fig (fig_file d filename filetype)],
             inl (Raised
                    (ValueError "File type for figure not supported yet")))).
Proof.
  cbv zeta. split; [|split].
  - intros ->. reflexivity.
  - intros Hfig Hno. unfold add_image_to_doc. rewrite Hno.
    destruct fig; [reflexivity | reflexivity | reflexivity | congruence].
  - intros Hfig Hyes Hj Hs. unfold add_image_to_doc.
    rewrite Hyes,
      (include_figure_unsupported float str_round2 _ _ _ _ _ _ _ _ _ Hj Hs).
    destruct fig; [reflexivity | reflexivity | reflexivity | congruence].
Qed.

(** X21.  When the figure is of a supported kind, the file name is plain
    (no "/"), and the file type is "jpg" or "svg" and written by the
    plotting library, [add_image_to_doc] makes the figures directory,
    saves the image and adds the figure block; the file named by the
    block's embed command, relative to the document's path, is the file
    that was saved. *)
Theorem add_image_to_doc_saved_is_embedded (fig : figure)
    (filename filetype title section subsection caption : string)
    (fig_width : float) (d : TexDoc) :
  fig <> OtherObject -> plain_name filename = true ->
  filetype = "jpg" \/ filetype = "svg" ->
  library_saves fig filetype = true ->
  exists d' rel,
    add_image_to_doc float str_round2 library_saves fig filename filetype
      title (Store d) section subsection caption fig_width
    = (Store d', [Mkdir (fig_dir d); SaveFigure fig (path d ++ "/" ++ rel)],
       inr tt)
    /\ rel = "figures/" ++ filename ++ "." ++ filetype
    /\ In ("\" ++ command_of filetype ++ "[width=" ++ str_round2 fig_width
             ++ "\paperwidth]{./" ++ rel ++ "}")
         (lines_at (content d') section subsection).
Proof.
  intros Hfig _ Hft Hyes.
  destruct (include_figure_lines float str_round2 title filename filetype
              fig_folder section subsection caption fig_width d Hft)
    as [Hr Hl].
  destruct (include_figure float str_round2 title filename filetype
              fig_folder section subsection caption fig_width d)
    as [d' r] eqn:E.
  cbn [fst snd] in Hr, Hl. subst r.
  exists d', (fig_folder ++ "/" ++ (filename ++ "." ++ filetype)).
  split; [|split].
  - unfold add_image_to_doc. rewrite Hyes, E.
    unfold fig_file, fig_dir. rewrite !append_assoc.
    destruct fig; [reflexivity | reflexivity | reflexivity | congruence].
  - reflexivity.
  - rewrite Hl. apply in_or_app. right. unfold figure_lines.
    rewrite !append_assoc. cbn [In]. tauto.
Qed.

End Images.

Lemma add_image_to_doc_failures_witness :
  add_image_to_doc sample_float sample_str_round2 sample_library_saves
    PlotlyFig "epi_curve" "png" "Epidemic curve"
    (Store (fresh StandardTexDoc)) "Results" "" "Daily cases." "0.85"
  = (Store (fresh StandardTexDoc),
     [Mkdir "out/figures"; SaveFigure PlotlyFig "out/figures/epi_curve.png"],
     inl (Raised (ValueError "File type for figure not supported yet")))
  /\ add_image_to_doc sample_float sample_str_round2 sample_library_saves
       MplFig "epi_curve" "xyz" "Epidemic curve"
       (Store (fresh StandardTexDoc)) "Results" "" "Daily cases." "0.85"
     = (Store (fresh StandardTexDoc), [Mkdir "out/figures"],
        inl (SaveError "xyz")).
Proof.
  split.
  - destruct (add_image_to_doc_failures sample_float sample_str_round2
                sample_library_saves PlotlyFig "epi_curve" "png"
                "Epidemic curve" "Results" "" "Daily cases." "0.85"
                (fresh StandardTexDoc)) as [_ [_ H]].
    rewrite H; [reflexivity | discriminate | reflexivity | discriminate
               | discriminate].
  - destruct (add_image_to_doc_failures sample_float sample_str_round2
                sample_library_saves MplFig "epi_curve" "xyz"
                "Epidemic curve" "Results" "" "Daily cases." "0.85"
                (fresh StandardTexDoc)) as [_ [H _]].
    rewrite H; [reflexivity | discriminate | reflexivity].
Defined.

Lemma add_image_to_doc_saved_is_embedded_witness :
  exists d' rel,
    add_image_to_doc sample_float sample_str_round2 sample_library_saves
      MplFig "epi_curve" "svg" "Epidemic curve"
      (Store (fresh StandardTexDoc)) "Results" "" "Daily cases." "0.85"
    = (Store d',
       [Mkdir (fig_dir (fresh StandardTexDoc));
        SaveFigure MplFig (path (fresh StandardTexDoc) ++ "/" ++ rel)],
       inr tt)
    /\ rel = "figures/epi_curve.svg"
    /\ In ("\" ++ command_of "svg" ++ "[width="
             ++ sample_str_round2 "0.85" ++ "\paperwidth]{./" ++ rel ++ "}")
         (lines_at (content d') "Results" "").
Proof.
  apply (add_image_to_doc_saved_is_embedded sample_float sample_str_round2
           sample_library_saves MplFig "epi_curve" "svg" "Epidemic curve"
           "Results" "" "Daily cases." "0.85" (fresh StandardTexDoc)).
  - discriminate.
  - reflexivity.
  - right. reflexivity.
  - reflexivity.
Defined.

End ImageFacts.

(* ------------------------------------------------------------------ *)
(** ** More on include_figure *)

Module FigureMore.
Import Dict Tex DictFacts AddLineFacts PrepareFacts Calls ContentOf.
Import Blocks BlockFacts AddLineMore Examples.

Lemma lines_added_elsewhere (ls : list string) (s u s' u' : string) :
  (s', u') <> (s, u) ->
  lines_added (map (fun l => mk_call l s u) ls) s' u' = [].
Proof.
  intros Hne. unfold lines_added.
  rewrite filter_nil_of_none; [reflexivity|].
  intros k Hk. apply in_map_iff in Hk. destruct Hk as [l [<- _]].
  destruct (at_place s' u' (mk_call l s u)) eqn:E; [|reflexivity].
  apply at_place_iff in E. cbn in E. destruct E as [-> ->].
  exfalso. apply Hne. reflexivity.
Qed.

Section Figures.
Variable float : Type.
Variable str_round2 : float -> string.

(** X22.  [include_figure] touches only the place it is given: whatever
    the file type, and whether it returns or raises, every other section
    and subsection holds the same lines afterwards, and the flag
    [prepared] is as before. *)
Theorem include_figure_elsewhere
    (title filename filetype fig_path section subsection caption : string)
    (fig_width : float) (d : TexDoc) (s u : string) :
  (s, u) <> (section, subsection) ->
  let d' := fst (include_figure float str_round2 title filename filetype
                   fig_path section subsection caption fig_width d) in
  lines_at (content d') s u = lines_at (content d) s u
  /\ prepared d' = prepared d.
Proof.
  intros Hne d'. subst d'.
  destruct (string_dec filetype "jpg") as [Hj|Hj];
    [|destruct (string_dec filetype "svg") as [Hs|Hs]].
  - rewrite (include_figure_supported float str_round2 _ _ _ _ _ _ _ _ _
               (or_introl Hj)).
    split.
    + rewrite content_add_lines, lines_at_add_lines.
      rewrite (lines_added_elsewhere _ _ _ _ _ Hne). apply app_nil_r.
    + rewrite add_lines_eq. reflexivity.
  - rewrite (include_figure_supported float str_round2 _ _ _ _ _ _ _ _ _
               (or_intror Hs)).
    split.
    + rewrite content_add_lines, lines_at_add_lines.
      rewrite (lines_added_elsewhere _ _ _ _ _ Hne). apply app_nil_r.
    + rewrite add_lines_eq. reflexivity.
  - rewrite (include_figure_unsupported float str_round2 _ _ _ _ _ _ _ _ _
               Hj Hs).
    split; reflexivity.
Qed.

End Figures.

Lemma include_figure_elsewhere_witness :
  lines_at
    (content
       (fst (include_figure sample_float sample_str_round2 "Epidemic curve"
               "epi_curve" "jpg" "figures" "Intro" "Background"
               "Daily cases." "0.85"
               (after hello_calls (fresh ConcreteTexDoc)))))
    "Intro" ""
  = ["Hello"].
Proof.
  destruct (include_figure_elsewhere sample_float sample_str_round2
              "Epidemic curve" "epi_curve" "jpg" "figures" "Intro"
              "Background" "Daily cases." "0.85"
              (after hello_calls (fresh ConcreteTexDoc)) "Intro" "")
    as [H _]; [discriminate|].
  rewrite H. vm_compute. reflexivity.
Defined.

End FigureMore.
